(** * sortphotos: timestamp resolution and file placement

    A shallow embedding of [sortphotos.py] (parse_date_exif,
    get_oldest_timestamp, check_for_early_morning_photos and sortPhotos)
    together with the properties its design document states about them.

    Conventions of the embedding:
    - a Python [str] is a [string]; its characters are code points below 256;
    - a Python [int] is a [Z];
    - a call that may raise returns a [result]: [Ok v] for a normal return,
      [Raise e] for an exception [e] that nothing on the way catches;
    - the Python semantics followed is that of CPython 3. *)

From Stdlib Require Import ZArith String Ascii List Lia Bool.
From stdpp Require Import gmap strings list fin_maps pretty.

Local Open Scope string_scope.
Local Open Scope list_scope.
Local Open Scope Z_scope.

(** ** Exceptions and results *)

Inductive exn : Type :=
  | ValueError
  | OverflowError
  | IndexError
  | KeyError
  | AttributeError
  | TypeError
  | FileNotFoundError
  | OSError
  | ShutilError
  | Exception (msg : string).

Inductive result (A : Type) : Type :=
  | Ok (a : A)
  | Raise (e : exn).

Arguments Ok {A} a.
Arguments Raise {A} e.

(** Sequencing: [x ← r; k] runs [k] on the value of [r] and passes an
    exception of [r] on. *)
Global Instance result_bind : MBind result := fun A B k r =>
  match r with
  | Ok a => k a
  | Raise e => Raise e
  end.

Global Instance result_ret : MRet result := fun A a => Ok a.

Definition is_ok {A : Type} (r : result A) : bool :=
  match r with Ok _ => true | Raise _ => false end.

(** ** Python string primitives *)

Module Py.

Definition code (c : ascii) : Z := Z.of_N (N_of_ascii c).

(** [str.isspace] on one character (code points below 256). *)
Definition is_space (c : ascii) : bool :=
  let n := code c in
  ((9 <=? n) && (n <=? 13)) || ((28 <=? n) && (n <=? 32))
  || (n =? 133) || (n =? 160).

Definition is_digit (c : ascii) : bool :=
  let n := code c in (48 <=? n) && (n <=? 57).

Definition is_empty (s : string) : bool :=
  match s with EmptyString => true | String _ _ => false end.

Definition snoc (s : string) (c : ascii) : string := s +:+ String c "".

(** [not l] on a list *)
Definition is_empty_list {A : Type} (l : list A) : bool :=
  match l with [] => true | _ :: _ => false end.

(** [s.lstrip()], [s.rstrip()], [s.strip()] *)
Fixpoint lstrip (s : string) : string :=
  match s with
  | EmptyString => ""
  | String c s' => if is_space c then lstrip s' else s
  end.

Fixpoint rstrip (s : string) : string :=
  match s with
  | EmptyString => ""
  | String c s' =>
      let r := rstrip s' in
      if is_empty r && is_space c then "" else String c r
  end.

Definition strip (s : string) : string := rstrip (lstrip s).

(** [s.split()]: the maximal runs of non-blank characters, in order. *)
Fixpoint split_ws_go (cur s : string) : list string :=
  match s with
  | EmptyString => if is_empty cur then [] else [cur]
  | String c s' =>
      if is_space c
      then (if is_empty cur then split_ws_go "" s'
            else cur :: split_ws_go "" s')
      else split_ws_go (snoc cur c) s'
  end.

Definition split_ws (s : string) : list string := split_ws_go "" s.

(** [s.split(sep)] for a one-character separator: never empty. *)
Fixpoint split_go (sep : ascii) (cur s : string) : list string :=
  match s with
  | EmptyString => [cur]
  | String c s' =>
      if Ascii.eqb c sep then cur :: split_go sep "" s'
      else split_go sep (snoc cur c) s'
  end.

Definition split (sep : ascii) (s : string) : list string :=
  split_go sep "" s.

(** [re.split('(\+|-|Z)', s)]: the pieces between the separators, with
    each separator kept as an element of its own. *)
Definition is_tz_sep (c : ascii) : bool :=
  Ascii.eqb c "+" || Ascii.eqb c "-" || Ascii.eqb c "Z".

Fixpoint re_split_tz_go (cur s : string) : list string :=
  match s with
  | EmptyString => [cur]
  | String c s' =>
      if is_tz_sep c then cur :: String c "" :: re_split_tz_go "" s'
      else re_split_tz_go (snoc cur c) s'
  end.

Definition re_split_tz (s : string) : list string := re_split_tz_go "" s.

(** [''.join(l)] *)
Definition join (l : list string) : string := String.concat "" l.

(** [needle in hay] *)
Fixpoint str_in (needle hay : string) : bool :=
  String.prefix needle hay
  || match hay with
     | EmptyString => false
     | String _ hay' => str_in needle hay'
     end.

(** [a > b] on strings: lexicographic on code points. *)
Definition str_gt (a b : string) : bool :=
  match String.compare a b with Gt => true | _ => false end.

Definition startswith (s p : string) : bool := String.prefix p s.

(** [l[i]] for an index known to be in range; [""] stands for the
    IndexError the callers below exclude by testing [len] first. *)
Definition item (l : list string) (i : nat) : string := nth i l "".

(** [int(s)]: blanks around, an optional sign, then decimal digits where
    single underscores may separate digits. *)
Fixpoint int_digits (acc : Z) (after_digit : bool) (s : string) : option Z :=
  match s with
  | EmptyString => if after_digit then Some acc else None
  | String c s' =>
      if is_digit c then int_digits (10 * acc + (code c - 48)) true s'
      else if Ascii.eqb c "_" then
        (if after_digit then int_digits acc false s' else None)
      else None
  end.

Definition int_opt (s : string) : option Z :=
  match strip s with
  | String "+" r => int_digits 0 false r
  | String "-" r => option_map Z.opp (int_digits 0 false r)
  | r => int_digits 0 false r
  end.

Definition int (s : string) : result Z :=
  match int_opt s with
  | Some n => Ok n
  | None => Raise ValueError
  end.

End Py.

(** ** The library's [datetime] and [timedelta]

    A naive [datetime] is held as the proleptic Gregorian ordinal of its
    day ([date.toordinal()], day 1 is 0001-01-01) and its time of day; the
    constructor computes the ordinal from year, month and day as CPython's
    [_ymd2ord] does, and [ord2ymd] gives them back. *)

Module DateTime.

Record datetime : Type := mkDatetime {
  ordinal : Z;
  hour : Z;
  minute : Z;
  second : Z;
  microsecond : Z
}.

Record timedelta : Type := mkTimedelta {
  td_days : Z;
  td_seconds : Z;
  td_microseconds : Z
}.

Definition MINYEAR : Z := 1.
Definition MAXYEAR : Z := 9999.
Definition MAXORDINAL : Z := 3652059.

Definition is_leap (y : Z) : bool :=
  (y mod 4 =? 0) && (negb (y mod 100 =? 0) || (y mod 400 =? 0)).

Definition days_before_year (y : Z) : Z :=
  let p := y - 1 in p * 365 + p / 4 - p / 100 + p / 400.

Definition DAYS_IN_MONTH : list Z :=
  [0; 31; 28; 31; 30; 31; 30; 31; 31; 30; 31; 30; 31].

Definition DAYS_BEFORE_MONTH : list Z :=
  [0; 0; 31; 59; 90; 120; 151; 181; 212; 243; 273; 304; 334].

Definition days_in_month (y m : Z) : Z :=
  if (m =? 2) && is_leap y then 29 else nth (Z.to_nat m) DAYS_IN_MONTH 0.

Definition days_before_month (y m : Z) : Z :=
  nth (Z.to_nat m) DAYS_BEFORE_MONTH 0
  + (if (2 <? m) && is_leap y then 1 else 0).

Definition ymd2ord (y m d : Z) : Z :=
  days_before_year y + days_before_month y m + d.

Definition ord2ymd (n0 : Z) : Z * Z * Z :=
  let n := n0 - 1 in
  let n400 := n / 146097 in
  let n := n mod 146097 in
  let n100 := n / 36524 in
  let n := n mod 36524 in
  let n4 := n / 1461 in
  let n := n mod 1461 in
  let n1 := n / 365 in
  let n := n mod 365 in
  let year := n400 * 400 + 1 + n100 * 100 + n4 * 4 + n1 in
  if (n1 =? 4) || (n100 =? 4) then (year - 1, 12, 31)
  else
    let leapyear := (n1 =? 3) && (negb (n4 =? 24) || (n100 =? 3)) in
    let month := Z.shiftr (n + 50) 5 in
    let preceding :=
      nth (Z.to_nat month) DAYS_BEFORE_MONTH 0
      + (if (2 <? month) && leapyear then 1 else 0) in
    if n <? preceding then
      let month := month - 1 in
      let preceding :=
        preceding - (nth (Z.to_nat month) DAYS_IN_MONTH 0
                     + (if (month =? 2) && leapyear then 1 else 0)) in
      (year, month, n - preceding + 1)
    else (year, month, n - preceding + 1).

Definition year (d : datetime) : Z := fst (fst (ord2ymd (ordinal d))).
Definition month (d : datetime) : Z := snd (fst (ord2ymd (ordinal d))).
Definition day (d : datetime) : Z := snd (ord2ymd (ordinal d)).

(** An argument must fit a C [int] before its range is looked at. *)
Definition c_int (x : Z) : bool := (- 2 ^ 31 <=? x) && (x <? 2 ^ 31).

Definition in_range (lo x hi : Z) : bool := (lo <=? x) && (x <=? hi).

(** [datetime(year, month, day, hour, minute, second)] *)
Definition new (y m d h mi s : Z) : result datetime :=
  if negb (forallb c_int [y; m; d; h; mi; s]) then Raise OverflowError
  else if negb (in_range MINYEAR y MAXYEAR) then Raise ValueError
  else if negb (in_range 1 m 12) then Raise ValueError
  else if negb (in_range 1 d (days_in_month y m)) then Raise ValueError
  else if negb (in_range 0 h 23) then Raise ValueError
  else if negb (in_range 0 mi 59) then Raise ValueError
  else if negb (in_range 0 s 59) then Raise ValueError
  else Ok (mkDatetime (ymd2ord y m d) h mi s 0).

(** The fields of a datetime the constructor can have built. *)
Definition wf (d : datetime) : Prop :=
  1 <= ordinal d <= MAXORDINAL /\ 0 <= hour d <= 23 /\
  0 <= minute d <= 59 /\ 0 <= second d <= 59 /\
  0 <= microsecond d <= 999999.

(** [timedelta(hours=h, minutes=m)], normalised to days and seconds;
    the day count is limited to nine digits. *)
Definition MAX_DELTA_DAYS : Z := 999999999.

Definition new_timedelta (hours minutes : Z) : result timedelta :=
  let secs := hours * 3600 + minutes * 60 in
  let days := secs / 86400 in
  if in_range (- MAX_DELTA_DAYS) days MAX_DELTA_DAYS
  then Ok (mkTimedelta days (secs mod 86400) 0)
  else Raise OverflowError.

(** [-t] *)
Definition neg_timedelta (t : timedelta) : timedelta :=
  let us := - (td_microseconds t) in
  let secs := - (td_seconds t) + us / 1000000 in
  mkTimedelta (- (td_days t) + secs / 86400) (secs mod 86400)
              (us mod 1000000).

(** [d + t]: the sum is normalised and must fall on a day the type has. *)
Definition add (d : datetime) (t : timedelta) : result datetime :=
  let us := microsecond d + td_microseconds t in
  let secs :=
    hour d * 3600 + minute d * 60 + second d + td_seconds t
    + us / 1000000 in
  let days := ordinal d + td_days t + secs / 86400 in
  let rem := secs mod 86400 in
  if (0 <? days) && (days <=? MAXORDINAL)
  then Ok (mkDatetime days (rem / 3600) (rem mod 3600 / 60)
                      (rem mod 3600 mod 60) (us mod 1000000))
  else Raise OverflowError.

(** [d - t] *)
Definition sub (d : datetime) (t : timedelta) : result datetime :=
  add d (neg_timedelta t).

(** Comparison is field by field, the day first. *)
Definition key (d : datetime) : list Z :=
  [ordinal d; hour d; minute d; second d; microsecond d].

Fixpoint cmp_list (a b : list Z) : comparison :=
  match a, b with
  | x :: a', y :: b' =>
      match x ?= y with
      | Eq => cmp_list a' b'
      | c => c
      end
  | [], [] => Eq
  | [], _ :: _ => Lt
  | _ :: _, [] => Gt
  end.

Definition cmp (a b : datetime) : comparison := cmp_list (key a) (key b).

Definition ltb (a b : datetime) : bool :=
  match cmp a b with Lt => true | _ => false end.

Definition eqb (a b : datetime) : bool :=
  match cmp a b with Eq => true | _ => false end.

(** A rendering of [strftime] for the directives %Y %m %d %H %M %S %b
    and %% in the C locale; other characters are copied. *)
Definition two (n : Z) : string :=
  if n <? 10 then "0" +:+ pretty n else pretty n.

Definition MONTH_ABBR : list string :=
  [""; "Jan"; "Feb"; "Mar"; "Apr"; "May"; "Jun";
   "Jul"; "Aug"; "Sep"; "Oct"; "Nov"; "Dec"].

Fixpoint render (fmt : string) (d : datetime) : string :=
  match fmt with
  | String "%" (String c rest) =>
      (if Ascii.eqb c "Y" then pretty (year d)
       else if Ascii.eqb c "m" then two (month d)
       else if Ascii.eqb c "d" then two (day d)
       else if Ascii.eqb c "H" then two (hour d)
       else if Ascii.eqb c "M" then two (minute d)
       else if Ascii.eqb c "S" then two (second d)
       else if Ascii.eqb c "b" then nth (Z.to_nat (month d)) MONTH_ABBR ""
       else if Ascii.eqb c "%" then "%"
       else String "%" (String c ""))
      +:+ render rest d
  | String c rest => String c (render rest d)
  | EmptyString => ""
  end.

(** CPython 3 formats every year; CPython 2 refuses years before 1900. *)
Definition strftime_py3 (fmt : string) (d : datetime) : result string :=
  Ok (render fmt d).

Definition strftime_py2 (fmt : string) (d : datetime) : result string :=
  if year d <? 1900 then Raise ValueError else Ok (render fmt d).

End DateTime.

Import DateTime.

(** ** Metadata records

    One record is the JSON object ExifTool prints for a file: its keys in
    the order of the object, each with a string, a number (kept as the text
    [str] gives for it) or a list of such texts. *)

Inductive value : Type :=
  | VStr (s : string)
  | VNum (repr : string)
  | VList (items : list string).

Definition record : Type := list (string * value).

(** [str(v)] of a scalar *)
Definition str_of (v : value) : string :=
  match v with
  | VStr s => s
  | VNum r => r
  | VList _ => ""
  end.

(** [data[key]] *)
Fixpoint dict_get (key : string) (data : record) : result value :=
  match data with
  | [] => Raise KeyError
  | (k, v) :: rest => if String.eqb k key then Ok v else dict_get key rest
  end.

(** [data.keys()] *)
Definition keys (data : record) : list string := map fst data.

(** [x in l] on a list of strings *)
Definition mem (x : string) (l : list string) : bool :=
  existsb (String.eqb x) l.

(** ** The convenience methods of sortphotos.py *)

Section Core.

(** [d.strftime(fmt)] belongs to the platform: it gives the text or
    raises ValueError for a date it cannot format. *)
Variable strftime : string -> datetime -> result string.

(** The three fields of the time token, lines 65-75. *)
Definition parse_time (time : list string) : result (Z * Z * Z) :=
  if (length time =? 3)%nat then
    hour ← Py.int (Py.item time 0);
    minute ← Py.int (Py.item time 1);
    second ← Py.int (Py.item (Py.split "." (Py.item time 2)) 0);
    Ok (hour, minute, second)
  else if (length time =? 2)%nat then
    hour ← Py.int (Py.item time 0);
    minute ← Py.int (Py.item time 1);
    Ok (hour, minute, 0)
  else Ok (12, 0, 0).

(** The time-zone adjustment, lines 77-90: [Some dateadd] stands for
    [time_zone_adjust = True]. *)
Definition parse_time_zone (time_entries : list string)
  : result (option timedelta) :=
  if (2 <? length time_entries)%nat then
    let time_zone := Py.split ":" (Py.item time_entries 2) in
    if (length time_zone =? 2)%nat then
      time_zone_hour ← Py.int (Py.item time_zone 0);
      time_zone_min ← Py.int (Py.item time_zone 1);
      let time_zone_hour :=
        if String.eqb (Py.item time_entries 1) "-"
        then time_zone_hour * -1 else time_zone_hour in
      dateadd ← new_timedelta time_zone_hour time_zone_min;
      Ok (Some dateadd)
    else Ok None
  else Ok None.

(** The test of line 52 on the date token. *)
Definition date_shape_ok (date_entries : list string) : bool :=
  (length date_entries =? 3)%nat
  && Py.str_gt (Py.item date_entries 0) "0000"
  && negb (Py.str_in "." (Py.join date_entries))
  && (String.length (Py.item date_entries 0) =? 4)%nat.

(** Hour, minute, second and time-zone shift, lines 59-90; [more] is
    [elements[1:]], and without a time token the time is noon. *)
Definition parse_clock (more : list string)
  : result (Z * Z * Z * option timedelta) :=
  match more with
  | [] => Ok (12, 0, 0, None)
  | element1 :: _ =>
      let time_entries := Py.re_split_tz element1 in
      let time := Py.split ":" (Py.item time_entries 0) in
      '(hour, minute, second) ← parse_time time;
      dateadd ← parse_time_zone time_entries;
      Ok (hour, minute, second, dateadd)
  end.

(** Forming the date object, lines 93-109: a ValueError of the
    constructor or of [strftime] gives [None]; the time-zone shift is
    added last, outside the two [try] blocks. *)
Definition form_date (year month day hour minute second : Z)
    (dateadd : option timedelta) : result (option datetime) :=
  match DateTime.new year month day hour minute second with
  | Raise ValueError => Ok None
  | Raise e => Raise e
  | Ok date =>
      match strftime "%Y/%m-%b" date with
      | Raise ValueError => Ok None
      | Raise e => Raise e
      | Ok _ =>
          match dateadd with
          | Some delta => date' ← DateTime.add date delta; Ok (Some date')
          | None => Ok (Some date)
          end
      end
  end.

(** [parse_date_exif(date_string)]: [Ok None] is the return of [None]. *)
Definition parse_date_exif (date_string : string)
  : result (option datetime) :=
  let elements := Py.split_ws (Py.strip date_string) in
  match elements with
  | [] => Ok None
  | element0 :: more =>
      let date_entries := Py.split ":" element0 in
      if date_shape_ok date_entries then
        year ← Py.int (Py.item date_entries 0);
        month ← Py.int (Py.item date_entries 1);
        day ← Py.int (Py.item date_entries 2);
        '(hour, minute, second, dateadd) ← parse_clock more;
        form_date year month day hour minute second dateadd
      else Ok None
  end.

(** The state of the loop of [get_oldest_timestamp]. *)
Record oldest : Type := mkOldest {
  date_available : bool;
  oldest_date : datetime;
  oldest_keys : list string
}.

(** The test of line 136: the key takes part in the search. *)
Definition key_used (ignore_groups ignore_tags : list string)
    (key : string) : bool :=
  negb (mem key ignore_tags)
  && negb (mem (Py.item (Py.split ":" key) 0) ignore_groups)
  && negb (Py.str_in "GPS" key).

(** One turn of the loop over the keys, lines 133-154. *)
Definition oldest_step (data : record)
    (ignore_groups ignore_tags : list string)
    (st : oldest) (key : string) : result oldest :=
  if key_used ignore_groups ignore_tags key then
    date ← dict_get key data;
    date ← match date with
           | VList [] => Raise IndexError
           | VList (first :: _) => Ok first
           | v => Ok (str_of v)
           end;
    exifdate ← parse_date_exif date;
    match exifdate with
    | Some exifdate =>
        if DateTime.ltb exifdate (oldest_date st)
        then Ok (mkOldest true exifdate [key])
        else if DateTime.eqb exifdate (oldest_date st)
        then Ok (mkOldest (date_available st) (oldest_date st)
                          (oldest_keys st ++ [key]))
        else Ok st
    | None => Ok st
    end
  else Ok st.

Fixpoint oldest_loop (data : record)
    (ignore_groups ignore_tags : list string)
    (ks : list string) (st : oldest) : result oldest :=
  match ks with
  | [] => Ok st
  | key :: ks' =>
      st' ← oldest_step data ignore_groups ignore_tags st key;
      oldest_loop data ignore_groups ignore_tags ks' st'
  end.

(** [get_oldest_timestamp(data, additional_groups_to_ignore,
    additional_tags_to_ignore)]; [now] is what [datetime.now()] reads. *)
Definition get_oldest_timestamp (now : datetime) (data : record)
    (additional_groups_to_ignore additional_tags_to_ignore : list string)
  : result (value * option datetime * list string) :=
  src_file ← dict_get "SourceFile" data;
  let ignore_groups := "ICC_Profile" :: additional_groups_to_ignore in
  let ignore_tags :=
    "SourceFile" :: "XMP:HistoryWhen" :: additional_tags_to_ignore in
  st ← oldest_loop data ignore_groups ignore_tags (keys data)
                   (mkOldest false now []);
  Ok (src_file,
      if date_available st then Some (oldest_date st) else None,
      oldest_keys st).

(** [check_for_early_morning_photos(date, day_begins)] *)
Definition check_for_early_morning_photos (date : datetime)
    (day_begins : Z) : result datetime :=
  if hour date <? day_begins then
    delta ← new_timedelta (hour date + 1) 0;
    DateTime.sub date delta
  else Ok date.

End Core.

(** ** Paths ([posixpath])

    A path names a file by its text: the model has no links and no
    current-directory or parent-directory segments. *)

Module Path.

(** [s.rfind(c)]: the last index of [c], if any. *)
Fixpoint rfind_go (c : ascii) (s : string) (i : nat) (last : option nat)
  : option nat :=
  match s with
  | EmptyString => last
  | String x s' =>
      rfind_go c s' (S i) (if Ascii.eqb x c then Some i else last)
  end.

Definition rfind (c : ascii) (s : string) : option nat :=
  rfind_go c s 0 None.

(** [s[:i]] and [s[i:]] *)
Fixpoint take (i : nat) (s : string) : string :=
  match i, s with
  | S i', String x s' => String x (take i' s')
  | _, _ => ""
  end.

Fixpoint drop (i : nat) (s : string) : string :=
  match i, s with
  | S i', String _ s' => drop i' s'
  | _, _ => s
  end.

(** [s[i:i+1]] *)
Definition at_index (i : nat) (s : string) : string := take 1 (drop i s).

Fixpoint all_sep (s : string) : bool :=
  match s with
  | EmptyString => true
  | String x s' => Ascii.eqb x "/" && all_sep s'
  end.

(** [s.rstrip('/')] *)
Fixpoint rstrip_sep (s : string) : string :=
  match s with
  | EmptyString => ""
  | String x s' =>
      let r := rstrip_sep s' in
      if Py.is_empty r && Ascii.eqb x "/" then "" else String x r
  end.

Definition endswith_sep (s : string) : bool :=
  match rfind "/" s with
  | Some i => (S i =? String.length s)%nat
  | None => false
  end.

(** [os.path.join(a, b)] *)
Definition join (a b : string) : string :=
  if Py.startswith b "/" then b
  else if Py.is_empty a || endswith_sep a then a +:+ b
  else a +:+ "/" +:+ b.

(** [os.path.split(p)] *)
Definition split (p : string) : string * string :=
  let i := match rfind "/" p with Some i => S i | None => O end in
  let head := take i p in
  let tail := drop i p in
  (if negb (Py.is_empty head) && negb (all_sep head)
   then rstrip_sep head else head,
   tail).

Definition basename (p : string) : string := snd (split p).
Definition dirname (p : string) : string := fst (split p).

(** The loop of [genericpath._splitext] that skips leading dots:
    some index in [filenameIndex, dotIndex) holds another character. *)
Fixpoint has_name (p : string) (filenameIndex count : nat) : bool :=
  match count with
  | O => false
  | S count' =>
      if negb (String.eqb (at_index filenameIndex p) ".") then true
      else has_name p (S filenameIndex) count'
  end.

(** [os.path.splitext(p)] *)
Definition splitext (p : string) : string * string :=
  let filenameIndex :=
    match rfind "/" p with Some i => S i | None => O end in
  match rfind "." p with
  | Some dotIndex =>
      if (filenameIndex <=? dotIndex)%nat
         && has_name p filenameIndex (dotIndex - filenameIndex)
      then (take dotIndex p, drop dotIndex p)
      else (p, "")
  | None => (p, "")
  end.

End Path.

(** ** The file system

    The disk maps each path that exists to what it holds; a file has a
    content and a modification time.  A path made of slashes only is the
    root directory, which always exists; the empty path names nothing, and
    as the parent of a relative name it stands for the working directory.
    Every failure of a file-system call is an [OSError]. *)

Record file : Type := mkFile { content : string; mtime : Z }.

Inductive node : Type :=
  | File (f : file)
  | Dir.

Global Instance file_eq_dec : EqDecision file.
Proof. solve_decision. Defined.

Global Instance node_eq_dec : EqDecision node.
Proof. solve_decision. Defined.

Module FS.

Definition is_root (p : string) : bool :=
  negb (Py.is_empty p) && Path.all_sep p.

(** [os.stat(p)] *)
Definition stat (disk : gmap string node) (p : string) : option node :=
  if Py.is_empty p then None
  else if is_root p then Some Dir else disk !! p.

(** [os.path.exists], [os.path.isfile], [os.path.isdir] *)
Definition exists_ (disk : gmap string node) (p : string) : bool :=
  match stat disk p with Some _ => true | None => false end.

Definition isfile (disk : gmap string node) (p : string) : bool :=
  match stat disk p with Some (File _) => true | _ => false end.

Definition isdir (disk : gmap string node) (p : string) : bool :=
  match stat disk p with Some Dir => true | _ => false end.

(** The directory a new entry [p] goes into is there. *)
Definition parent_ok (disk : gmap string node) (p : string) : bool :=
  let head := Path.dirname p in
  Py.is_empty head || isdir disk head.

(** The name of [p] inside the directory [top], when [p] is an entry
    of [top]: [p = os.path.join(top, name)] for a name without slash. *)
Definition dir_prefix (top : string) : string :=
  if Path.endswith_sep top then top else top +:+ "/".

Definition child_name (top p : string) : option string :=
  let pre := dir_prefix top in
  if String.prefix pre p then
    let name := Path.drop (String.length pre) p in
    if negb (Py.is_empty name) && negb (Py.str_in "/" name)
    then Some name else None
  else None.

(** The entries of [top], as [os.scandir(top)] lists them. *)
Definition entries (disk : gmap string node) (top : string)
  : list (string * node) :=
  omap (fun '(p, n) =>
          match child_name top p with
          | Some name => Some (name, n)
          | None => None
          end)
       (map_to_list disk).

Definition is_dir_node (n : node) : bool :=
  match n with Dir => true | File _ => false end.

Definition subdirs (disk : gmap string node) (top : string) : list string :=
  map fst (List.filter (fun e => is_dir_node (snd e)) (entries disk top)).

Definition nondirs (disk : gmap string node) (top : string) : list string :=
  map fst (List.filter (fun e => negb (is_dir_node (snd e)))
                       (entries disk top)).

(** [os.remove(p)] *)
Definition remove (disk : gmap string node) (p : string)
  : result (gmap string node) :=
  if isfile disk p then Ok (delete p disk) else Raise OSError.

(** [os.rmdir(p)]: the directory must be empty. *)
Definition rmdir (disk : gmap string node) (p : string)
  : result (gmap string node) :=
  if isdir disk p && negb (is_root p)
     && bool_decide (entries disk p = [])
  then Ok (delete p disk) else Raise OSError.

(** [os.mkdir(p)] *)
Definition mkdir (disk : gmap string node) (p : string)
  : result (gmap string node) :=
  if exists_ disk p || Py.is_empty p || negb (parent_ok disk p)
  then Raise OSError else Ok (<[p := Dir]> disk).

(** The successive heads [os.makedirs] goes through: [name], then
    the head of [os.path.split] (taken twice over a trailing slash) as
    long as head and tail are not empty. *)
Definition makedirs_head (name : string) : option string :=
  let '(head, tail) := Path.split name in
  let '(head, tail) :=
    if Py.is_empty tail then Path.split head else (head, tail) in
  if negb (Py.is_empty head) && negb (Py.is_empty tail)
  then Some head else None.

(** [os.makedirs(name)]; the fuel is the length of [name], which the
    heads never reach again. *)
Fixpoint makedirs_go (fuel : nat) (disk : gmap string node) (name : string)
  : result (gmap string node) :=
  match fuel with
  | O => mkdir disk name
  | S fuel' =>
      match makedirs_head name with
      | Some head =>
          if exists_ disk head then mkdir disk name
          else
            match makedirs_go fuel' disk head with
            | Ok disk' => mkdir disk' name
            | Raise e =>
                (* FileExistsError is passed over; the head is absent
                   here, so every failure is another OSError *)
                Raise e
            end
      | None => mkdir disk name
      end
  end.

Definition makedirs (disk : gmap string node) (name : string)
  : result (gmap string node) :=
  makedirs_go (String.length name) disk name.

(** [os.rename(src, dst)] for a file [src]. *)
Definition rename (disk : gmap string node) (src dst : string)
  : result (gmap string node) :=
  match stat disk src with
  | Some (File f) =>
      if isdir disk dst || Py.is_empty dst || negb (parent_ok disk dst)
      then Raise OSError
      else Ok (<[dst := File f]> (delete src disk))
  | _ => Raise OSError
  end.

(** [shutil.move(src, dst)] *)
Definition move (disk : gmap string node) (src dst : string)
  : result (gmap string node) :=
  if isdir disk dst then
    if String.eqb src dst then rename disk src dst
    else
      let real_dst := Path.join dst (Path.basename (Path.rstrip_sep src)) in
      if exists_ disk real_dst then Raise OSError
      else rename disk src real_dst
  else rename disk src dst.

(** [shutil.copy2(src, dst)]: content and modification time. *)
Definition copy2 (disk : gmap string node) (src dst : string)
  : result (gmap string node) :=
  let dst := if isdir disk dst then Path.join dst (Path.basename src)
             else dst in
  if String.eqb src dst then Raise OSError
  else
    match stat disk src with
    | Some (File f) =>
        if isdir disk dst || Py.is_empty dst || negb (parent_ok disk dst)
        then Raise OSError
        else Ok (<[dst := File f]> disk)
    | _ => Raise OSError
    end.

(** [filecmp.cmp(f1, f2)], shallow: two regular files with the same
    size and modification time are taken as equal without reading them,
    files of different sizes as different, and the contents are compared
    otherwise. *)
Definition cmp (disk : gmap string node) (f1 f2 : string) : result bool :=
  match stat disk f1, stat disk f2 with
  | Some n1, Some n2 =>
      match n1, n2 with
      | File a, File b =>
          if (String.length (content a) =? String.length (content b))%nat
             && (mtime a =? mtime b)
          then Ok true
          else if negb (String.length (content a)
                        =? String.length (content b))%nat
          then Ok false
          else Ok (String.eqb (content a) (content b))
      | _, _ => Ok false
      end
  | _, _ => Raise OSError
  end.

(** The longest path on the disk bounds the depth of a walk. *)
Definition max_len (disk : gmap string node) : nat :=
  foldr Nat.max O (map (fun e => String.length (fst e)) (map_to_list disk)).

(** [os.walk(top, topdown)]: one triple (dirpath, dirnames, filenames)
    for [top] and for every directory below it. *)
Fixpoint walk_go (fuel : nat) (disk : gmap string node) (topdown : bool)
    (top : string) : list (string * list string * list string) :=
  match fuel with
  | O => []
  | S fuel' =>
      if isdir disk top then
        let dirs := subdirs disk top in
        let here := (top, dirs, nondirs disk top) in
        let below :=
          flat_map (fun d => walk_go fuel' disk topdown (Path.join top d))
                   dirs in
        if topdown then here :: below else below ++ [here]
      else []
  end.

Definition walk (disk : gmap string node) (topdown : bool) (top : string)
  : list (string * list string * list string) :=
  walk_go (S (max_len disk)) disk topdown top.

End FS.

(** ** sortPhotos

    The state of a run is the disk and, in test mode, the dictionary
    [test_file_dict] from planned destinations to the sources that claimed
    them.  A step gives the state it leaves and its result: an exception
    keeps the changes made before it. *)

Record state : Type := mkState {
  disk : gmap string node;
  test_file_dict : gmap string string
}.

Definition io (A : Type) : Type := state -> state * result A.

Global Instance io_bind : MBind io := fun A B k m st =>
  match m st with
  | (st', Ok a) => k a st'
  | (st', Raise e) => (st', Raise e)
  end.

Global Instance io_ret : MRet io := fun A a st => (st, Ok a).

(** A step that returns [a] and one that does nothing. *)
Definition ret {A : Type} (a : A) : io A := fun st => (st, Ok a).
Definition skip : io unit := ret tt.

(** [if not b: m] *)
Definition unless (b : bool) (m : io unit) : io unit :=
  if b then skip else m.

(** A call that raises or returns without touching the state. *)
Definition pure {A : Type} (r : result A) : io A := fun st => (st, r).

(** A file-system call that changes the disk. *)
Definition on_disk (f : gmap string node -> result (gmap string node))
  : io unit := fun st =>
  match f (disk st) with
  | Ok d => (mkState d (test_file_dict st), Ok tt)
  | Raise e => (st, Raise e)
  end.

(** A question to the disk. *)
Definition ask {A : Type} (f : gmap string node -> A) : io A :=
  fun st => (st, Ok (f (disk st))).

(** [for x in l: body(x)] *)
Fixpoint for_each {A : Type} (body : A -> io unit) (l : list A) : io unit :=
  match l with
  | [] => skip
  | x :: l' => _ ← body x; for_each body l'
  end.

(** The value given for [ignore_list]. *)
Inductive pyval : Type :=
  | PyNone
  | PyStr (s : string)
  | PyList (l : list string).

Record config : Type := mkConfig {
  src_dir : string;
  dest_dir : string;
  sort_format : string;
  rename_format : option string;
  recursive : bool;
  copy_files : bool;
  test : bool;
  remove_duplicates : bool;
  day_begins : Z;
  additional_groups_to_ignore : list string;
  additional_tags_to_ignore : list string;
  use_only_groups : option (list string);
  use_only_tags : option (list string);
  verbose : bool;
  ignore_list : pyval;
  remove_ignored_files : bool;
  remove_empty_dirs : bool
}.

(** The ignore lists and the arguments to ExifTool, lines 276-298. *)
Definition setup_tags (cfg : config)
  : list string * list string * list string :=
  let args := ["-j"; "-a"; "-G"] in
  let '(groups, tags, args) :=
    match use_only_tags cfg with
    | Some ts => ([], [], args ++ map (fun t => "-" +:+ t) ts)
    | None =>
        match use_only_groups cfg with
        | Some gs =>
            ([], additional_tags_to_ignore cfg,
             args ++ map (fun g => "-" +:+ g +:+ ":Time:All") gs)
        | None =>
            (additional_groups_to_ignore cfg, additional_tags_to_ignore cfg,
             args ++ ["-time:all"])
        end
    end in
  let args := if recursive cfg then args ++ ["-r"] else args in
  (groups, tags, args ++ [src_dir cfg]).

(** Lines 300-301: [ignore_list.split(',')] on anything but [None]. *)
Definition split_ignore_list (v : pyval) : result (option (list string)) :=
  match v with
  | PyNone => Ok None
  | PyStr s => Ok (Some (Py.split "," s))
  | PyList _ => Raise AttributeError
  end.

(** [src_file] as the argument of a path function or of ['...' + src_file] *)
Definition as_str (v : value) : result string :=
  match v with
  | VStr s => Ok s
  | _ => Raise TypeError
  end.

Section Sort.

Variable strftime : string -> datetime -> result string.

(** [fnmatch.fnmatch(name, pattern)] *)
Variable fnmatch : string -> string -> bool.

(** What ExifTool answers to the arguments on the disk as it is. *)
Variable get_metadata : list string -> gmap string node -> list record.

(** [datetime.now()] when the record of the given index is read. *)
Variable clock : nat -> datetime.

(** The scan of lines 305-315 for one file of a directory: the first
    filter that matches deletes it. *)
Fixpoint prescan_file (test_mode : bool) (root current_file : string)
    (filters : list string) : io unit :=
  match filters with
  | [] => skip
  | _filter :: rest =>
      if fnmatch (snd (Path.split current_file)) _filter then
        if negb test_mode
        then on_disk (fun d => FS.remove d (Path.join root current_file))
        else skip
      else prescan_file test_mode root current_file rest
  end.

Definition prescan (cfg : config) (ignore : option (list string))
  : io unit :=
  if recursive cfg && remove_ignored_files cfg then
    match ignore with
    | None => pure (Raise TypeError)
    | Some filters =>
        if (0 <? length filters)%nat then
          triples ← ask (fun d => FS.walk d true (src_dir cfg));
          for_each
            (fun '(root, dirs, files) =>
               for_each
                 (fun current_file =>
                    prescan_file (test cfg) root current_file filters)
                 files)
            triples
        else skip
    end
  else skip.

(** Lines 358-368: every filter that matches deletes the file or
    reports it; the [continue] goes on with the next filter. *)
Definition filter_ignored (cfg : config) (src_file : string)
    (filters : list string) : io unit :=
  for_each
    (fun _filter =>
       if fnmatch (snd (Path.split src_file)) _filter then
         if remove_ignored_files cfg then
           if negb (test cfg)
           then on_disk (fun d => FS.remove d src_file)
           else skip
         else skip
       else skip)
    filters.

(** Lines 384-391: the folders of the destination. *)
Fixpoint make_folders (dest_file : string) (dirs : list string)
  : io string :=
  match dirs with
  | [] => ret dest_file
  | thedir :: rest =>
      let dest_file := Path.join dest_file thedir in
      present ← ask (fun d => FS.exists_ d dest_file);
      _ ← unless present (on_disk (fun d => FS.makedirs d dest_file));
      make_folders dest_file rest
  end.

(** The name is taken, line 423. *)
Definition taken (test_mode : bool) (st : state) (dest_file : string)
  : bool :=
  if test_mode then bool_decide (is_Some (test_file_dict st !! dest_file))
  else FS.isfile (disk st) dest_file.

(** The loop of lines 421-445; [None] when the fuel is used up. *)
Fixpoint check_collisions (fuel : nat) (cfg : config) (st : state)
    (src_file root ext dest_file : string) (append : nat)
  : option (result (string * bool)) :=
  match fuel with
  | O => None
  | S fuel' =>
      if taken (test cfg) st dest_file then
        let dest_compare :=
          if test cfg
          then default "" (test_file_dict st !! dest_file)
          else dest_file in
        let rename_ :=
          check_collisions fuel' cfg st src_file root ext
            (root +:+ "_" +:+ pretty append +:+ ext) (S append) in
        if remove_duplicates cfg then
          match FS.cmp (disk st) src_file dest_compare with
          | Raise e => Some (Raise e)
          | Ok true => Some (Ok (dest_file, true))
          | Ok false => rename_
          end
        else rename_
      else Some (Ok (dest_file, false))
  end.

(** The names the loop can find taken. *)
Definition occupied (test_mode : bool) (st : state) : gset string :=
  if test_mode then dom (test_file_dict st) else dom (disk st).

Definition resolve_collisions (cfg : config) (src_file root ext
    dest_file : string) : io (string * bool) := fun st =>
  match check_collisions (2 + size (occupied (test cfg) st)) cfg st
          src_file root ext dest_file 1 with
  | Some r => (st, r)
  | None => (st, Raise (Exception "collision loop"))
  end.

(** Lines 448-460: the move or the copy. *)
Definition transfer (cfg : config) (src_file dest_file : string)
    (fileIsIdentical : bool) : io unit :=
  if test cfg then
    fun st => (mkState (disk st)
                       (<[dest_file := src_file]> (test_file_dict st)),
               Ok tt)
  else if copy_files cfg then
    if fileIsIdentical then skip
    else on_disk (fun d => FS.copy2 d src_file dest_file)
  else on_disk (fun d => FS.move d src_file dest_file).

(** Lines 370-460, for a file that has a date. *)
Definition place (cfg : config) (src_file : string) (date : datetime)
  : io unit :=
  if Py.startswith (Path.basename src_file) "." then skip
  else
    date ← pure (check_for_early_morning_photos date (day_begins cfg));
    dir_structure ← pure (strftime (sort_format cfg) date);
    let dirs := Py.split "/" dir_structure in
    dest_file ← make_folders (dest_dir cfg) dirs;
    let filename := Path.basename src_file in
    filename ← match rename_format cfg with
               | Some fmt =>
                   let ext := snd (Path.splitext filename) in
                   name ← pure (strftime fmt date);
                   ret (name +:+ ext)
               | None => ret filename
               end;
    let dest_file := Path.join dest_file filename in
    let '(root, ext) := Path.splitext dest_file in
    '(dest_file, fileIsIdentical) ←
      resolve_collisions cfg src_file root ext dest_file;
    transfer cfg src_file dest_file fileIsIdentical.

(** One turn of the loop over the metadata, lines 331-466. *)
Definition process_record (cfg : config) (groups tags : list string)
    (ignore : option (list string)) (idx : nat) (data : record)
  : io unit :=
  '(src_file, date, keys) ←
    pure (get_oldest_timestamp strftime (clock idx) data groups tags);
  _ ← (if verbose cfg then _ ← pure (as_str src_file); skip
       else skip);
  match date with
  | None => skip
  | Some date =>
      src_file ← pure (as_str src_file);
      _ ← match ignore with
          | Some filters => filter_ignored cfg src_file filters
          | None => skip
          end;
      place cfg src_file date
  end.

Fixpoint process_records (cfg : config) (groups tags : list string)
    (ignore : option (list string)) (idx : nat) (metadata : list record)
  : io unit :=
  match metadata with
  | [] => skip
  | data :: rest =>
      _ ← process_record cfg groups tags ignore idx data;
      process_records cfg groups tags ignore (S idx) rest
  end.

(** Lines 472-479 for one triple of the walk. *)
Definition cleanup_dir (cfg : config)
    (triple : string * list string * list string) : io unit :=
  let '(dirpath, dirnames, files) := triple in
  if Py.is_empty_list files && negb (String.eqb dirpath (src_dir cfg))
  then
    if negb (test cfg) then on_disk (fun d => FS.rmdir d dirpath)
    else skip
  else skip.

Definition cleanup (cfg : config) : io unit :=
  if remove_empty_dirs cfg then
    triples ← ask (fun d => FS.walk d false (src_dir cfg));
    for_each (cleanup_dir cfg) triples
  else skip.

(** [sortPhotos(src_dir, dest_dir, ...)]: the disk it leaves and the
    number of records, or the exception. *)
Definition sortPhotos (cfg : config) (d : gmap string node)
  : gmap string node * result nat :=
  let run : io nat :=
    present ← ask (fun d => FS.exists_ d (src_dir cfg));
    _ ← unless present
          (pure (Raise (Exception "Source directory does not exist")));
    let '(groups, tags, args) := setup_tags cfg in
    ignore ← pure (split_ignore_list (ignore_list cfg));
    _ ← prescan cfg ignore;
    metadata ← ask (get_metadata args);
    let num_files := length metadata in
    _ ← process_records cfg groups tags ignore O metadata;
    _ ← cleanup cfg;
    ret num_files in
  let '(st, r) := run (mkState d ∅) in
  (disk st, r).

End Sort.

(** [fnmatch.fnmatch(name, pattern)] for patterns without bracket
    expressions, on a file system whose names are case-sensitive: [*]
    stands for any run of characters and [?] for any one character. *)
Fixpoint glob (name pattern : string) {struct pattern} : bool :=
  match pattern with
  | EmptyString => Py.is_empty name
  | String c pattern' =>
      if Ascii.eqb c "*" then
        (fix star (n : string) : bool :=
           glob n pattern'
           || match n with
              | EmptyString => false
              | String _ n' => star n'
              end) name
      else
        match name with
        | EmptyString => false
        | String x name' =>
            (Ascii.eqb c "?" || Ascii.eqb x c) && glob name' pattern'
        end
  end.

(** ** The ExifTool wrapper

    [ExifTool.execute] writes one request to the kept-open process and
    reads its answer in increments until the text read so far, trailing
    blanks apart, ends with the sentinel. *)

Module ExifTool.

Definition sentinel : string := "{ready}".

(** A character of [' \t\n\r'] *)
Definition is_blank (c : ascii) : bool :=
  Ascii.eqb c " " || Ascii.eqb c "009" || Ascii.eqb c "010"
  || Ascii.eqb c "013".

(** [s.rstrip(' \t\n\r')] *)
Fixpoint rstrip_blanks (s : string) : string :=
  match s with
  | EmptyString => ""
  | String c s' =>
      let r := rstrip_blanks s' in
      if Py.is_empty r && is_blank c then "" else String c r
  end.

(** [s.endswith(suffix)] *)
Definition endswith (s suffix : string) : bool :=
  (String.length suffix <=? String.length s)%nat
  && String.eqb (Path.drop (String.length s - String.length suffix) s) suffix.

(** [s[:-n]] for a positive [n] *)
Definition drop_last (n : nat) (s : string) : string :=
  Path.take (String.length s - n) s.

(** The text written to the process: the arguments and [-execute], one
    per line. *)
Definition request (args : list string) : string :=
  String.concat (String "010" "") (args ++ [String.append "-execute" (String "010" "")]).

(** The loop of lines 202-206 over the increments [os.read] gives, each
    as the text its bytes decode to; [None] when they run out before the
    sentinel is seen (the call then waits for more).  An increment whose
    bytes do not decode on their own, cut inside a character of several
    bytes, raises UnicodeDecodeError at line 203 and has no counterpart
    here: what is said of [execute] below is said of answers whose
    increments decode. *)
Fixpoint read_output (output : string) (increments : list string)
  : option string :=
  if endswith (rstrip_blanks output) sentinel then Some output
  else
    match increments with
    | [] => None
    | increment :: rest => read_output (output +:+ increment) rest
    end.

(** [execute]: the request, and the answer without the sentinel. *)
Definition execute (args : list string) (increments : list string)
  : string * option string :=
  (request args,
   match read_output "" increments with
   | Some output =>
       Some (drop_last (String.length sentinel) (rstrip_blanks output))
   | None => None
   end).

End ExifTool.

(** ** Notions the statements use *)

(** Seconds since the midnight before day 1. *)
Definition to_seconds (d : datetime) : Z :=
  ordinal d * 86400 + hour d * 3600 + minute d * 60 + second d.

(** The length of a [timedelta] of whole seconds. *)
Definition delta_seconds (t : timedelta) : Z :=
  td_days t * 86400 + td_seconds t.

Fixpoint str_all (p : ascii -> bool) (s : string) : bool :=
  match s with
  | EmptyString => true
  | String c s' => p c && str_all p s'
  end.

Definition no_blank (s : string) : bool :=
  str_all (fun c => negb (Py.is_space c)) s.

Definition no_tz_sep (s : string) : bool :=
  str_all (fun c => negb (Py.is_tz_sep c)) s.

Definition all_digits (s : string) : bool :=
  negb (Py.is_empty s) && str_all Py.is_digit s.

Section Candidates.

Variable strftime : string -> datetime -> result string.

(** What one key brings to the search of [get_oldest_timestamp]:
    [Ok (Some d)] a timestamp, [Ok None] nothing (the key is left out by
    line 136, or its value is no date), [Raise e] an exception that ends
    the search. *)
Definition tag_date (data : record) (ignore_groups ignore_tags : list string)
    (key : string) : result (option datetime) :=
  if key_used ignore_groups ignore_tags key then
    date ← dict_get key data;
    date ← match date with
           | VList [] => Raise IndexError
           | VList (first :: _) => Ok first
           | v => Ok (str_of v)
           end;
    parse_date_exif strftime date
  else Ok None.

(** The key's value parses to the timestamp [d]. *)
Definition dated (data : record) (ignore_groups ignore_tags : list string)
    (d : datetime) (key : string) : bool :=
  match tag_date data ignore_groups ignore_tags key with
  | Ok (Some d') => DateTime.eqb d' d
  | _ => false
  end.

(** The change one parsed value makes to the state of the search,
    lines 148-154. *)
Definition oldest_update (st : oldest) (key : string)
    (exifdate : option datetime) : oldest :=
  match exifdate with
  | Some e =>
      if DateTime.ltb e (oldest_date st) then mkOldest true e [key]
      else if DateTime.eqb e (oldest_date st)
      then mkOldest (date_available st) (oldest_date st)
                    (oldest_keys st ++ [key])
      else st
  | None => st
  end.

(** The invariant of the search after the keys [pre], begun at [now]:
    no key of [pre] parses to a timestamp before [oldest_date],
    [oldest_keys] are the keys of [pre] that parse to it, and a date is
    available exactly when [oldest_date] was taken from a key. *)
Definition selects (now : datetime) (data : record)
    (ignore_groups ignore_tags : list string)
    (pre : list string) (st : oldest) : Prop :=
  (forall key d, In key pre ->
     tag_date data ignore_groups ignore_tags key = Ok (Some d) ->
     DateTime.ltb d (oldest_date st) = false)
  /\ oldest_keys st
     = List.filter (dated data ignore_groups ignore_tags (oldest_date st))
                   pre
  /\ (if date_available st
      then DateTime.ltb (oldest_date st) now = true
           /\ exists key, In key pre
                /\ tag_date data ignore_groups ignore_tags key
                   = Ok (Some (oldest_date st))
      else oldest_date st = now).

End Candidates.

(** The record of the design document. *)
Definition two_dates : record :=
  [("SourceFile", VStr "a.jpg");
   ("EXIF:CreateDate", VStr "2020:05:01 10:00:00");
   ("QuickTime:ModifyDate", VStr "2020:04:01 09:00:00")].

(** The built-in exclusions of line 136 alone. *)
Definition builtin_used (key : string) : bool :=
  key_used ["ICC_Profile"] ["SourceFile"; "XMP:HistoryWhen"] key.

(** The [n]-th name the collision loop tries when it starts at [dest_file]
    with the counter at [append]: [dest_file] itself, then
    [root_append.ext], [root_(append+1).ext] and so on. *)
Definition name_at (root ext dest_file : string) (append n : nat) : string :=
  match n with
  | O => dest_file
  | S j => root +:+ "_" +:+ pretty (append + j)%nat +:+ ext
  end.

(** What the collision loop decides at one name, lines 423-445:
    [Ok (Some b)] it stops there with [fileIsIdentical = b], [Ok None] the
    name is taken by another file and the loop goes on, [Raise e] the
    comparison fails. *)
Definition verdict (cfg : config) (st : state) (src_file dest_file : string)
  : result (option bool) :=
  if taken (test cfg) st dest_file then
    if remove_duplicates cfg then
      match FS.cmp (disk st) src_file
              (if test cfg then default "" (test_file_dict st !! dest_file)
               else dest_file) with
      | Raise e => Raise e
      | Ok true => Ok (Some true)
      | Ok false => Ok None
      end
    else Ok None
  else Ok (Some false).

(** [p] lies strictly inside the directory [top]. *)
Definition inside (top p : string) : Prop :=
  String.prefix (FS.dir_prefix top) p = true /\ p <> top.

(** A disk with three files in a source tree and an empty destination. *)
Definition sample_disk : gmap string node :=
  list_to_map
    [("src", Dir); ("out", Dir);
     ("src/a.jpg", File (mkFile "aaa" 1));
     ("src/b.db", File (mkFile "bbb" 2));
     ("src/sub", Dir);
     ("src/sub/a.jpg", File (mkFile "ccc" 3));
     ("src/empty", Dir)].

(** The metadata ExifTool could give for those three files. *)
Definition sample_metadata (args : list string) (d : gmap string node)
  : list record :=
  [[("SourceFile", VStr "src/a.jpg");
    ("EXIF:CreateDate", VStr "2020:05:01 10:00:00")];
   [("SourceFile", VStr "src/b.db");
    ("EXIF:CreateDate", VStr "2020:05:02 10:00:00")];
   [("SourceFile", VStr "src/sub/a.jpg");
    ("EXIF:CreateDate", VStr "2020:05:03 10:00:00")]].

(** A clock that reads 2024-04-24 at every record. *)
Definition sample_clock (idx : nat) : datetime := mkDatetime 739000 0 0 0 5.

(** The command-line defaults, moving from [src] to [out], with the given
    ignore list. *)
Definition sample_config (ignore : pyval) (remove_ignored test_mode : bool)
  : config :=
  mkConfig "src" "out" "%Y/%m-%b" None true false test_mode true 0 [] []
           None None true ignore remove_ignored true.

(** A run restricted to one tag, and a run restricted to one group, both
    with EXIF:CreateDate among the ignored tags. *)
Definition only_tags_config : config :=
  mkConfig "src" "out" "%Y/%m-%b" None false false false true 0
           ["EXIF"] ["EXIF:CreateDate"] None (Some ["EXIF:CreateDate"])
           true PyNone false false.

Definition only_groups_config : config :=
  mkConfig "src" "out" "%Y/%m-%b" None false false false true 0
           ["File"] ["EXIF:CreateDate"] (Some ["EXIF"]) None
           true PyNone false false.

(** The collision loop started at [dest_file] with the counter at [append]
    ends with [r]: the names before the [n]-th are all taken by other
    files, and the [n]-th is where the loop stops (free, or holding a
    duplicate) or where the comparison raises. *)
Definition stops (cfg : config) (st : state) (src_file root ext
    dest_file : string) (append : nat) (r : result (string * bool)) : Prop :=
  exists n,
    (forall j, (j < n)%nat ->
       verdict cfg st src_file (name_at root ext dest_file append j)
       = Ok None)
    /\ match r with
       | Ok (p, fileIsIdentical) =>
           p = name_at root ext dest_file append n
           /\ verdict cfg st src_file p = Ok (Some fileIsIdentical)
       | Raise e =>
           verdict cfg st src_file (name_at root ext dest_file append n)
           = Raise e
       end.

(** The sample disk at the start of a run, and after src/a.jpg has been
    moved to out/a.jpg. *)
Definition sample_state : state := mkState sample_disk ∅.

Definition sample_state_placed : state :=
  fst (transfer (sample_config PyNone false false) "src/a.jpg" "out/a.jpg"
                false sample_state).

(** The sample disk with a file at out/a.jpg that has the size and the
    modification time of src/a.jpg and another content. *)
Definition clash_state : state :=
  mkState (<["out/a.jpg" := File (mkFile "xyz" 1)]> sample_disk) ∅.

(** [d'] is [d] with directories added and nothing else changed. *)
Definition grows (d d' : gmap string node) : Prop :=
  forall p, d' !! p = d !! p \/ (d !! p = None /\ d' !! p = Some Dir).

(** A step that at most adds directories to the disk. *)
Definition keeps_files {A : Type} (m : io A) : Prop :=
  forall st, grows (disk st) (disk (fst (m st))).

(** [q] was a file whose name in its directory matches a filter. *)
Definition scanned (fnmatch : string -> string -> bool)
    (filters : list string)
    (triples : list (string * list string * list string)) (q : string)
  : Prop :=
  exists root dirs files name flt,
    In (root, dirs, files) triples /\ In name files
    /\ q = Path.join root name
    /\ In flt filters /\ fnmatch (snd (Path.split name)) flt = true.


(** Every path that held a file in [d] holds a file in [d']. *)
Definition stays (d d' : gmap string node) : Prop :=
  forall p f, d !! p = Some (File f) -> exists f', d' !! p = Some (File f').

(** A step that takes no file away. *)
Definition leaves_files {A : Type} (m : io A) : Prop :=
  forall st, stays (disk st) (disk (fst (m st))).

(** The sample run as a copy, with an ignore list and nothing deleted. *)
Definition copy_config : config :=
  mkConfig "src" "out" "%Y/%m-%b" None true true false true 0 [] []
           None None true (PyStr "*.db") false true.

(** A step that changes the disk at paths of [P] only and whose result,
    when it returns, is in [Q]. *)
Definition confined {A : Type} (P : string -> Prop) (Q : A -> Prop)
    (m : io A) : Prop :=
  forall st,
    (forall p, disk (fst (m st)) !! p <> disk st !! p -> P p)
    /\ (forall a, snd (m st) = Ok a -> Q a).

(** [a] is empty or ends with a slash. *)
Definition sep_end (a : string) : Prop :=
  a = "" \/ exists i, Path.rfind "/" a = Some i /\ S i = String.length a.

(** The path ExifTool names in a record. *)
Definition named (data : record) (p : string) : Prop :=
  dict_get "SourceFile" data = Ok (VStr p).

(** A result of which nothing is asked. *)
Definition anything {A : Type} (a : A) : Prop := True.

(** The sample run with every file renamed to img. *)
Definition rename_config : config :=
  mkConfig "src" "out" "%Y/%m-%b" (Some "img") true false false true 0 [] []
           None None true PyNone false true.

(** [p] is a directory [n] levels below the directory [top]. *)
Inductive below (d : gmap string node) : nat -> string -> string -> Prop :=
  | below_top (top : string) :
      FS.isdir d top = true -> below d O top top
  | below_sub (n : nat) (top name p : string) :
      FS.isdir d top = true -> In name (FS.subdirs d top) ->
      below d n (Path.join top name) p -> below d (S n) top p.

(** A source tree where src/sub holds only the directory src/sub/deep,
    and that one a file. *)
Definition nested_disk : gmap string node :=
  list_to_map
    [("src", Dir); ("out", Dir);
     ("src/a.jpg", File (mkFile "aaa" 1));
     ("src/sub", Dir); ("src/sub/deep", Dir);
     ("src/sub/deep/notes.txt", File (mkFile "nnn" 4))].

(** The folder of a file whose date is formatted as [dir_structure]. *)
Definition folder_of (cfg : config) (dir_structure : string) : string :=
  fold_left Path.join (Py.split "/" dir_structure) (dest_dir cfg).

(** [p] is the directory [top] or lies below it. *)
Definition under (top p : string) : Prop :=
  p = top \/ String.prefix (FS.dir_prefix top) p = true.

(** Every directory of [d] is a directory of [d'], or is gone, lay
    strictly inside [top] and has nothing left in it. *)
Definition dirs_stay (top : string) (d d' : gmap string node) : Prop :=
  forall p, d !! p = Some Dir ->
    d' !! p = Some Dir
    \/ (d' !! p = None /\ inside top p /\ FS.entries d' p = []).

(** Every path keeps the kind of thing it held. *)
Definition kept (d d' : gmap string node) : Prop :=
  stays d d' /\ forall p, d !! p = Some Dir -> d' !! p = Some Dir.

(** A step that takes neither a file nor a directory away. *)
Definition keeps_nodes {A : Type} (m : io A) : Prop :=
  forall st, kept (disk st) (disk (fst (m st))).

(** A part of a date token: no colon and no point. *)
Definition date_part (s : string) : bool :=
  str_all (fun x => negb (Ascii.eqb x ":") && negb (Ascii.eqb x ".")) s.

(** Two photos of the same size and modification time with different
    contents, and metadata that dates both in May 2020. *)
Definition twin_disk : gmap string node :=
  list_to_map
    [("src", Dir); ("out", Dir);
     ("src/a.jpg", File (mkFile "aaa" 1));
     ("src/sub", Dir);
     ("src/sub/a.jpg", File (mkFile "ccc" 1))].

Definition twin_metadata (args : list string) (d : gmap string node)
  : list record :=
  [[("SourceFile", VStr "src/a.jpg");
    ("EXIF:CreateDate", VStr "2020:05:01 10:00:00")];
   [("SourceFile", VStr "src/sub/a.jpg");
    ("EXIF:CreateDate", VStr "2020:05:03 10:00:00")]].

(** A path written as [os.path.normpath] leaves it: no empty component
    but a first one (of an absolute path), and none that is "." or "..".
    For such a path looking the text up is what [os.stat] does. *)
Definition plain (p : string) : bool :=
  match Py.split "/" p with
  | first :: rest =>
      negb (Py.is_empty first && Py.is_empty_list rest)
      && negb (String.eqb first "." || String.eqb first "..")
      && forallb (fun c => negb (Py.is_empty c || String.eqb c "."
                                 || String.eqb c ".."))
                 rest
  | [] => false
  end.

(** Text of ASCII characters only: its UTF-8 bytes are its characters,
    and every run of them decodes to itself. *)
Definition ascii_text (s : string) : bool :=
  str_all (fun c => Py.code c <? 128) s.

(** * Properties *)

(** ** Sequencing *)

Lemma bind_Ok {A B : Type} (a : A) (k : A -> result B) : (Ok a ≫= k) = k a.
Proof. reflexivity. Qed.

Lemma bind_Raise {A B : Type} (e : exn) (k : A -> result B) :
  (Raise e ≫= k) = Raise e.
Proof. reflexivity. Qed.

Lemma bind_Ok_inv {A B : Type} (r : result A) (k : A -> result B) (b : B) :
  (r ≫= k) = Ok b -> exists a, r = Ok a /\ k a = Ok b.
Proof. destruct r as [a|e]; [eauto | discriminate]. Qed.

(** ** The order on datetimes *)

Section Order.

Lemma cmp_list_refl (a : list Z) : cmp_list a a = Eq.
Proof.
  induction a as [|x a IH]; simpl; [reflexivity|].
  now rewrite Z.compare_refl.
Qed.

Lemma cmp_list_eq (a b : list Z) : cmp_list a b = Eq -> a = b.
Proof.
  revert b; induction a as [|x a IH]; intros [|y b]; simpl; try easy.
  destruct (Z.compare_spec x y) as [Hxy|Hxy|Hxy]; try easy.
  intros Hl; f_equal; [assumption | now apply IH].
Qed.

Lemma cmp_list_lt_trans (a b c : list Z) :
  cmp_list a b = Lt -> cmp_list b c = Lt -> cmp_list a c = Lt.
Proof.
  revert b c; induction a as [|x a IH]; intros [|y b] [|z c]; simpl;
    try easy.
  destruct (Z.compare_spec x y) as [Hxy|Hxy|Hxy],
           (Z.compare_spec y z) as [Hyz|Hyz|Hyz]; try easy; subst.
  - rewrite Z.compare_refl. apply IH.
  - intros _ _. now apply Z.compare_lt_iff in Hyz as ->.
  - intros _ _. now apply Z.compare_lt_iff in Hxy as ->.
  - intros _ _. assert (x < z) as ->%Z.compare_lt_iff by lia. reflexivity.
Qed.

Lemma key_inj (a b : datetime) : key a = key b -> a = b.
Proof. destruct a, b; unfold key; simpl; congruence. Qed.

Lemma eqb_eq (a b : datetime) : DateTime.eqb a b = true <-> a = b.
Proof.
  unfold DateTime.eqb, cmp; split.
  - destruct (cmp_list (key a) (key b)) eqn:E; try easy.
    intros _. now apply key_inj, cmp_list_eq.
  - intros ->. now rewrite cmp_list_refl.
Qed.

Lemma ltb_irrefl (a : datetime) : DateTime.ltb a a = false.
Proof. unfold DateTime.ltb, cmp. now rewrite cmp_list_refl. Qed.

Lemma ltb_trans (a b c : datetime) :
  DateTime.ltb a b = true -> DateTime.ltb b c = true ->
  DateTime.ltb a c = true.
Proof.
  unfold DateTime.ltb, cmp.
  destruct (cmp_list (key a) (key b)) eqn:E1; try easy.
  destruct (cmp_list (key b) (key c)) eqn:E2; try easy.
  now rewrite (cmp_list_lt_trans _ _ _ E1 E2).
Qed.

End Order.

(** ** Arithmetic of the calendar *)

Lemma days_in_month_le (y m : Z) : days_in_month y m <= 31.
Proof.
  unfold days_in_month.
  destruct ((m =? 2) && is_leap y); [lia|].
  destruct (Z.to_nat m) as [|[|[|[|[|[|[|[|[|[|[|[|[|[|k]]]]]]]]]]]]]];
    simpl; lia.
Qed.

Lemma add_seconds (d d' : datetime) (t : timedelta) :
  wf d -> td_microseconds t = 0 -> DateTime.add d t = Ok d' ->
  to_seconds d' = to_seconds d + delta_seconds t
  /\ microsecond d' = microsecond d /\ wf d'.
Proof.
  intros (Ho & Hh & Hm & Hs & Hu) Ht.
  unfold DateTime.add, to_seconds, delta_seconds, wf.
  rewrite Ht.
  destruct (_ && _) eqn:E; [|discriminate].
  intros [= <-]; simpl.
  apply andb_true_iff in E as [E1 E2].
  apply Z.ltb_lt in E1. apply Z.leb_le in E2. unfold MAXORDINAL in *.
  Z.to_euclidean_division_equations. lia.
Qed.

(** ** The day-boundary adjustment *)

Lemma sub_hours (d : datetime) (h : Z) :
  wf d -> 0 <= h <= 24 ->
  DateTime.sub d (mkTimedelta (h * 3600 / 86400) ((h * 3600) mod 86400) 0)
  = if (0 <? (to_seconds d - h * 3600) / 86400)
    then Ok (mkDatetime ((to_seconds d - h * 3600) / 86400)
                        ((to_seconds d - h * 3600) mod 86400 / 3600)
                        (minute d) (second d) (microsecond d))
    else Raise OverflowError.
Proof.
  intros (Ho & Hh & Hm & Hs & Hu) Hr.
  unfold DateTime.sub, DateTime.add, neg_timedelta, to_seconds,
    MAXORDINAL in *; simpl.
  match goal with |- (if ?c then _ else _) = _ => destruct c eqn:E end.
  - apply andb_true_iff in E as [E1 E2].
    apply Z.ltb_lt in E1. apply Z.leb_le in E2.
    match goal with |- _ = (if ?c then _ else _) => destruct c eqn:E' end.
    + do 2 f_equal; Z.to_euclidean_division_equations; lia.
    + apply Z.ltb_ge in E'. exfalso.
      Z.to_euclidean_division_equations; lia.
  - match goal with |- _ = (if ?c then _ else _) => destruct c eqn:E' end;
      [|reflexivity].
    apply Z.ltb_lt in E'. exfalso.
    apply andb_false_iff in E as [E|E];
      [apply Z.ltb_ge in E | apply Z.leb_gt in E];
      Z.to_euclidean_division_equations; lia.
Qed.

(** C6, as amended: a timestamp whose hour is below [day_begins] and which
    does not lie on the first day the type has (0001-01-01) comes back
    (hour + 1) hours earlier, at 23 h of the previous calendar day with its
    minute, second and microsecond kept; a timestamp whose hour is at least
    [day_begins] comes back unchanged. *)
Theorem check_for_early_morning_photos_spec (date : datetime) (day_begins : Z) :
  wf date ->
  (hour date < day_begins -> 1 < ordinal date ->
   let date' := mkDatetime (ordinal date - 1) 23 (minute date) (second date)
                           (microsecond date) in
   check_for_early_morning_photos date day_begins = Ok date'
   /\ to_seconds date' = to_seconds date - (hour date + 1) * 3600)
  /\ (day_begins <= hour date ->
      check_for_early_morning_photos date day_begins = Ok date).
Proof.
  intros Hwf. pose proof Hwf as (Ho & Hh & Hm & Hs & Hu).
  unfold check_for_early_morning_photos. split.
  - intros Hlt Hord. apply Z.ltb_lt in Hlt as ->.
    assert (Hsec : to_seconds (mkDatetime (ordinal date - 1) 23 (minute date)
                      (second date) (microsecond date))
                   = to_seconds date - (hour date + 1) * 3600)
      by (unfold to_seconds; simpl; lia).
    split; [|exact Hsec].
    unfold new_timedelta, in_range, MAX_DELTA_DAYS.
    replace ((hour date + 1) * 3600 + 0 * 60) with ((hour date + 1) * 3600)
      by lia.
    match goal with |- context [if ?c then _ else _] =>
      replace c with true
        by (symmetry; apply andb_true_iff; split; apply Z.leb_le;
            Z.to_euclidean_division_equations; lia)
    end.
    simpl. rewrite sub_hours by (auto; lia).
    rewrite <- Hsec. unfold to_seconds; simpl.
    match goal with |- context [if ?c then _ else _] =>
      replace c with true
        by (symmetry; apply Z.ltb_lt;
            Z.to_euclidean_division_equations; lia)
    end.
    do 2 f_equal; Z.to_euclidean_division_equations; lia.
  - intros Hge. apply Z.ltb_ge in Hge as ->. reflexivity.
Qed.

(** The two cases of C6 on 2020-01-15: 02:10:20 with the day beginning at
    3 h moves to 23:10:20 of 2020-01-14, 05:10:20 stays. *)
Lemma check_for_early_morning_photos_witness :
  check_for_early_morning_photos (mkDatetime 737439 2 10 20 0) 3
  = Ok (mkDatetime 737438 23 10 20 0)
  /\ check_for_early_morning_photos (mkDatetime 737439 5 10 20 0) 3
     = Ok (mkDatetime 737439 5 10 20 0).
Proof.
  split.
  - apply (check_for_early_morning_photos_spec (mkDatetime 737439 2 10 20 0) 3);
      unfold wf, MAXORDINAL; simpl; lia.
  - apply (check_for_early_morning_photos_spec (mkDatetime 737439 5 10 20 0) 3);
      unfold wf, MAXORDINAL; simpl; lia.
Defined.

(** C6 as stated fails on the first day of the calendar: the parser
    accepts 0001-01-01 02:00:00, and with the day beginning at 3 h the
    subtraction leaves the range of [datetime]. *)
Lemma check_for_early_morning_photos_first_day :
  parse_date_exif strftime_py3 "0001:01:01 02:00:00"
  = Ok (Some (mkDatetime 1 2 0 0 0))
  /\ check_for_early_morning_photos (mkDatetime 1 2 0 0 0) 3
     = Raise OverflowError.
Proof. split; vm_compute; reflexivity. Qed.

(** ** The timestamp parser *)

Section Parser.

Variable strftime : string -> datetime -> result string.

(** The test of line 52, spelled out. *)
Lemma date_shape_ok_iff (date_entries : list string) :
  date_shape_ok date_entries = true <->
  length date_entries = 3%nat
  /\ Py.str_gt (Py.item date_entries 0) "0000" = true
  /\ Py.str_in "." (Py.join date_entries) = false
  /\ String.length (Py.item date_entries 0) = 4%nat.
Proof.
  unfold date_shape_ok.
  rewrite !andb_true_iff, negb_true_iff, !Nat.eqb_eq. tauto.
Qed.

Lemma parse_date_exif_blank (s : string) :
  Py.split_ws (Py.strip s) = [] -> parse_date_exif strftime s = Ok None.
Proof. unfold parse_date_exif. now intros ->. Qed.

(** When the first blank-separated token of the input fails the test of
    line 52, the parser returns [None]. *)
Lemma parse_date_exif_rejects_shape (s tok : string) (more : list string) :
  Py.split_ws (Py.strip s) = tok :: more ->
  date_shape_ok (Py.split ":" tok) = false ->
  parse_date_exif strftime s = Ok None.
Proof. unfold parse_date_exif. now intros -> ->. Qed.

Lemma new_valid (y m d h mi s : Z) :
  1 <= y <= 9999 -> 1 <= m <= 12 -> 1 <= d <= days_in_month y m ->
  0 <= h <= 23 -> 0 <= mi <= 59 -> 0 <= s <= 59 ->
  DateTime.new y m d h mi s = Ok (mkDatetime (ymd2ord y m d) h mi s 0).
Proof.
  intros Hy Hm Hd Hh Hmi Hs.
  pose proof (days_in_month_le y m) as Hle.
  unfold DateTime.new, in_range, MINYEAR, MAXYEAR.
  assert (Hc : forallb c_int [y; m; d; h; mi; s] = true).
  { simpl. unfold c_int. rewrite !andb_true_iff.
    repeat split; try (apply Z.leb_le; lia); apply Z.ltb_lt; lia. }
  rewrite Hc; simpl.
  repeat match goal with
  | |- context [(?a <=? ?b) && (?c <=? ?e)] =>
      replace ((a <=? b) && (c <=? e)) with true
        by (symmetry; apply andb_true_iff; split; apply Z.leb_le; lia)
  end.
  reflexivity.
Qed.

(** C8: an input made of one date token that passes the test of line 52,
    whose three parts are integers naming a day of the calendar that
    [strftime] can format, parses to that day at 12:00:00. *)
Theorem parse_date_exif_date_only (s tok text : string) (y m d : Z) :
  Py.split_ws (Py.strip s) = [tok] ->
  date_shape_ok (Py.split ":" tok) = true ->
  Py.int (Py.item (Py.split ":" tok) 0) = Ok y ->
  Py.int (Py.item (Py.split ":" tok) 1) = Ok m ->
  Py.int (Py.item (Py.split ":" tok) 2) = Ok d ->
  1 <= y <= 9999 -> 1 <= m <= 12 -> 1 <= d <= days_in_month y m ->
  strftime "%Y/%m-%b" (mkDatetime (ymd2ord y m d) 12 0 0 0) = Ok text ->
  parse_date_exif strftime s
  = Ok (Some (mkDatetime (ymd2ord y m d) 12 0 0 0)).
Proof.
  intros Hs Hshape Hy Hm Hd Ry Rm Rd Hfmt.
  unfold parse_date_exif. rewrite Hs, Hshape, Hy, Hm, Hd. simpl.
  unfold form_date. rewrite new_valid by lia. now rewrite Hfmt.
Qed.

End Parser.

(** C8 on the example of the design document: "2020:01:15" is
    2020-01-15 12:00:00. *)
Lemma parse_date_exif_date_only_witness :
  parse_date_exif strftime_py3 "2020:01:15"
  = Ok (Some (mkDatetime (ymd2ord 2020 1 15) 12 0 0 0))
  /\ ord2ymd (ymd2ord 2020 1 15) = (2020, 1, 15).
Proof.
  split; [|reflexivity].
  apply (parse_date_exif_date_only strftime_py3 "2020:01:15" "2020:01:15"
           "2020/01-Jan" 2020 1 15);
    try reflexivity; try (vm_compute; split; discriminate).
Defined.

(** The token "2020::" has three parts, two of them empty: the test of
    line 52 lets it through and [int('')] raises ValueError outside every
    [try]. *)
Example parse_date_exif_raises :
  date_shape_ok (Py.split ":" "2020::") = true
  /\ Py.split ":" "2020::" = ["2020"; ""; ""]
  /\ parse_date_exif strftime_py3 "2020::" = Raise ValueError.
Proof. repeat split. Qed.

(** ** Splitting a concatenation *)

Section Splitting.

Lemma app_cons (c : ascii) (a b : string) :
  String c a +:+ b = String c (a +:+ b).
Proof. reflexivity. Qed.

Lemma app_empty_l (a : string) : "" +:+ a = a.
Proof. reflexivity. Qed.

Lemma app_empty_r (a : string) : a +:+ "" = a.
Proof. induction a as [|c a IH]; [reflexivity|]. now rewrite app_cons, IH. Qed.

Lemma app_assoc (a b c : string) : (a +:+ b) +:+ c = a +:+ (b +:+ c).
Proof.
  induction a as [|x a IH]; [reflexivity|]. now rewrite !app_cons, IH.
Qed.

Lemma snoc_app (cur : string) (c : ascii) (a : string) :
  Py.snoc cur c +:+ a = cur +:+ String c a.
Proof. unfold Py.snoc. now rewrite app_assoc. Qed.

Lemma str_all_app (p : ascii -> bool) (a b : string) :
  str_all p (a +:+ b) = str_all p a && str_all p b.
Proof.
  induction a as [|c a IH]; [reflexivity|].
  rewrite app_cons; simpl. now rewrite IH, andb_assoc.
Qed.

Lemma str_all_impl (p q : ascii -> bool) (s : string) :
  (forall c, p c = true -> q c = true) ->
  str_all p s = true -> str_all q s = true.
Proof.
  intros Hpq. induction s as [|c s IH]; simpl; [easy|].
  rewrite !andb_true_iff. intros [Hc Hs]. auto.
Qed.

Lemma is_empty_app (a b : string) :
  Py.is_empty (a +:+ b) = Py.is_empty a && Py.is_empty b.
Proof. destruct a; reflexivity. Qed.

(** [split()] *)

Lemma split_ws_go_app (a cur s : string) :
  no_blank a = true ->
  Py.split_ws_go cur (a +:+ s) = Py.split_ws_go (cur +:+ a) s.
Proof.
  unfold no_blank.
  revert cur; induction a as [|c a IH]; intros cur; simpl.
  - now rewrite app_empty_l, app_empty_r.
  - rewrite andb_true_iff, negb_true_iff. intros [Hc Ha].
    rewrite Hc, IH by exact Ha. now rewrite snoc_app.
Qed.

Lemma split_ws_go_token (a cur : string) :
  no_blank a = true ->
  Py.split_ws_go cur a
  = if Py.is_empty (cur +:+ a) then [] else [cur +:+ a].
Proof.
  intros Ha. rewrite <- (app_empty_r a) at 1.
  now rewrite split_ws_go_app.
Qed.

Lemma split_ws_lstrip (s : string) :
  Py.split_ws (Py.lstrip s) = Py.split_ws s.
Proof.
  unfold Py.split_ws. induction s as [|c s IH]; simpl; [reflexivity|].
  destruct (Py.is_space c) eqn:E; simpl; [exact IH | now rewrite E].
Qed.

Lemma split_ws_go_rstrip (s cur : string) :
  Py.split_ws_go cur (Py.rstrip s) = Py.split_ws_go cur s.
Proof.
  revert cur; induction s as [|c s IH]; intros cur; simpl; [reflexivity|].
  destruct (Py.is_empty (Py.rstrip s)) eqn:Er, (Py.is_space c) eqn:Ec;
    simpl; rewrite ?Ec; try (now rewrite IH).
  destruct (Py.rstrip s) eqn:R; [|discriminate].
  rewrite <- !IH. reflexivity.
Qed.

Lemma split_ws_strip (s : string) :
  Py.split_ws (Py.strip s) = Py.split_ws s.
Proof.
  unfold Py.strip, Py.split_ws at 1.
  rewrite split_ws_go_rstrip. apply split_ws_lstrip.
Qed.

(** A token, one blank and a second token. *)
Lemma split_ws_two (a b : string) :
  no_blank a = true -> Py.is_empty a = false -> no_blank b = true ->
  Py.split_ws (Py.strip (a +:+ " " +:+ b))
  = a :: (if Py.is_empty b then [] else [b]).
Proof.
  intros Ha Hne Hb. rewrite split_ws_strip. unfold Py.split_ws.
  rewrite split_ws_go_app, app_empty_l by exact Ha.
  rewrite app_cons, app_empty_l; simpl. rewrite Hne.
  now rewrite split_ws_go_token.
Qed.

(** [s.split(sep)] *)

Lemma split_go_app (sep : ascii) (a cur s : string) :
  str_all (fun c => negb (Ascii.eqb c sep)) a = true ->
  Py.split_go sep cur (a +:+ s) = Py.split_go sep (cur +:+ a) s.
Proof.
  revert cur; induction a as [|c a IH]; intros cur; simpl.
  - now rewrite app_empty_l, app_empty_r.
  - rewrite andb_true_iff, negb_true_iff. intros [Hc Ha].
    rewrite Hc, IH by exact Ha. now rewrite snoc_app.
Qed.

Lemma split_one (sep : ascii) (a : string) :
  str_all (fun c => negb (Ascii.eqb c sep)) a = true ->
  Py.split sep a = [a].
Proof.
  intros Ha. unfold Py.split. rewrite <- (app_empty_r a) at 1.
  now rewrite split_go_app.
Qed.

Lemma split_two (sep : ascii) (a b : string) :
  str_all (fun c => negb (Ascii.eqb c sep)) a = true ->
  str_all (fun c => negb (Ascii.eqb c sep)) b = true ->
  Py.split sep (a +:+ String sep b) = [a; b].
Proof.
  intros Ha Hb. unfold Py.split.
  rewrite split_go_app, app_empty_l by exact Ha. simpl.
  rewrite Ascii.eqb_refl. f_equal. now apply split_one.
Qed.

(** [re.split('(\+|-|Z)', s)] *)

Lemma re_split_tz_go_app (a cur s : string) :
  no_tz_sep a = true ->
  Py.re_split_tz_go cur (a +:+ s) = Py.re_split_tz_go (cur +:+ a) s.
Proof.
  unfold no_tz_sep.
  revert cur; induction a as [|c a IH]; intros cur; simpl.
  - now rewrite app_empty_l, app_empty_r.
  - rewrite andb_true_iff, negb_true_iff. intros [Hc Ha].
    rewrite Hc, IH by exact Ha. now rewrite snoc_app.
Qed.

Lemma re_split_tz_one (a : string) :
  no_tz_sep a = true -> Py.re_split_tz a = [a].
Proof.
  intros Ha. unfold Py.re_split_tz. rewrite <- (app_empty_r a) at 1.
  now rewrite re_split_tz_go_app.
Qed.

Lemma re_split_tz_suffix (a : string) (c : ascii) (z : string) :
  no_tz_sep a = true -> Py.is_tz_sep c = true -> no_tz_sep z = true ->
  Py.re_split_tz (a +:+ String c z) = [a; String c ""; z].
Proof.
  intros Ha Hc Hz. unfold Py.re_split_tz.
  rewrite re_split_tz_go_app, app_empty_l by exact Ha. simpl.
  rewrite Hc. do 2 f_equal. now apply re_split_tz_one.
Qed.

(** Digits are neither blanks nor separators. *)
Lemma digit_facts (c : ascii) :
  Py.is_digit c = true ->
  Py.is_space c = false /\ Py.is_tz_sep c = false
  /\ Ascii.eqb c ":" = false.
Proof.
  unfold Py.is_digit, Py.is_space, Py.is_tz_sep, Py.code.
  rewrite andb_true_iff, !Z.leb_le. intros [Hlo Hhi].
  repeat split.
  - repeat (apply orb_false_iff; split);
      try (apply andb_false_iff);
      try (apply Z.eqb_neq; lia).
    + right; apply Z.leb_gt; lia.
    + right; apply Z.leb_gt; lia.
  - repeat (apply orb_false_iff; split);
      apply Ascii.eqb_neq; intros ->; vm_compute in Hlo, Hhi; auto.
  - apply Ascii.eqb_neq; intros ->; vm_compute in Hlo, Hhi; auto.
Qed.

End Splitting.

(** ** Time-zone suffixes *)

Lemma days_in_year (y m d : Z) :
  1 <= m <= 12 -> 1 <= d <= days_in_month y m ->
  1 <= days_before_month y m + d <= 365 + (if is_leap y then 1 else 0).
Proof.
  intros Hm Hd. unfold days_in_month, days_before_month in *.
  assert (Hcases : m = 1 \/ m = 2 \/ m = 3 \/ m = 4 \/ m = 5 \/ m = 6 \/
                   m = 7 \/ m = 8 \/ m = 9 \/ m = 10 \/ m = 11 \/ m = 12)
    by lia.
  repeat (destruct Hcases as [-> | Hcases]); try subst m;
    simpl in *; destruct (is_leap y); simpl in *; lia.
Qed.

Lemma ymd2ord_range (y m d : Z) :
  1 <= y <= 9999 -> 1 <= m <= 12 -> 1 <= d <= days_in_month y m ->
  1 <= ymd2ord y m d <= MAXORDINAL.
Proof.
  intros Hy Hm Hd. pose proof (days_in_year y m d Hm Hd) as Hin.
  unfold ymd2ord, MAXORDINAL, days_before_year.
  assert (Hleap : y = 9999 -> is_leap y = false) by (now intros ->).
  destruct (Z.eq_dec y 9999) as [->|Hne].
  - rewrite Hleap in Hin by reflexivity.
    change ((9999 - 1) * 365 + (9999 - 1) / 4 - (9999 - 1) / 100
            + (9999 - 1) / 400) with 3651694. lia.
  - assert (is_leap_le : (if is_leap y then 1 else 0) <= 1)
      by (destruct (is_leap y); lia).
    Z.to_euclidean_division_equations. lia.
Qed.

Lemma new_wf (y m d h mi s : Z) (date : datetime) :
  DateTime.new y m d h mi s = Ok date -> wf date.
Proof.
  unfold DateTime.new, in_range, MINYEAR, MAXYEAR.
  destruct (negb (forallb _ _)); [discriminate|].
  repeat match goal with
  | |- context [negb ((?a <=? ?b) && (?c <=? ?e))] =>
      let E := fresh "E" in
      destruct ((a <=? b) && (c <=? e)) eqn:E; simpl; [|discriminate];
      apply andb_true_iff in E as [?%Z.leb_le ?%Z.leb_le]
  end.
  intros [= <-]. unfold wf; simpl.
  pose proof (ymd2ord_range y m d). lia.
Qed.

Section TimeZone.

Variable strftime : string -> datetime -> result string.

Lemma parse_time_zone_signed (ttok : string) (c : ascii) (hh mm : string) :
  all_digits hh = true -> all_digits mm = true ->
  parse_time_zone [ttok; String c ""; hh +:+ ":" +:+ mm]
  = (time_zone_hour ← Py.int hh;
     time_zone_min ← Py.int mm;
     dateadd ← new_timedelta
                 (if Ascii.eqb c "-" then time_zone_hour * -1
                  else time_zone_hour) time_zone_min;
     Ok (Some dateadd)).
Proof.
  unfold all_digits. rewrite !andb_true_iff.
  intros [_ Hh] [_ Hm]. unfold parse_time_zone, Py.item. simpl.
  rewrite app_cons, app_empty_l.
  rewrite split_two;
    try (eapply str_all_impl; [|eassumption];
         intros x Hx; apply digit_facts in Hx as (_ & _ & ->);
         reflexivity).
  simpl. now destruct (Ascii.eqb c "-").
Qed.

Lemma parse_clock_suffix (ttok : string) (c : ascii) (z : string) :
  no_tz_sep ttok = true -> Py.is_tz_sep c = true -> no_tz_sep z = true ->
  parse_clock [ttok +:+ String c z]
  = ('(hour, minute, second, _) ←
       parse_clock (if Py.is_empty ttok then [] else [ttok]);
     dateadd ← parse_time_zone [ttok; String c ""; z];
     Ok (hour, minute, second, dateadd)).
Proof.
  intros Ht Hc Hz. unfold parse_clock at 1.
  rewrite re_split_tz_suffix by assumption.
  change (Py.item [ttok; String c ""; z] 0) with ttok.
  destruct ttok as [|x t]; simpl Py.is_empty; cbv iota.
  - reflexivity.
  - unfold parse_clock. rewrite re_split_tz_one by assumption.
    change (Py.item [String x t] 0) with (String x t).
    destruct (parse_time _) as [[[h mi] s]|e]; [|reflexivity].
    change (parse_time_zone [String x t]) with (@Ok (option timedelta) None).
    reflexivity.
Qed.

Lemma form_date_shift (y m d h mi s : Z) (local : datetime)
    (delta : timedelta) :
  form_date strftime y m d h mi s None = Ok (Some local) ->
  form_date strftime y m d h mi s (Some delta)
  = (date ← DateTime.add local delta; Ok (Some date))
  /\ wf local.
Proof.
  unfold form_date.
  destruct (DateTime.new y m d h mi s) as [date|[]] eqn:En; try discriminate.
  destruct (strftime _ date) as [text|[]]; try discriminate.
  intros [= ->]. split; [reflexivity|]. eapply new_wf, En.
Qed.

End TimeZone.

Lemma new_timedelta_seconds (h m : Z) (delta : timedelta) :
  new_timedelta h m = Ok delta ->
  delta_seconds delta = h * 3600 + m * 60 /\ td_microseconds delta = 0.
Proof.
  unfold new_timedelta, delta_seconds.
  destruct (in_range _ _ _); [|discriminate].
  intros [= <-]; simpl. split; [|reflexivity].
  Z.to_euclidean_division_equations. lia.
Qed.

Section TimeZoneSuffix.

Variable strftime : string -> datetime -> result string.
Variables dtok ttok : string.
Hypothesis dtok_no_blank : no_blank dtok = true.
Hypothesis dtok_not_empty : Py.is_empty dtok = false.
Hypothesis ttok_no_blank : no_blank ttok = true.
Hypothesis ttok_no_tz_sep : no_tz_sep ttok = true.

Lemma parse_clock_local (h mi s : Z) (dateadd : option timedelta) :
  parse_clock (if Py.is_empty ttok then [] else [ttok])
  = Ok (h, mi, s, dateadd) ->
  dateadd = None.
Proof.
  destruct ttok as [|x t] eqn:Et; simpl; [congruence|].
  rewrite re_split_tz_one by assumption.
  change (Py.item [String x t] 0) with (String x t).
  destruct (parse_time _) as [[[h' mi'] s']|e]; [|discriminate].
  change (parse_time_zone [String x t]) with (@Ok (option timedelta) None).
  simpl. congruence.
Qed.

(** The input with a suffix made of a separator [c] and a text [z]
    parses as the input without it, shifted by what lines 77-90 read
    in the suffix. *)
Lemma parse_date_exif_suffix (c : ascii) (z : string) (local : datetime) :
  Py.is_tz_sep c = true -> Py.is_space c = false ->
  no_blank z = true -> no_tz_sep z = true ->
  parse_date_exif strftime (dtok +:+ " " +:+ ttok) = Ok (Some local) ->
  parse_date_exif strftime (dtok +:+ " " +:+ ttok +:+ String c z)
  = (dateadd ← parse_time_zone [ttok; String c ""; z];
     match dateadd with
     | Some delta => date ← DateTime.add local delta; Ok (Some date)
     | None => Ok (Some local)
     end)
  /\ wf local.
Proof.
  intros Hc Hsp Hz1 Hz2. unfold parse_date_exif.
  rewrite !split_ws_two; try assumption.
  2:{ unfold no_blank in *. rewrite str_all_app; simpl.
      now rewrite ttok_no_blank, Hsp, Hz1. }
  rewrite is_empty_app, andb_false_r.
  destruct (date_shape_ok _); [|discriminate].
  intros Hlocal.
  apply bind_Ok_inv in Hlocal as (y & -> & Hlocal).
  apply bind_Ok_inv in Hlocal as (m & -> & Hlocal).
  apply bind_Ok_inv in Hlocal as (d & -> & Hlocal).
  apply bind_Ok_inv in Hlocal as ([[[h mi] s] dateadd] & Eclock & Hlocal).
  rewrite !bind_Ok, parse_clock_suffix by assumption.
  rewrite Eclock, bind_Ok.
  apply parse_clock_local in Eclock as ->.
  destruct (parse_time_zone _) as [[delta|]|e];
    rewrite ?bind_Ok, ?bind_Raise.
  - now apply form_date_shift.
  - split; [exact Hlocal|].
    now apply (form_date_shift strftime y m d h mi s local
                 (mkTimedelta 0 0 0)).
  - split; [reflexivity|].
    now apply (form_date_shift strftime y m d h mi s local
                 (mkTimedelta 0 0 0)).
Qed.

(** C3, as amended: after a time token without suffix that parses to
    [local], a suffix +HH:MM gives [local] plus HH hours and MM minutes,
    a suffix -HH:MM with MM naming zero gives [local] minus HH hours, and
    the suffix Z gives [local] itself; a sum outside the range of
    [datetime] raises OverflowError. *)
Theorem parse_date_exif_time_zone (hh mm : string) (local : datetime)
    (H M : Z) :
  all_digits hh = true -> all_digits mm = true ->
  Py.int hh = Ok H -> Py.int mm = Ok M ->
  parse_date_exif strftime (dtok +:+ " " +:+ ttok) = Ok (Some local) ->
  (parse_date_exif strftime
     (dtok +:+ " " +:+ ttok +:+ "+" +:+ hh +:+ ":" +:+ mm)
   = (delta ← new_timedelta H M;
      date ← DateTime.add local delta; Ok (Some date))
   /\ forall date,
        parse_date_exif strftime
          (dtok +:+ " " +:+ ttok +:+ "+" +:+ hh +:+ ":" +:+ mm)
        = Ok (Some date) ->
        to_seconds date = to_seconds local + (H * 3600 + M * 60))
  /\ (M = 0 ->
      parse_date_exif strftime
        (dtok +:+ " " +:+ ttok +:+ "-" +:+ hh +:+ ":" +:+ mm)
      = (delta ← new_timedelta (- H) 0;
         date ← DateTime.add local delta; Ok (Some date))
      /\ forall date,
           parse_date_exif strftime
             (dtok +:+ " " +:+ ttok +:+ "-" +:+ hh +:+ ":" +:+ mm)
           = Ok (Some date) ->
           to_seconds date = to_seconds local - H * 3600)
  /\ parse_date_exif strftime (dtok +:+ " " +:+ ttok +:+ "Z")
     = Ok (Some local).
Proof.
  intros Hh Hm HH HM Hlocal.
  assert (Hz : no_blank (hh +:+ ":" +:+ mm) = true
               /\ no_tz_sep (hh +:+ ":" +:+ mm) = true).
  { unfold all_digits in Hh, Hm.
    apply andb_true_iff in Hh as [_ Hh], Hm as [_ Hm].
    unfold no_blank, no_tz_sep. rewrite !str_all_app; simpl.
    rewrite !andb_true_iff; repeat split; try reflexivity;
      (eapply str_all_impl; [|eassumption]);
      intros x Hx; destruct (digit_facts x Hx) as (E1 & E2 & _);
      rewrite ?E1, ?E2; reflexivity. }
  destruct Hz as [Hz1 Hz2].
  assert (Hshift : forall (c : ascii) (sign : Z),
    Py.is_tz_sep c = true -> Py.is_space c = false ->
    (if Ascii.eqb c "-" then H * -1 else H) = sign ->
    parse_date_exif strftime
      (dtok +:+ " " +:+ ttok +:+ String c (hh +:+ ":" +:+ mm))
    = (delta ← new_timedelta sign M;
       date ← DateTime.add local delta; Ok (Some date))
    /\ forall date,
         parse_date_exif strftime
           (dtok +:+ " " +:+ ttok +:+ String c (hh +:+ ":" +:+ mm))
         = Ok (Some date) ->
         to_seconds date = to_seconds local + (sign * 3600 + M * 60)).
  { intros c sign Hc Hsp Hsign.
    destruct (parse_date_exif_suffix c (hh +:+ ":" +:+ mm) local)
      as [Heq Hwf]; try assumption.
    rewrite Heq, parse_time_zone_signed by assumption.
    rewrite HH, HM; simpl. rewrite Hsign.
    destruct (new_timedelta sign M) as [delta|e] eqn:Ed; simpl;
      [|split; [reflexivity|discriminate]].
    split; [reflexivity|].
    intros date.
    destruct (DateTime.add local delta) as [date'|e] eqn:Ea; simpl;
      [|discriminate].
    intros [= <-].
    apply new_timedelta_seconds in Ed as [Hsec Hus].
    destruct (add_seconds local date' delta Hwf Hus Ea) as (-> & _).
    now rewrite Hsec. }
  split; [|split].
  - apply (Hshift "+"%char H); reflexivity.
  - intros ->.
    destruct (Hshift "-"%char (- H)) as [Heq Hsec];
      try reflexivity; [simpl; lia|].
    split; [exact Heq|].
    intros date Hdate. rewrite (Hsec date Hdate). lia.
  - destruct (parse_date_exif_suffix "Z" "" local eq_refl eq_refl eq_refl
                eq_refl Hlocal) as [Heq _].
    exact Heq.
Qed.

End TimeZoneSuffix.

(** C3 on 2020-01-15 10:30:00: +02:00 gives 12:30:00, -02:00 gives
    08:30:00 and Z gives 10:30:00. *)
Lemma parse_date_exif_time_zone_witness :
  parse_date_exif strftime_py3 "2020:01:15 10:30:00+02:00"
  = Ok (Some (mkDatetime 737439 12 30 0 0))
  /\ parse_date_exif strftime_py3 "2020:01:15 10:30:00-02:00"
     = Ok (Some (mkDatetime 737439 8 30 0 0))
  /\ parse_date_exif strftime_py3 "2020:01:15 10:30:00Z"
     = Ok (Some (mkDatetime 737439 10 30 0 0)).
Proof.
  pose proof (parse_date_exif_time_zone strftime_py3 "2020:01:15" "10:30:00"
                eq_refl eq_refl eq_refl eq_refl "02" "00"
                (mkDatetime 737439 10 30 0 0) 2 0
                eq_refl eq_refl eq_refl eq_refl eq_refl)
    as ((Hplus & _) & Hminus & Hz).
  destruct (Hminus eq_refl) as [Hminus' _].
  split; [exact Hplus | split; [exact Hminus' | exact Hz]].
Defined.

(** C3 as stated fails on its own example: the suffix +02:00 is added to
    10:30:00 and gives 12:30:00, the suffix Z leaves 08:30:00 as it is, so
    the two inputs do not parse to the same instant. *)
Lemma parse_date_exif_time_zone_example :
  parse_date_exif strftime_py3 "2020:01:15 10:30:00+02:00"
  = Ok (Some (mkDatetime 737439 12 30 0 0))
  /\ parse_date_exif strftime_py3 "2020:01:15 08:30:00Z"
     = Ok (Some (mkDatetime 737439 8 30 0 0))
  /\ parse_date_exif strftime_py3 "2020:01:15 10:30:00+02:00"
     <> parse_date_exif strftime_py3 "2020:01:15 08:30:00Z".
Proof. repeat split. discriminate. Qed.

(** ** The oldest-timestamp selector *)

Section Selector.

Variable strftime : string -> datetime -> result string.
Variable now : datetime.
Variable data : record.
Variables ignore_groups ignore_tags : list string.

Local Abbreviation cand := (tag_date strftime data ignore_groups ignore_tags).
Local Abbreviation selects :=
  (selects strftime now data ignore_groups ignore_tags).

Lemma oldest_step_update (st : oldest) (key : string) :
  oldest_step strftime data ignore_groups ignore_tags st key
  = (exifdate ← cand key; Ok (oldest_update st key exifdate)).
Proof.
  unfold oldest_step, tag_date, oldest_update.
  destruct (key_used _ _ _); [|reflexivity].
  destruct (dict_get key data) as [[s|r|[|first items]]|e];
    rewrite ?bind_Ok, ?bind_Raise; try reflexivity;
    (destruct (parse_date_exif strftime _) as [[e|]|e];
     rewrite ?bind_Ok, ?bind_Raise; try reflexivity;
     destruct (DateTime.ltb e (oldest_date st)); [reflexivity|];
     destruct (DateTime.eqb e (oldest_date st)); reflexivity).
Qed.

Lemma selects_start : selects [] (mkOldest false now []).
Proof. repeat split. intros key d []. Qed.

Lemma filter_none {A : Type} (f : A -> bool) (l : list A) :
  (forall x, In x l -> f x = false) -> List.filter f l = [].
Proof.
  induction l as [|x l IH]; intros Hf; simpl; [reflexivity|].
  rewrite (Hf x) by now left. apply IH. intros y Hy. apply Hf. now right.
Qed.

Lemma selects_step (pre : list string) (st : oldest) (key : string)
    (exifdate : option datetime) :
  cand key = Ok exifdate ->
  selects pre st ->
  selects (pre ++ [key]) (oldest_update st key exifdate).
Proof.
  intros Hkey (Hmin & Hkeys & Hav). unfold oldest_update.
  assert (Hdated : forall d,
    dated strftime data ignore_groups ignore_tags d key
    = match exifdate with Some e => DateTime.eqb e d | None => false end).
  { intros d. unfold dated. now rewrite Hkey. }
  destruct exifdate as [e|].
  2:{ repeat split.
      - intros k d [Hk|[<-|[]]]%in_app_or Hd; [eauto|congruence].
      - rewrite List.filter_app; simpl. rewrite Hdated, app_nil_r.
        exact Hkeys.
      - destruct (date_available st); [|exact Hav].
        destruct Hav as (Hlt & k & Hk & Hd). split; [exact Hlt|].
        exists k. split; [apply in_or_app; now left | exact Hd]. }
  destruct (DateTime.ltb e (oldest_date st)) eqn:Elt;
    [|destruct (DateTime.eqb e (oldest_date st)) eqn:Eeq].
  - (* strictly earlier *)
    repeat split; simpl.
    + intros k d [Hk|[<-|[]]]%in_app_or Hd.
      * destruct (DateTime.ltb d e) eqn:Ede; [|reflexivity].
        rewrite <- (Hmin k d Hk Hd). symmetry.
        now apply ltb_trans with e.
      * rewrite Hkey in Hd. injection Hd as <-. apply ltb_irrefl.
    + rewrite List.filter_app; simpl. rewrite Hdated.
      rewrite (proj2 (eqb_eq e e) eq_refl).
      rewrite filter_none; [reflexivity|].
      intros k Hk. unfold dated.
      destruct (cand k) as [[d|]|] eqn:Hd; try reflexivity.
      destruct (DateTime.eqb d e) eqn:Ede; [|reflexivity].
      apply eqb_eq in Ede as ->.
      rewrite (Hmin k e Hk Hd) in Elt. discriminate.
    + destruct (date_available st).
      * destruct Hav as [Hlt _]. now apply ltb_trans with (oldest_date st).
      * now rewrite <- Hav.
    + exists key. split; [apply in_or_app; right; now left | exact Hkey].
  - (* a tie *)
    apply eqb_eq in Eeq as Heq. subst e.
    repeat split; simpl.
    + intros k d [Hk|[<-|[]]]%in_app_or Hd; [eauto|].
      rewrite Hkey in Hd. injection Hd as <-. apply ltb_irrefl.
    + rewrite List.filter_app; simpl. rewrite Hdated, Eeq.
      now rewrite Hkeys.
    + destruct (date_available st); [|exact Hav].
      destruct Hav as (Hlt & k & Hk & Hd). split; [exact Hlt|].
      exists k. split; [apply in_or_app; now left | exact Hd].
  - (* later *)
    repeat split.
    + intros k d [Hk|[<-|[]]]%in_app_or Hd; [eauto|].
      rewrite Hkey in Hd. now injection Hd as <-.
    + rewrite List.filter_app; simpl. rewrite Hdated, Eeq, app_nil_r.
      exact Hkeys.
    + destruct (date_available st); [|exact Hav].
      destruct Hav as (Hlt & k & Hk & Hd). split; [exact Hlt|].
      exists k. split; [apply in_or_app; now left | exact Hd].
Qed.

(** The loop ends, on keys whose values raise nothing, in a state that
    satisfies the invariant for all of them. *)
Lemma oldest_loop_selects (ks pre : list string) (st : oldest) :
  (forall key, In key ks -> is_ok (cand key) = true) ->
  selects pre st ->
  exists st',
    oldest_loop strftime data ignore_groups ignore_tags ks st = Ok st'
    /\ selects (pre ++ ks) st'.
Proof.
  revert pre st; induction ks as [|key ks IH]; intros pre st Hok Hsel.
  - exists st. rewrite app_nil_r. now split.
  - simpl. rewrite oldest_step_update.
    destruct (cand key) as [exifdate|e] eqn:Hkey.
    2:{ specialize (Hok key (or_introl eq_refl)).
        rewrite Hkey in Hok. discriminate. }
    rewrite !bind_Ok.
    destruct (IH (pre ++ [key])%list (oldest_update st key exifdate))
      as (st' & Hloop & Hsel').
    + intros k Hk. apply Hok. now right.
    + now apply selects_step.
    + exists st'. split; [exact Hloop|].
      now rewrite <- List.app_assoc in Hsel'.
Qed.

End Selector.

Section SelectorTheorems.

Variable strftime : string -> datetime -> result string.

(** C1, as amended: the search starts from the current time [now], not
    from a value above every timestamp.  For a record with a SourceFile
    whose searched values raise nothing, if some searched key parses to a
    timestamp strictly before [now], the selector returns the earliest
    parsed timestamp [best], which lies before [now], and the keys that
    parse to [best], in the order of the record. *)
Theorem get_oldest_timestamp_earliest (now : datetime) (data : record)
    (groups tags : list string) (src_file : value) :
  let ignore_groups := "ICC_Profile" :: groups in
  let ignore_tags := "SourceFile" :: "XMP:HistoryWhen" :: tags in
  let cand := tag_date strftime data ignore_groups ignore_tags in
  dict_get "SourceFile" data = Ok src_file ->
  (forall key, In key (keys data) -> is_ok (cand key) = true) ->
  (exists key d, In key (keys data) /\ cand key = Ok (Some d)
                 /\ DateTime.ltb d now = true) ->
  exists best,
    get_oldest_timestamp strftime now data groups tags
    = Ok (src_file, Some best,
          List.filter (dated strftime data ignore_groups ignore_tags best)
                      (keys data))
    /\ DateTime.ltb best now = true
    /\ (exists key, In key (keys data) /\ cand key = Ok (Some best))
    /\ (forall key d, In key (keys data) -> cand key = Ok (Some d) ->
                      DateTime.ltb d best = false).
Proof.
  intros ignore_groups ignore_tags cand Hsrc Hok (key & d & Hin & Hd & Hlt).
  destruct (oldest_loop_selects strftime now data ignore_groups ignore_tags
              (keys data) [] (mkOldest false now []) Hok
              (selects_start strftime now data ignore_groups ignore_tags))
    as (st & Hloop & Hmin & Hkeys & Hav).
  simpl in Hmin, Hkeys, Hav.
  unfold get_oldest_timestamp. rewrite Hsrc, bind_Ok.
  fold ignore_groups ignore_tags. rewrite Hloop, bind_Ok.
  destruct (date_available st).
  - destruct Hav as (Hbefore & Hwho).
    exists (oldest_date st). rewrite Hkeys. auto.
  - rewrite Hav in Hmin. rewrite (Hmin key d Hin Hd) in Hlt. discriminate.
Qed.

(** When no searched key parses to a timestamp before [now], the
    selector finds no date. *)
Lemma get_oldest_timestamp_none (now : datetime) (data : record)
    (groups tags : list string) (src_file : value) :
  let ignore_groups := "ICC_Profile" :: groups in
  let ignore_tags := "SourceFile" :: "XMP:HistoryWhen" :: tags in
  let cand := tag_date strftime data ignore_groups ignore_tags in
  dict_get "SourceFile" data = Ok src_file ->
  (forall key, In key (keys data) -> is_ok (cand key) = true) ->
  (forall key d, In key (keys data) -> cand key = Ok (Some d) ->
                 DateTime.ltb d now = false) ->
  exists ks,
    get_oldest_timestamp strftime now data groups tags
    = Ok (src_file, None, ks).
Proof.
  intros ignore_groups ignore_tags cand Hsrc Hok Hlate.
  destruct (oldest_loop_selects strftime now data ignore_groups ignore_tags
              (keys data) [] (mkOldest false now []) Hok
              (selects_start strftime now data ignore_groups ignore_tags))
    as (st & Hloop & Hmin & Hkeys & Hav).
  simpl in Hmin, Hkeys, Hav.
  unfold get_oldest_timestamp. rewrite Hsrc, bind_Ok.
  fold ignore_groups ignore_tags. rewrite Hloop, bind_Ok.
  destruct (date_available st); [|eauto].
  destruct Hav as (Hbefore & k & Hk & Hd).
  rewrite (Hlate k _ Hk Hd) in Hbefore. discriminate.
Qed.

End SelectorTheorems.

(** C1 on that record: 2020-04-01 09:00:00 from QuickTime:ModifyDate. *)
Lemma get_oldest_timestamp_earliest_witness :
  exists best,
    get_oldest_timestamp strftime_py3 (mkDatetime 739000 0 0 0 5) two_dates
      ["File"] []
    = Ok (VStr "a.jpg", Some best,
          List.filter
            (dated strftime_py3 two_dates ["ICC_Profile"; "File"]
                   ["SourceFile"; "XMP:HistoryWhen"] best)
            (keys two_dates))
    /\ DateTime.ltb best (mkDatetime 739000 0 0 0 5) = true.
Proof.
  destruct (get_oldest_timestamp_earliest strftime_py3
              (mkDatetime 739000 0 0 0 5) two_dates ["File"] []
              (VStr "a.jpg") eq_refl) as (best & Heq & Hlt & _).
  - intros key [<-|[<-|[<-|[]]]]; reflexivity.
  - exists "EXIF:CreateDate", (mkDatetime 737546 10 0 0 0).
    split; [right; left; reflexivity | split; reflexivity].
  - exists best. split; assumption.
Defined.

Example get_oldest_timestamp_two_dates :
  get_oldest_timestamp strftime_py3 (mkDatetime 739000 0 0 0 5) two_dates
    ["File"] []
  = Ok (VStr "a.jpg", Some (mkDatetime 737516 9 0 0 0),
        ["QuickTime:ModifyDate"]).
Proof. reflexivity. Qed.

(** C1 as stated fails for a timestamp in the future: read on 2024-04-24,
    a record whose only date is 2999-05-01 10:00:00 has a valid parsed
    timestamp, and the selector returns no date and no tag. *)
Lemma get_oldest_timestamp_future :
  parse_date_exif strftime_py3 "2999:05:01 10:00:00"
  = Ok (Some (mkDatetime 1095118 10 0 0 0))
  /\ get_oldest_timestamp strftime_py3 (mkDatetime 739000 0 0 0 5)
       [("SourceFile", VStr "a.jpg");
        ("EXIF:CreateDate", VStr "2999:05:01 10:00:00")] ["File"] []
     = Ok (VStr "a.jpg", None, []).
Proof. split; reflexivity. Qed.

(** ** The setup of sortPhotos *)

Section Setup.

Variable strftime : string -> datetime -> result string.
Variable fnmatch : string -> string -> bool.
Variable get_metadata : list string -> gmap string node -> list record.
Variable clock : nat -> datetime.

(** C10, as amended: on a source directory that exists, a list given
    for [ignore_list] makes sortPhotos raise AttributeError with the disk
    untouched; [None] and a string pass lines 300-301. *)
Theorem sortPhotos_ignore_list_list (cfg : config) (d : gmap string node)
    (l : list string) :
  FS.exists_ d (src_dir cfg) = true ->
  ignore_list cfg = PyList l ->
  sortPhotos strftime fnmatch get_metadata clock cfg d
  = (d, Raise AttributeError)
  /\ split_ignore_list PyNone = Ok None
  /\ forall s, split_ignore_list (PyStr s) = Ok (Some (Py.split "," s)).
Proof.
  intros Hsrc Hlist. split; [|split; reflexivity].
  unfold sortPhotos.
  destruct (setup_tags cfg) as [[groups tags] args].
  unfold mbind, io_bind, ask, unless, pure, skip, ret; simpl.
  now rewrite Hsrc, Hlist.
Qed.

Lemma key_used_split (groups tags : list string) (key : string) :
  key_used ("ICC_Profile" :: groups)
           ("SourceFile" :: "XMP:HistoryWhen" :: tags) key
  = builtin_used key
    && negb (mem key tags)
    && negb (mem (Py.item (Py.split ":" key) 0) groups).
Proof.
  unfold builtin_used, key_used, mem; cbn [existsb].
  generalize (String.eqb key "SourceFile") (String.eqb key "XMP:HistoryWhen")
    (String.eqb (Py.item (Py.split ":" key) 0) "ICC_Profile")
    (existsb (String.eqb key) tags)
    (existsb (String.eqb (Py.item (Py.split ":" key) 0)) groups)
    (Py.str_in "GPS" key).
  now intros [] [] [] [] [] [].
Qed.

(** C4, as amended: with [use_only_tags] set, the two configured ignore
    lists are emptied and a key is left out by the built-in exclusions
    only; with [use_only_groups] set alone, the ignored groups are
    emptied and the ignored tags still leave keys out. *)
Theorem setup_tags_bypass (cfg : config) (key : string) :
  let groups := fst (fst (setup_tags cfg)) in
  let tags := snd (fst (setup_tags cfg)) in
  let used := key_used ("ICC_Profile" :: groups)
                       ("SourceFile" :: "XMP:HistoryWhen" :: tags) key in
  (is_Some (use_only_tags cfg) -> used = builtin_used key)
  /\ (use_only_tags cfg = None -> is_Some (use_only_groups cfg) ->
      used = builtin_used key
             && negb (mem key (additional_tags_to_ignore cfg))).
Proof.
  intros groups tags used. subst used groups tags.
  rewrite key_used_split. unfold setup_tags.
  split.
  - intros [ts ->]. simpl. now rewrite !andb_true_r.
  - intros -> [gs ->]. simpl. now rewrite andb_true_r.
Qed.

End Setup.

(** C10 on the sample disk: a list for [ignore_list], here the documented
    default [[]], stops the run before anything is touched. *)
Lemma sortPhotos_ignore_list_list_witness :
  sortPhotos strftime_py3 glob sample_metadata sample_clock
    (sample_config (PyList []) false false) sample_disk
  = (sample_disk, Raise AttributeError).
Proof.
  apply (sortPhotos_ignore_list_list strftime_py3 glob sample_metadata
           sample_clock (sample_config (PyList []) false false) sample_disk
           []); reflexivity.
Defined.

(** C10 as stated fails when the source directory does not exist: the
    guard of lines 273-274 raises its own exception before line 301 is
    reached. *)
Lemma sortPhotos_ignore_list_no_source :
  sortPhotos strftime_py3 glob sample_metadata sample_clock
    (mkConfig "nowhere" "out" "%Y/%m-%b" None false false false true 0
              ["File"] [] None None true (PyList []) false false)
    sample_disk
  = (sample_disk, Raise (Exception "Source directory does not exist")).
Proof. vm_compute. reflexivity. Qed.

(** C4 with [use_only_tags] set: an ignored tag is searched all the
    same. *)
Lemma setup_tags_bypass_witness :
  key_used ("ICC_Profile" :: fst (fst (setup_tags only_tags_config)))
           ("SourceFile" :: "XMP:HistoryWhen"
              :: snd (fst (setup_tags only_tags_config)))
           "EXIF:CreateDate"
  = builtin_used "EXIF:CreateDate".
Proof.
  apply (setup_tags_bypass only_tags_config "EXIF:CreateDate").
  exists ["EXIF:CreateDate"]. reflexivity.
Defined.

(** C4 as stated fails with [use_only_groups] set: the configured
    ignored tag EXIF:CreateDate is still left out of the search, so the
    only date of the record is not found. *)
Lemma setup_tags_only_groups_keeps_tags :
  builtin_used "EXIF:CreateDate" = true
  /\ key_used ("ICC_Profile" :: fst (fst (setup_tags only_groups_config)))
              ("SourceFile" :: "XMP:HistoryWhen"
                 :: snd (fst (setup_tags only_groups_config)))
              "EXIF:CreateDate"
     = false
  /\ get_oldest_timestamp strftime_py3 (mkDatetime 739000 0 0 0 5)
       [("SourceFile", VStr "a.jpg");
        ("EXIF:CreateDate", VStr "2020:05:01 10:00:00")]
       (fst (fst (setup_tags only_groups_config)))
       (snd (fst (setup_tags only_groups_config)))
     = Ok (VStr "a.jpg", None, [])
  /\ get_oldest_timestamp strftime_py3 (mkDatetime 739000 0 0 0 5)
       [("SourceFile", VStr "a.jpg");
        ("EXIF:CreateDate", VStr "2020:05:01 10:00:00")] [] []
     = Ok (VStr "a.jpg", Some (mkDatetime 737546 10 0 0 0),
           ["EXIF:CreateDate"]).
Proof. vm_compute. repeat split. Qed.

(** ** Collision resolution *)

Section Collisions.

Lemma take_drop (n : nat) (p : string) : Path.take n p +:+ Path.drop n p = p.
Proof.
  revert n; induction p as [|c p IH]; intros [|n]; simpl; try reflexivity.
  now rewrite app_cons, IH.
Qed.

Lemma splitext_app (p root ext : string) :
  Path.splitext p = (root, ext) -> root +:+ ext = p.
Proof.
  unfold Path.splitext.
  destruct (Path.rfind "." p) as [dotIndex|].
  - destruct (_ && _); intros [= <- <-];
      [apply take_drop | apply app_empty_r].
  - intros [= <- <-]. apply app_empty_r.
Qed.

Lemma length_app (a b : string) :
  String.length (a +:+ b) = (String.length a + String.length b)%nat.
Proof.
  induction a as [|c a IH]; [reflexivity|].
  rewrite app_cons; simpl. now rewrite IH.
Qed.

Lemma app_inj_r (a b e : string) : a +:+ e = b +:+ e -> a = b.
Proof.
  revert b; induction a as [|x a IH]; intros [|y b] H.
  - reflexivity.
  - apply (f_equal String.length) in H.
    rewrite app_empty_l, app_cons in H; simpl in H.
    rewrite length_app in H. lia.
  - apply (f_equal String.length) in H.
    rewrite app_empty_l, app_cons in H; simpl in H.
    rewrite length_app in H. lia.
  - rewrite !app_cons in H. injection H as -> H. f_equal. now apply IH.
Qed.

(** The numbered names are all different, and different from the
    name without number. *)
Lemma numbered_inj (root ext : string) (n m : nat) :
  root +:+ "_" +:+ pretty n +:+ ext = root +:+ "_" +:+ pretty m +:+ ext ->
  n = m.
Proof.
  intros H. apply String.app_inj in H.
  rewrite !app_cons, !app_empty_l in H. injection H as H.
  apply app_inj_r in H. now apply pretty_nat_inj in H.
Qed.

Lemma numbered_fresh (root ext : string) (n : nat) :
  root +:+ "_" +:+ pretty n +:+ ext <> root +:+ ext.
Proof.
  intros H. apply String.app_inj in H.
  apply (f_equal String.length) in H.
  rewrite app_cons, app_empty_l in H; simpl in H.
  rewrite length_app in H. lia.
Qed.

Variable cfg : config.
Variable st : state.
Variables src_file root ext : string.

Lemma check_collisions_step (fuel : nat) (dest_file : string)
    (append : nat) :
  check_collisions (S fuel) cfg st src_file root ext dest_file append
  = match verdict cfg st src_file dest_file with
    | Raise e => Some (Raise e)
    | Ok (Some b) => Some (Ok (dest_file, b))
    | Ok None =>
        check_collisions fuel cfg st src_file root ext
          (root +:+ "_" +:+ pretty append +:+ ext) (S append)
    end.
Proof.
  unfold verdict; simpl.
  destruct (taken (test cfg) st dest_file); [|reflexivity].
  destruct (remove_duplicates cfg); [|reflexivity].
  now destruct (FS.cmp _ _ _) as [[]|].
Qed.

Lemma name_at_shift (dest_file : string) (append i : nat) :
  name_at root ext (root +:+ "_" +:+ pretty append +:+ ext) (S append) i
  = name_at root ext dest_file append (S i).
Proof.
  destruct i as [|i]; simpl.
  - now rewrite Nat.add_0_r.
  - now rewrite Nat.add_succ_r.
Qed.

Lemma check_collisions_sound (fuel : nat) (dest_file : string)
    (append : nat) (r : result (string * bool)) :
  check_collisions fuel cfg st src_file root ext dest_file append = Some r ->
  stops cfg st src_file root ext dest_file append r.
Proof.
  revert dest_file append; induction fuel as [|fuel IH];
    intros dest_file append; [discriminate|].
  rewrite check_collisions_step.
  destruct (verdict cfg st src_file dest_file) as [[b|]|e] eqn:Hv.
  - intros [= <-]. exists O. split; [lia | now split].
  - intros Hr. destruct (IH _ _ Hr) as (n & Hbefore & Hat).
    exists (S n). split.
    + intros [|j] Hj; [exact Hv|].
      rewrite <- name_at_shift. apply Hbefore. lia.
    + rewrite <- name_at_shift. exact Hat.
  - intros [= <-]. exists O. split; [lia | exact Hv].
Qed.

Lemma verdict_taken (p : string) :
  verdict cfg st src_file p = Ok None -> taken (test cfg) st p = true.
Proof. unfold verdict. now destruct (taken (test cfg) st p). Qed.

Lemma taken_occupied (p : string) :
  taken (test cfg) st p = true -> p ∈ occupied (test cfg) st.
Proof.
  unfold taken, occupied, FS.isfile, FS.stat.
  destruct (test cfg).
  - intros H%bool_decide_eq_true. now apply elem_of_dom.
  - destruct (Py.is_empty p); [discriminate|].
    destruct (FS.is_root p); [discriminate|].
    destruct (disk st !! p) as [n|] eqn:E; [|discriminate].
    intros _. apply elem_of_dom. now exists n.
Qed.

(** From a numbered name on, the loop ends before it has seen more
    names than there are in [G], a set that holds every numbered name
    that is taken. *)
Lemma check_collisions_ends (fuel : nat) (G : gset string) (append : nat) :
  (forall k, taken (test cfg) st
               (root +:+ "_" +:+ pretty (append + k)%nat +:+ ext) = true ->
             root +:+ "_" +:+ pretty (append + k)%nat +:+ ext ∈ G) ->
  (size G < fuel)%nat ->
  exists r,
    check_collisions fuel cfg st src_file root ext
      (root +:+ "_" +:+ pretty append +:+ ext) (S append) = Some r.
Proof.
  revert G append; induction fuel as [|fuel IH]; intros G append HG Hsize;
    [lia|].
  rewrite check_collisions_step.
  destruct (verdict cfg st src_file _) as [[b|]|e] eqn:Hv; eauto.
  apply verdict_taken in Hv.
  assert (Hin : root +:+ "_" +:+ pretty append +:+ ext ∈ G).
  { specialize (HG O). rewrite Nat.add_0_r in HG. auto. }
  apply (IH (G ∖ {[root +:+ "_" +:+ pretty append +:+ ext]})).
  - intros k Hk. apply elem_of_difference. split.
    + specialize (HG (S k)). rewrite Nat.add_succ_r in HG. auto.
    + intros Heq%elem_of_singleton. apply numbered_inj in Heq. lia.
  - rewrite size_difference by (apply singleton_subseteq_l; exact Hin).
    rewrite size_singleton.
    assert (size G <> 0)%nat.
    { intros H0%size_empty_inv. rewrite H0 in Hin.
      now apply not_elem_of_empty in Hin. }
    lia.
Qed.

(** The loop of lines 421-445 always ends. *)
Lemma check_collisions_total (dest_file : string) :
  exists r,
    check_collisions (2 + size (occupied (test cfg) st)) cfg st
      src_file root ext dest_file 1 = Some r.
Proof.
  change (2 + size (occupied (test cfg) st))%nat
    with (S (S (size (occupied (test cfg) st)))).
  rewrite check_collisions_step.
  destruct (verdict cfg st src_file dest_file) as [[b|]|e]; eauto.
  apply (check_collisions_ends _ (occupied (test cfg) st) 1).
  - intros k. apply taken_occupied.
  - lia.
Qed.

End Collisions.

Section Placement.

Variable cfg : config.

(** What a successful move or copy to a name that is no directory
    leaves: in test mode the name in the dictionary, otherwise the file
    under the name. *)
Lemma transfer_effect (st st1 : state) (src_file dest_file : string) :
  FS.isdir (disk st) dest_file = false ->
  transfer cfg src_file dest_file false st = (st1, Ok tt) ->
  (test cfg = true
   /\ st1 = mkState (disk st)
                    (<[dest_file := src_file]> (test_file_dict st)))
  \/ (test cfg = false
      /\ test_file_dict st1 = test_file_dict st
      /\ Py.is_empty dest_file = false
      /\ FS.is_root dest_file = false
      /\ exists f d, disk st1 = <[dest_file := File f]> d
                     /\ forall p, d !! p = disk st !! p \/ d !! p = None).
Proof.
  intros Hdir Hmove. unfold transfer in Hmove.
  destruct (test cfg) eqn:Etest.
  - injection Hmove as <-. now left.
  - right. split; [reflexivity|].
    assert (Hroot : Py.is_empty dest_file = false ->
                    FS.is_root dest_file = false).
    { intros Hne. unfold FS.isdir, FS.stat in Hdir. rewrite Hne in Hdir.
      now destruct (FS.is_root dest_file). }
    destruct (copy_files cfg); unfold on_disk in Hmove.
    + unfold FS.copy2 in Hmove. rewrite Hdir in Hmove.
      destruct (String.eqb src_file dest_file); [discriminate|].
      destruct (FS.stat (disk st) src_file) as [[f|]|]; try discriminate.
      rewrite Hdir in Hmove.
      destruct (Py.is_empty dest_file) eqn:Hne; [discriminate|].
      simpl in Hmove.
      destruct (negb (FS.parent_ok _ _)); [discriminate|].
      injection Hmove as <-; simpl. repeat split; auto.
      exists f, (disk st). split; [reflexivity | now left].
    + unfold FS.move in Hmove. rewrite Hdir in Hmove.
      unfold FS.rename in Hmove.
      destruct (FS.stat (disk st) src_file) as [[f|]|]; try discriminate.
      rewrite Hdir in Hmove.
      destruct (Py.is_empty dest_file) eqn:Hne; [discriminate|].
      simpl in Hmove.
      destruct (negb (FS.parent_ok _ _)); [discriminate|].
      injection Hmove as <-; simpl. repeat split; auto.
      exists f, (delete src_file (disk st)). split; [reflexivity|].
      intros p. destruct (decide (src_file = p)) as [->|Hne'].
      * right. apply lookup_delete_eq.
      * left. now apply lookup_delete_ne.
Qed.

(** The collision loop always ends; it stops at the first of the
    names dest, root_1.ext, root_2.ext, ... that is free or holds a file
    [filecmp.cmp] takes for a duplicate of the source (with
    [remove_duplicates] on), every name before it being taken by another
    file.  Hence, when a first file has been placed under a name that was
    free, a second file that is no duplicate of it (or any file, with
    [remove_duplicates] off) goes to root_1.ext if that name is free, a
    name different from the first. *)
Lemma collision_resolution (st st1 : state)
    (src1 src2 root ext dest_file : string) :
  (exists r,
     resolve_collisions cfg src2 root ext dest_file st = (st, r)
     /\ stops cfg st src2 root ext dest_file 1 r)
  /\ (Path.splitext dest_file = (root, ext) ->
      taken (test cfg) st dest_file = false ->
      FS.isdir (disk st) dest_file = false ->
      taken (test cfg) st (root +:+ "_1" +:+ ext) = false ->
      transfer cfg src1 dest_file false st = (st1, Ok tt) ->
      (remove_duplicates cfg = false
       \/ FS.cmp (disk st1) src2 (if test cfg then src1 else dest_file)
          = Ok false) ->
      resolve_collisions cfg src1 root ext dest_file st
      = (st, Ok (dest_file, false))
      /\ resolve_collisions cfg src2 root ext dest_file st1
         = (st1, Ok (root +:+ "_1" +:+ ext, false))
      /\ root +:+ "_1" +:+ ext <> dest_file).
Proof.
  split.
  - unfold resolve_collisions.
    destruct (check_collisions_total cfg st src2 root ext dest_file)
      as [r Hr].
    rewrite Hr. exists r. split; [reflexivity|].
    eapply check_collisions_sound, Hr.
  - intros Hsplit Hfree Hdir Hfree1 Hmove Hdiff.
    apply splitext_app in Hsplit.
    assert (Hne : root +:+ "_1" +:+ ext <> dest_file).
    { rewrite <- Hsplit. apply (numbered_fresh root ext 1). }
    split; [|split; [|exact Hne]].
    + unfold resolve_collisions.
      change (2 + ?n)%nat with (S (S n)).
      rewrite check_collisions_step. unfold verdict. now rewrite Hfree.
    + assert (Htaken : taken (test cfg) st1 dest_file = true
              /\ taken (test cfg) st1 (root +:+ "_1" +:+ ext) = false
              /\ (test cfg = true ->
                  test_file_dict st1 !! dest_file = Some src1)).
      { destruct (transfer_effect st st1 src1 dest_file Hdir Hmove)
          as [[Etest ->]|(Etest & Hdict & Hempty & Hroot & f & d & Hd & Hsub)].
        - rewrite Etest in *. unfold taken in *; simpl.
          rewrite lookup_insert_eq, lookup_insert_ne by congruence.
          split; [|split]; [now apply bool_decide_eq_true | exact Hfree1
                           | reflexivity].
        - rewrite Etest in *. unfold taken, FS.isfile, FS.stat in *.
          rewrite Hd, Hempty, Hroot, lookup_insert_eq.
          rewrite lookup_insert_ne by congruence.
          split; [reflexivity | split; [|discriminate]].
          destruct (Py.is_empty (root +:+ "_1" +:+ ext)); [reflexivity|].
          destruct (FS.is_root (root +:+ "_1" +:+ ext)); [exact Hfree1|].
          destruct (Hsub (root +:+ "_1" +:+ ext)) as [-> | ->];
            [exact Hfree1 | reflexivity]. }
      destruct Htaken as (Ht & Ht1 & Hdict).
      unfold resolve_collisions.
      change (2 + ?n)%nat with (S (S n)).
      rewrite check_collisions_step.
      assert (Hv : verdict cfg st1 src2 dest_file = Ok None).
      { unfold verdict. rewrite Ht.
        destruct (remove_duplicates cfg); [|reflexivity].
        destruct Hdiff as [|Hcmp]; [discriminate|].
        destruct (test cfg).
        - rewrite Hdict by reflexivity. simpl. now rewrite Hcmp.
        - now rewrite Hcmp. }
      rewrite Hv, check_collisions_step.
      change (root +:+ "_" +:+ pretty 1%nat +:+ ext)
        with (root +:+ "_1" +:+ ext).
      unfold verdict. now rewrite Ht1.
Qed.

End Placement.

(** On the sample disk src/a.jpg goes to out/a.jpg, which is free;
    src/sub/a.jpg, another file, then goes to out/a_1.jpg. *)
Lemma collision_resolution_witness :
  resolve_collisions (sample_config PyNone false false) "src/a.jpg"
    "out/a" ".jpg" "out/a.jpg" sample_state
  = (sample_state, Ok ("out/a.jpg", false))
  /\ resolve_collisions (sample_config PyNone false false) "src/sub/a.jpg"
       "out/a" ".jpg" "out/a.jpg" sample_state_placed
     = (sample_state_placed, Ok ("out/a_1.jpg", false))
  /\ "out/a_1.jpg" <> "out/a.jpg".
Proof.
  apply (collision_resolution (sample_config PyNone false false)
           sample_state sample_state_placed "src/a.jpg" "src/sub/a.jpg"
           "out/a" ".jpg" "out/a.jpg");
    try reflexivity.
  right. reflexivity.
Defined.

(** * Two files of the same size and time at one destination *)

Section Shallow.

Variable cfg : config.
Hypothesis test_off : test cfg = false.
Hypothesis duplicates_on : remove_duplicates cfg = true.
Hypothesis copy_off : copy_files cfg = false.

Lemma stat_file (d : gmap string node) (p : string) (f : file) :
  FS.stat d p = Some (File f) ->
  Py.is_empty p = false /\ FS.is_root p = false /\ d !! p = Some (File f).
Proof.
  unfold FS.stat. destruct (Py.is_empty p); [discriminate|].
  destruct (FS.is_root p); [discriminate|]. auto.
Qed.

Lemma stat_absent (d : gmap string node) (p : string) :
  FS.exists_ d p = false -> Py.is_empty p = false ->
  FS.is_root p = false /\ d !! p = None.
Proof.
  unfold FS.exists_, FS.stat. intros H Hne. rewrite Hne in H.
  destruct (FS.is_root p); [discriminate|].
  now destruct (d !! p).
Qed.


End Shallow.


(** The whole run on those two files: one file is left of the two, with
    the content of the second. *)
Example sortPhotos_twins :
  let run := sortPhotos strftime_py3 glob twin_metadata sample_clock
               (sample_config PyNone false false) twin_disk in
  snd run = Ok 2%nat
  /\ fst run !! "out/2020/05-May/a.jpg" = Some (File (mkFile "ccc" 1))
  /\ fst run !! "out/2020/05-May/a_1.jpg" = None
  /\ fst run !! "src/a.jpg" = None /\ fst run !! "src/sub/a.jpg" = None.
Proof. vm_compute. repeat split. Qed.

(** ** Walking the source tree and removing empty directories *)

Section Walk.

Lemma prefix_app (a p : string) :
  String.prefix a p = true <-> exists r, p = a +:+ r.
Proof.
  revert p; induction a as [|x a IH]; intros p.
  - split; [intros _; now exists p | intros _; now destruct p].
  - destruct p as [|y p]; simpl; [split; [discriminate | intros [r [=]]]|].
    destruct (ascii_dec x y) as [->|Hne].
    + rewrite IH. split; intros [r Hr]; exists r.
      * now rewrite app_cons, Hr.
      * rewrite app_cons in Hr. now injection Hr.
    + split; [discriminate|].
      intros [r Hr]. rewrite app_cons in Hr. injection Hr as -> _.
      now destruct Hne.
Qed.

Lemma drop_app (a r : string) : Path.drop (String.length a) (a +:+ r) = r.
Proof. induction a as [|x a IH]; [now destruct r | exact IH]. Qed.

Lemma no_sep_not_absolute (d : string) :
  Py.str_in "/" d = false -> Py.startswith d "/" = false.
Proof.
  unfold Py.startswith. destruct d as [|x d]; [reflexivity|]; simpl.
  intros [H _]%orb_false_iff. exact H.
Qed.

(** An entry of [top] is what [os.path.join] makes of [top] and the
    entry's name. *)
Lemma child_name_join (top p d : string) :
  Py.is_empty top = false ->
  FS.child_name top p = Some d ->
  Path.join top d = p /\ p = FS.dir_prefix top +:+ d.
Proof.
  intros Htop. unfold FS.child_name.
  destruct (String.prefix (FS.dir_prefix top) p) eqn:Hpre; [|discriminate].
  apply prefix_app in Hpre as [r ->]. rewrite drop_app.
  destruct (negb (Py.is_empty r) && negb (Py.str_in "/" r)) eqn:Hr;
    [|discriminate].
  intros [= <-].
  apply andb_true_iff in Hr as [_ Hsep%negb_true_iff].
  split; [|reflexivity].
  unfold Path.join, FS.dir_prefix.
  rewrite (no_sep_not_absolute r Hsep), Htop; simpl.
  destruct (Path.endswith_sep top); [reflexivity|].
  now rewrite app_assoc.
Qed.

Lemma subdirs_child (disk : gmap string node) (top d : string) :
  In d (FS.subdirs disk top) ->
  exists p, FS.child_name top p = Some d /\ disk !! p = Some Dir.
Proof.
  unfold FS.subdirs, FS.entries.
  intros ([name n] & <- & Hin)%in_map_iff.
  apply filter_In in Hin as [Hin Hdir]. simpl in Hdir.
  apply list_elem_of_In, list_elem_of_omap in Hin as ([p n'] & Hp & Hc).
  apply elem_of_map_to_list in Hp.
  destruct (FS.child_name top p) as [name'|] eqn:Hname; [|discriminate].
  injection Hc as <- <-. exists p. split; [exact Hname|].
  now destruct n'.
Qed.

Lemma dir_prefix_app (top : string) : exists s, FS.dir_prefix top = top +:+ s.
Proof.
  unfold FS.dir_prefix. destruct (Path.endswith_sep top).
  - exists "". now rewrite app_empty_r.
  - now exists "/".
Qed.

(** Every triple of a walk describes a directory of the disk that is
    [top] or lies below it. *)
Lemma walk_go_triples (disk : gmap string node) (topdown : bool)
    (fuel : nat) (top p : string) (dirnames files : list string) :
  In (p, dirnames, files) (FS.walk_go fuel disk topdown top) ->
  dirnames = FS.subdirs disk p /\ files = FS.nondirs disk p
  /\ FS.isdir disk p = true
  /\ (p = top \/ String.prefix (FS.dir_prefix top) p = true).
Proof.
  revert top; induction fuel as [|fuel IH]; intros top; simpl; [easy|].
  destruct (FS.isdir disk top) eqn:Hdir; [|easy].
  assert (Htop : Py.is_empty top = false).
  { unfold FS.isdir, FS.stat in Hdir. now destruct (Py.is_empty top). }
  assert (Hbelow :
    In (p, dirnames, files)
       (flat_map (fun d => FS.walk_go fuel disk topdown (Path.join top d))
                 (FS.subdirs disk top)) ->
    dirnames = FS.subdirs disk p /\ files = FS.nondirs disk p
    /\ FS.isdir disk p = true
    /\ (p = top \/ String.prefix (FS.dir_prefix top) p = true)).
  { intros (d & Hd & Hin)%in_flat_map.
    destruct (IH _ Hin) as (-> & -> & Hp & Hunder).
    repeat split; try assumption. right.
    destruct (subdirs_child disk top d Hd) as (q & Hq & _).
    destruct (child_name_join top q d Htop Hq) as [Hjoin Hqeq].
    rewrite Hjoin in Hunder. apply prefix_app.
    destruct Hunder as [-> | [r ->]%prefix_app].
    - now exists d.
    - destruct (dir_prefix_app q) as [s ->].
      exists (d +:+ s +:+ r). rewrite Hqeq. now rewrite !app_assoc. }
  assert (Hhere :
    (top, FS.subdirs disk top, FS.nondirs disk top) = (p, dirnames, files) ->
    dirnames = FS.subdirs disk p /\ files = FS.nondirs disk p
    /\ FS.isdir disk p = true
    /\ (p = top \/ String.prefix (FS.dir_prefix top) p = true)).
  { intros [= <- <- <-]. auto. }
  destruct topdown.
  - intros [H|H]; auto.
  - intros [H|[H|[]]]%in_app_or; auto.
Qed.

End Walk.

Section Cleanup.

Variable cfg : config.

Lemma for_each_cons {A : Type} (body : A -> io unit) (x : A) (l : list A)
    (st : state) :
  for_each body (x :: l) st
  = match body x st with
    | (st', Ok _) => for_each body l st'
    | (st', Raise e) => (st', Raise e)
    end.
Proof. reflexivity. Qed.

(** One turn of the loop leaves the state as it is or removes the
    directory of its triple, which held no file. *)
Lemma cleanup_dir_effect (p : string) (dirnames files : list string)
    (st : state) :
  let st' := fst (cleanup_dir cfg (p, dirnames, files) st) in
  st' = st
  \/ (test cfg = false /\ files = [] /\ p <> src_dir cfg
      /\ disk st !! p = Some Dir
      /\ st' = mkState (delete p (disk st)) (test_file_dict st)).
Proof.
  unfold cleanup_dir.
  destruct files as [|f files]; simpl; [|now left].
  destruct (String.eqb_spec p (src_dir cfg)) as [->|Hne]; simpl; [now left|].
  destruct (test cfg); simpl; [now left|].
  unfold on_disk, FS.rmdir.
  destruct (FS.isdir (disk st) p && negb (FS.is_root p)
            && bool_decide (FS.entries (disk st) p = [])) eqn:E;
    simpl; [|now left].
  right. repeat split; auto.
  apply andb_true_iff in E as [[Hdir Hroot%negb_true_iff]%andb_true_iff _].
  unfold FS.isdir, FS.stat in Hdir. rewrite Hroot in Hdir.
  destruct (Py.is_empty p); [discriminate|].
  now destruct (disk st !! p) as [[]|].
Qed.

(** The loop over the triples [l] only removes directories named in
    [l] by a triple without files, never the source directory, and
    nothing in test mode. *)
Lemma cleanup_loop (l : list (string * list string * list string))
    (st : state) :
  let st' := fst (for_each (cleanup_dir cfg) l st) in
  test_file_dict st' = test_file_dict st
  /\ (test cfg = true -> st' = st)
  /\ forall p,
       disk st' !! p = disk st !! p
       \/ (disk st' !! p = None /\ disk st !! p = Some Dir
           /\ p <> src_dir cfg
           /\ exists dirnames, In (p, dirnames, []) l).
Proof.
  revert st; induction l as [|[[q dirnames] files] l IH]; intros st.
  - simpl. auto.
  - rewrite for_each_cons.
    pose proof (cleanup_dir_effect q dirnames files st) as Heff.
    destruct (cleanup_dir cfg (q, dirnames, files) st) as [st1 [[]|e]];
      simpl in Heff.
    + destruct (IH st1) as (Hdict & Htest & Hdisk).
      destruct Heff as [->|(Etest & -> & Hne & Hq & ->)].
      * split; [exact Hdict|]. split; [exact Htest|].
        intros p. destruct (Hdisk p) as [Hp|(Hp & Hp0 & Hp1 & dn & Hin)];
          [now left|].
        right. repeat split; auto. exists dn. now right.
      * simpl in *. split; [exact Hdict|].
        split; [intros Ht; rewrite Ht in Etest; discriminate|].
        intros p. destruct (decide (q = p)) as [<-|Hqp].
        -- right. destruct (Hdisk q) as [Hp|(Hp & _)];
             rewrite Hp, ?lookup_delete_eq; repeat split; auto;
             exists dirnames; now left.
        -- destruct (Hdisk p) as [Hp|(Hp & Hp0 & Hp1 & dn & Hin)];
             rewrite lookup_delete_ne in * by exact Hqp.
           ++ now left.
           ++ right. repeat split; auto. exists dn. now right.
    + simpl. destruct Heff as [->|(Etest & -> & Hne & Hq & ->)].
      * auto.
      * simpl. split; [reflexivity|].
        split; [intros Ht; rewrite Ht in Etest; discriminate|].
        intros p. destruct (decide (q = p)) as [<-|Hqp].
        -- right. rewrite lookup_delete_eq. repeat split; auto.
           exists dirnames. now left.
        -- left. now apply lookup_delete_ne.
Qed.

(** C9: the cleanup phase keeps the source directory, changes nothing
    in test mode, and every path it changes is a directory strictly
    inside the source directory that held no file, which it removes. *)
Theorem cleanup_keeps_source (st : state) :
  let st' := fst (cleanup cfg st) in
  disk st' !! src_dir cfg = disk st !! src_dir cfg
  /\ (test cfg = true -> st' = st)
  /\ forall p,
       disk st' !! p <> disk st !! p ->
       disk st !! p = Some Dir /\ disk st' !! p = None
       /\ inside (src_dir cfg) p
       /\ FS.nondirs (disk st) p = [].
Proof.
  unfold cleanup.
  destruct (remove_empty_dirs cfg); [|simpl; repeat split; auto; easy].
  change ((triples ← ask (fun d => FS.walk d false (src_dir cfg));
           for_each (cleanup_dir cfg) triples) st)
    with (for_each (cleanup_dir cfg)
            (FS.walk (disk st) false (src_dir cfg)) st).
  destruct (cleanup_loop (FS.walk (disk st) false (src_dir cfg)) st)
    as (Hdict & Htest & Hdisk).
  split; [|split; [exact Htest|]].
  - destruct (Hdisk (src_dir cfg)) as [H|(_ & _ & Hne & _)];
      [exact H | now destruct Hne].
  - intros p Hp.
    destruct (Hdisk p) as [H|(Hnone & Hdir & Hne & dn & Hin)];
      [now destruct Hp|].
    apply walk_go_triples in Hin as (_ & Hfiles & _ & Hunder).
    repeat split; auto.
    destruct Hunder as [->|Hunder]; [now destruct Hne | exact Hunder].
Qed.

End Cleanup.

(** C9 on the sample disk: src/empty is removed, src and the directory
    src/sub, which holds a file, stay; in test mode nothing changes. *)
Lemma cleanup_keeps_source_witness :
  disk (fst (cleanup (sample_config PyNone false false) sample_state))
    !! "src" = Some Dir
  /\ fst (cleanup (sample_config PyNone false true) sample_state)
     = sample_state.
Proof.
  split.
  - apply (cleanup_keeps_source (sample_config PyNone false false)
             sample_state).
  - apply (cleanup_keeps_source (sample_config PyNone false true)
             sample_state). reflexivity.
Defined.

Example cleanup_sample :
  map_to_list
    (disk (fst (cleanup (sample_config PyNone false false) sample_state)))
  = map_to_list (delete "src/empty" sample_disk).
Proof. vm_compute. reflexivity. Qed.

(** ** The ignore list in the loop over the records *)

Section Ignore.

Variable strftime : string -> datetime -> result string.
Variable fnmatch : string -> string -> bool.
Variable clock : nat -> datetime.
Variable cfg : config.

Lemma io_bind_cont {A B : Type} (m : io A) (k1 k2 : A -> io B)
    (st : state) :
  (forall a st', k1 a st' = k2 a st') -> (m ≫= k1) st = (m ≫= k2) st.
Proof.
  intros H. unfold mbind, io_bind. destruct (m st) as [st' [a|e]]; auto.
Qed.

Lemma io_bind_arg {A B : Type} (m1 m2 : io A) (k : A -> io B)
    (st : state) :
  m1 st = m2 st -> (m1 ≫= k) st = (m2 ≫= k) st.
Proof. intros H. unfold mbind, io_bind. now rewrite H. Qed.

Lemma filter_ignored_keeps (src_file : string) (filters : list string)
    (st : state) :
  remove_ignored_files cfg = false ->
  filter_ignored fnmatch cfg src_file filters st = (st, Ok tt).
Proof.
  intros Hkeep. unfold filter_ignored. rewrite Hkeep.
  induction filters as [|_filter filters IH]; [reflexivity|].
  rewrite for_each_cons.
  destruct (fnmatch _ _); exact IH.
Qed.

(** C2, what the code does instead: with [remove_ignored_files] off, a
    record is processed with an ignore list exactly as without one; a
    file whose name matches a filter is placed and moved or copied like
    any other. *)
Theorem process_record_ignore_list_unused (groups tags filters : list string)
    (idx : nat) (data : record) (st : state) :
  remove_ignored_files cfg = false ->
  process_record strftime fnmatch clock cfg groups tags (Some filters)
    idx data st
  = process_record strftime fnmatch clock cfg groups tags None idx data st.
Proof.
  intros Hkeep. unfold process_record.
  apply io_bind_cont; intros [[src_file date] ks] st1.
  apply io_bind_cont; intros _ st2.
  destruct date as [date|]; [|reflexivity].
  apply io_bind_cont; intros src st3.
  apply io_bind_arg. now rewrite filter_ignored_keeps.
Qed.

End Ignore.

(** C2 on the sample disk, with the ignore list "*.db": src/b.db matches
    the filter and is moved to the destination all the same. *)
Lemma process_record_ignore_list_unused_witness :
  process_record strftime_py3 glob sample_clock
    (sample_config (PyStr "*.db") false false) [] [] (Some ["*.db"]) 1
    [("SourceFile", VStr "src/b.db");
     ("EXIF:CreateDate", VStr "2020:05:02 10:00:00")] sample_state
  = process_record strftime_py3 glob sample_clock
      (sample_config (PyStr "*.db") false false) [] [] None 1
      [("SourceFile", VStr "src/b.db");
       ("EXIF:CreateDate", VStr "2020:05:02 10:00:00")] sample_state.
Proof.
  apply (process_record_ignore_list_unused strftime_py3 glob sample_clock
           (sample_config (PyStr "*.db") false false)).
  reflexivity.
Defined.

Example sortPhotos_moves_ignored_file :
  glob "b.db" "*.db" = true
  /\ (let d := fst (sortPhotos strftime_py3 glob sample_metadata sample_clock
                      (sample_config (PyStr "*.db") false false) sample_disk)
      in d !! "src/b.db" = None
         /\ d !! "out/2020/05-May/b.db" = Some (File (mkFile "bbb" 2))).
Proof. vm_compute. repeat split. Qed.

(** With [remove_ignored_files] on, outside the recursive scan, the file
    is deleted and then placed: the move of the missing file raises. *)
Example sortPhotos_deletes_then_places :
  let r := sortPhotos strftime_py3 glob sample_metadata sample_clock
             (mkConfig "src" "out" "%Y/%m-%b" None false false false true 0
                       [] [] None None true (PyStr "*.db") true false)
             sample_disk in
  fst r !! "src/b.db" = None
  /\ fst r !! "out/2020/05-May/b.db" = None
  /\ snd r = Raise OSError.
Proof. vm_compute. repeat split. Qed.

(** * Further properties of the parser *)

Section ParserShapes.

Variable strftime : string -> datetime -> result string.

Lemma split_ws_one (a : string) :
  no_blank a = true -> Py.is_empty a = false ->
  Py.split_ws (Py.strip a) = [a].
Proof.
  intros Ha Hne. rewrite split_ws_strip. unfold Py.split_ws.
  rewrite split_ws_go_token, app_empty_l by exact Ha. now rewrite Hne.
Qed.

(** The parse of a lone date token, and of a date token followed by a
    time token that carries no suffix. *)
Lemma parse_date_exif_one_token (dtok : string) :
  no_blank dtok = true -> Py.is_empty dtok = false ->
  parse_date_exif strftime dtok
  = if date_shape_ok (Py.split ":" dtok) then
      year ← Py.int (Py.item (Py.split ":" dtok) 0);
      month ← Py.int (Py.item (Py.split ":" dtok) 1);
      day ← Py.int (Py.item (Py.split ":" dtok) 2);
      form_date strftime year month day 12 0 0 None
    else Ok None.
Proof.
  intros Hd Hne. unfold parse_date_exif. rewrite split_ws_one by assumption.
  destruct (date_shape_ok _); [|reflexivity].
  destruct (Py.int _) as [y|]; [|reflexivity].
  destruct (Py.int _) as [m|]; [|reflexivity].
  destruct (Py.int _) as [d|]; reflexivity.
Qed.

Lemma parse_date_exif_two_tokens (dtok ttok : string) :
  no_blank dtok = true -> Py.is_empty dtok = false ->
  no_blank ttok = true -> Py.is_empty ttok = false ->
  no_tz_sep ttok = true ->
  parse_date_exif strftime (dtok +:+ " " +:+ ttok)
  = if date_shape_ok (Py.split ":" dtok) then
      year ← Py.int (Py.item (Py.split ":" dtok) 0);
      month ← Py.int (Py.item (Py.split ":" dtok) 1);
      day ← Py.int (Py.item (Py.split ":" dtok) 2);
      '(hour, minute, second) ← parse_time (Py.split ":" ttok);
      form_date strftime year month day hour minute second None
    else Ok None.
Proof.
  intros Hd Hne Ht Htne Hsep. unfold parse_date_exif.
  rewrite split_ws_two by assumption. rewrite Htne.
  destruct (date_shape_ok _); [|reflexivity].
  destruct (Py.int _) as [y|]; [|reflexivity].
  destruct (Py.int _) as [m|]; [|reflexivity].
  destruct (Py.int _) as [d|]; [|reflexivity].
  rewrite !bind_Ok. unfold parse_clock.
  rewrite re_split_tz_one by assumption.
  change (Py.item [ttok] 0) with ttok.
  destruct (parse_time _) as [[[h mi] s]|e]; reflexivity.
Qed.

(** A second token that is neither of the form a:b nor a:b:c (one part,
    or four and more) is not read at all: the result is that of the date
    token alone, noon of that day. *)
Theorem parse_date_exif_odd_time_token (dtok ttok : string) :
  no_blank dtok = true -> Py.is_empty dtok = false ->
  no_blank ttok = true -> Py.is_empty ttok = false ->
  no_tz_sep ttok = true ->
  length (Py.split ":" ttok) <> 2%nat ->
  length (Py.split ":" ttok) <> 3%nat ->
  parse_date_exif strftime (dtok +:+ " " +:+ ttok)
  = parse_date_exif strftime dtok.
Proof.
  intros Hd Hne Ht Htne Hsep H2 H3.
  rewrite parse_date_exif_two_tokens, parse_date_exif_one_token
    by assumption.
  unfold parse_time.
  apply Nat.eqb_neq in H2, H3. now rewrite H2, H3.
Qed.

Lemma split_three (sep : ascii) (a b c : string) :
  str_all (fun x => negb (Ascii.eqb x sep)) a = true ->
  str_all (fun x => negb (Ascii.eqb x sep)) b = true ->
  str_all (fun x => negb (Ascii.eqb x sep)) c = true ->
  Py.split sep (a +:+ String sep (b +:+ String sep c)) = [a; b; c].
Proof.
  intros Ha Hb Hc. unfold Py.split.
  rewrite split_go_app, app_empty_l by exact Ha. simpl.
  rewrite Ascii.eqb_refl. f_equal. now apply split_two.
Qed.

Lemma all_digits_facts (s : string) :
  all_digits s = true ->
  Py.is_empty s = false /\ no_blank s = true /\ no_tz_sep s = true
  /\ str_all (fun x => negb (Ascii.eqb x ":")) s = true
  /\ str_all (fun x => negb (Ascii.eqb x ".")) s = true.
Proof.
  unfold all_digits. intros [Hne%negb_true_iff Hd]%andb_true_iff.
  split; [exact Hne|].
  repeat split; (eapply str_all_impl; [|exact Hd]); intros x Hx;
    destruct (digit_facts x Hx) as (E1 & E2 & E3); rewrite ?E1, ?E2, ?E3;
    try reflexivity.
  apply negb_true_iff, Ascii.eqb_neq. intros ->. discriminate.
Qed.

(** A date token and a time token HH:MM:SS, with an optional fraction
    after the seconds, parse to exactly these six numbers: the fraction is
    dropped. *)
Theorem parse_date_exif_full (dtok hh mi ss frac text : string)
    (y m d H M S : Z) :
  no_blank dtok = true -> Py.is_empty dtok = false ->
  date_shape_ok (Py.split ":" dtok) = true ->
  Py.int (Py.item (Py.split ":" dtok) 0) = Ok y ->
  Py.int (Py.item (Py.split ":" dtok) 1) = Ok m ->
  Py.int (Py.item (Py.split ":" dtok) 2) = Ok d ->
  all_digits hh = true -> all_digits mi = true -> all_digits ss = true ->
  all_digits frac = true ->
  Py.int hh = Ok H -> Py.int mi = Ok M -> Py.int ss = Ok S ->
  1 <= y <= 9999 -> 1 <= m <= 12 -> 1 <= d <= days_in_month y m ->
  0 <= H <= 23 -> 0 <= M <= 59 -> 0 <= S <= 59 ->
  strftime "%Y/%m-%b" (mkDatetime (ymd2ord y m d) H M S 0) = Ok text ->
  parse_date_exif strftime (dtok +:+ " " +:+ hh +:+ ":" +:+ mi +:+ ":" +:+ ss)
  = Ok (Some (mkDatetime (ymd2ord y m d) H M S 0))
  /\ parse_date_exif strftime
       (dtok +:+ " " +:+ hh +:+ ":" +:+ mi +:+ ":" +:+ ss +:+ "." +:+ frac)
     = Ok (Some (mkDatetime (ymd2ord y m d) H M S 0)).
Proof.
  intros Hd Hne Hshape Hy Hm Hdd Hhh Hmi Hss Hfr HH HM HS
    Ry Rm Rd RH RM RS Hfmt.
  destruct (all_digits_facts hh Hhh) as (Eh & Bh & Th & Ch & Dh).
  destruct (all_digits_facts mi Hmi) as (Em & Bm & Tm & Cm & Dm).
  destruct (all_digits_facts ss Hss) as (Es & Bs & Ts & Cs & Ds).
  destruct (all_digits_facts frac Hfr) as (Ef & Bf & Tf & Cf & Df).
  assert (Hform : form_date strftime y m d H M S None
                  = Ok (Some (mkDatetime (ymd2ord y m d) H M S 0))).
  { unfold form_date. rewrite new_valid by lia. now rewrite Hfmt. }
  split.
  - rewrite parse_date_exif_two_tokens; try assumption.
    + rewrite Hshape, Hy, Hm, Hdd, !bind_Ok.
      rewrite !app_cons, !app_empty_l.
      rewrite split_three by assumption.
      unfold parse_time, Py.item; simpl.
      rewrite HH, HM, !bind_Ok, split_one by assumption. simpl.
      now rewrite HS, bind_Ok.
    + unfold no_blank in *. rewrite !str_all_app; simpl.
      now rewrite Bh, Bm, Bs.
    + rewrite is_empty_app, Eh. reflexivity.
    + unfold no_tz_sep in *. rewrite !str_all_app; simpl.
      now rewrite Th, Tm, Ts.
  - rewrite parse_date_exif_two_tokens; try assumption.
    + rewrite Hshape, Hy, Hm, Hdd, !bind_Ok.
      rewrite !app_cons, !app_empty_l.
      rewrite split_three; try assumption.
      * unfold parse_time, Py.item; simpl.
        rewrite HH, HM, !bind_Ok, split_two by assumption. simpl.
        now rewrite HS, bind_Ok.
      * rewrite str_all_app; simpl. now rewrite Cs, Cf.
    + unfold no_blank in *. rewrite !str_all_app; simpl.
      now rewrite Bh, Bm, Bs, Bf.
    + rewrite is_empty_app, Eh. reflexivity.
    + unfold no_tz_sep in *. rewrite !str_all_app; simpl.
      now rewrite Th, Tm, Ts, Tf.
Qed.

End ParserShapes.

Lemma parse_date_exif_odd_time_token_witness :
  parse_date_exif strftime_py3 "2020:01:15 10"
  = parse_date_exif strftime_py3 "2020:01:15"
  /\ parse_date_exif strftime_py3 "2020:01:15"
     = Ok (Some (mkDatetime 737439 12 0 0 0)).
Proof.
  split; [|reflexivity].
  apply (parse_date_exif_odd_time_token strftime_py3 "2020:01:15" "10");
    try reflexivity; discriminate.
Defined.

Lemma parse_date_exif_full_witness :
  parse_date_exif strftime_py3 "2020:01:15 10:30:45"
  = Ok (Some (mkDatetime (ymd2ord 2020 1 15) 10 30 45 0))
  /\ parse_date_exif strftime_py3 "2020:01:15 10:30:45.99"
     = Ok (Some (mkDatetime (ymd2ord 2020 1 15) 10 30 45 0)).
Proof.
  apply (parse_date_exif_full strftime_py3 "2020:01:15" "10" "30" "45" "99"
           "2020/01-Jan" 2020 1 15 10 30 45);
    try reflexivity; vm_compute; split; discriminate.
Defined.

Section ParserSuffixes.

Variable strftime : string -> datetime -> result string.
Variables dtok ttok : string.
Hypothesis dtok_no_blank : no_blank dtok = true.
Hypothesis dtok_not_empty : Py.is_empty dtok = false.
Hypothesis ttok_no_blank : no_blank ttok = true.
Hypothesis ttok_no_tz_sep : no_tz_sep ttok = true.

(** A suffix whose text after the sign does not split into exactly two
    parts at a colon (as in +0200) is ignored: the time is kept as
    parsed. *)
Theorem parse_date_exif_malformed_suffix (c : ascii) (z : string)
    (local : datetime) :
  Py.is_tz_sep c = true ->
  no_blank z = true -> no_tz_sep z = true ->
  length (Py.split ":" z) <> 2%nat ->
  parse_date_exif strftime (dtok +:+ " " +:+ ttok) = Ok (Some local) ->
  parse_date_exif strftime (dtok +:+ " " +:+ ttok +:+ String c z)
  = Ok (Some local).
Proof.
  intros Hc Hz1 Hz2 Hlen Hlocal.
  assert (Hsp : Py.is_space c = false).
  { unfold Py.is_tz_sep in Hc.
    apply orb_true_iff in Hc as [[Hc|Hc]%orb_true_iff|Hc];
      apply Ascii.eqb_eq in Hc; now subst c. }
  destruct (parse_date_exif_suffix strftime dtok ttok dtok_no_blank
              dtok_not_empty ttok_no_blank ttok_no_tz_sep c z local
              Hc Hsp Hz1 Hz2 Hlocal) as [-> _].
  unfold parse_time_zone. simpl.
  change (Py.item [ttok; String c ""; z] 2) with z.
  apply Nat.eqb_neq in Hlen. now rewrite Hlen.
Qed.

(** For a suffix -HH:MM only the hours are negated: the result is the
    local time minus HH hours plus MM minutes. *)
Theorem parse_date_exif_minus_minutes (hh mm : string) (local : datetime)
    (H M : Z) :
  all_digits hh = true -> all_digits mm = true ->
  Py.int hh = Ok H -> Py.int mm = Ok M ->
  parse_date_exif strftime (dtok +:+ " " +:+ ttok) = Ok (Some local) ->
  parse_date_exif strftime
    (dtok +:+ " " +:+ ttok +:+ "-" +:+ hh +:+ ":" +:+ mm)
  = (delta ← new_timedelta (- H) M;
     date ← DateTime.add local delta; Ok (Some date))
  /\ forall date,
       parse_date_exif strftime
         (dtok +:+ " " +:+ ttok +:+ "-" +:+ hh +:+ ":" +:+ mm)
       = Ok (Some date) ->
       to_seconds date = to_seconds local - H * 3600 + M * 60.
Proof.
  intros Hh Hm HH HM Hlocal.
  destruct (all_digits_facts hh Hh) as (_ & Bh & Th & _).
  destruct (all_digits_facts mm Hm) as (_ & Bm & Tm & _).
  destruct (parse_date_exif_suffix strftime dtok ttok dtok_no_blank
              dtok_not_empty ttok_no_blank ttok_no_tz_sep "-"
              (hh +:+ ":" +:+ mm) local) as [Heq Hwf];
    try reflexivity; try assumption.
  { unfold no_blank in *. rewrite !str_all_app; simpl. now rewrite Bh, Bm. }
  { unfold no_tz_sep in *. rewrite !str_all_app; simpl. now rewrite Th, Tm. }
  change (dtok +:+ " " +:+ ttok +:+ "-" +:+ hh +:+ ":" +:+ mm)
    with (dtok +:+ " " +:+ ttok +:+ String "-" (hh +:+ ":" +:+ mm)).
  rewrite Heq, parse_time_zone_signed by assumption.
  rewrite HH, HM, !bind_Ok. simpl Ascii.eqb. cbv iota.
  replace (H * -1) with (- H) by lia.
  destruct (new_timedelta (- H) M) as [delta|e] eqn:Ed;
    rewrite ?bind_Ok, ?bind_Raise; [|split; [reflexivity|discriminate]].
  split; [reflexivity|].
  intros date.
  destruct (DateTime.add local delta) as [date'|e] eqn:Ea;
    rewrite ?bind_Ok, ?bind_Raise; [|discriminate].
  intros [= <-].
  apply new_timedelta_seconds in Ed as [Hsec Hus].
  destruct (add_seconds local date' delta Hwf Hus Ea) as (-> & _).
  rewrite Hsec. lia.
Qed.

End ParserSuffixes.

Lemma parse_date_exif_malformed_suffix_witness :
  parse_date_exif strftime_py3 "2020:01:15 10:30:00+0200"
  = Ok (Some (mkDatetime 737439 10 30 0 0)).
Proof.
  apply (parse_date_exif_malformed_suffix strftime_py3 "2020:01:15"
           "10:30:00" eq_refl eq_refl eq_refl eq_refl "+" "0200");
    try reflexivity. discriminate.
Defined.

Lemma parse_date_exif_minus_minutes_witness :
  parse_date_exif strftime_py3 "2020:01:15 10:30:00-05:30"
  = Ok (Some (mkDatetime 737439 6 0 0 0)).
Proof.
  apply (parse_date_exif_minus_minutes strftime_py3 "2020:01:15" "10:30:00"
           eq_refl eq_refl eq_refl eq_refl "05" "30"
           (mkDatetime 737439 10 30 0 0) 5 30); reflexivity.
Defined.

Section ParserRange.

Variable strftime : string -> datetime -> result string.

Lemma parse_time_zone_delta (time_entries : list string) (delta : timedelta) :
  parse_time_zone time_entries = Ok (Some delta) ->
  td_microseconds delta = 0.
Proof.
  unfold parse_time_zone.
  destruct (2 <? length time_entries)%nat; [|discriminate].
  destruct (length _ =? 2)%nat; [|discriminate].
  intros (h & _ & Hk)%bind_Ok_inv.
  apply bind_Ok_inv in Hk as (m & _ & Hk).
  apply bind_Ok_inv in Hk as (t & Ht & Hk).
  injection Hk as <-. now apply new_timedelta_seconds in Ht.
Qed.

(** Every timestamp the parser returns is one [datetime] can hold: a day
    from 0001-01-01 to 9999-12-31 and a time of day. *)
Lemma parse_date_exif_wf (s : string) (date : datetime) :
  parse_date_exif strftime s = Ok (Some date) -> wf date.
Proof.
  unfold parse_date_exif.
  destruct (Py.split_ws (Py.strip s)) as [|element0 more]; [discriminate|].
  destruct (date_shape_ok _); [|discriminate].
  intros (y & _ & Hk)%bind_Ok_inv.
  apply bind_Ok_inv in Hk as (m & _ & Hk).
  apply bind_Ok_inv in Hk as (d & _ & Hk).
  apply bind_Ok_inv in Hk as ([[[h mi] sec] dateadd] & Hclock & Hk).
  unfold form_date in Hk.
  destruct (DateTime.new y m d h mi sec) as [date0|[]] eqn:Enew;
    try discriminate.
  apply new_wf in Enew.
  destruct (strftime _ date0) as [text|[]]; try discriminate.
  destruct dateadd as [delta|]; [|now injection Hk as <-].
  apply bind_Ok_inv in Hk as (date' & Hadd & Hk). injection Hk as <-.
  assert (Hus : td_microseconds delta = 0).
  { unfold parse_clock in Hclock.
    destruct more as [|element1 more]; [discriminate|].
    apply bind_Ok_inv in Hclock as ([[h' mi'] s'] & _ & Hclock).
    apply bind_Ok_inv in Hclock as (da & Htz & Hclock).
    injection Hclock as _ _ _ ->. now apply parse_time_zone_delta in Htz. }
  now destruct (add_seconds date0 date' delta Enew Hus Hadd) as (_ & _ & Hwf).
Qed.

End ParserRange.

(** * A date token with a part that is no number *)

Section Uncaught.

Variable strftime : string -> datetime -> result string.

Lemma int_raises (s : string) (e : exn) :
  Py.int s = Raise e -> e = ValueError.
Proof. unfold Py.int. destruct (Py.int_opt s); [discriminate|]. now intros [= <-]. Qed.

Lemma digit_above_zero (c : ascii) :
  Py.is_digit c = true -> c = "0"%char \/ Ascii.compare c "0" = Gt.
Proof.
  unfold Py.is_digit, Py.code. intros [Hlo _]%andb_true_iff.
  apply Z.leb_le in Hlo. unfold Ascii.compare.
  destruct (N.compare_spec (N_of_ascii c) (N_of_ascii "0")) as [E|E|E].
  - left. rewrite <- (ascii_N_embedding c), E. reflexivity.
  - simpl in E. lia.
  - now right.
Qed.

(** A year of four digits other than 0000 is above "0000" as a string. *)
Lemma str_gt_year (y : string) :
  str_all Py.is_digit y = true -> String.length y = 4%nat -> y <> "0000" ->
  Py.str_gt y "0000" = true.
Proof.
  destruct y as [|a [|b [|c [|d [|? ?]]]]]; try discriminate.
  simpl str_all. rewrite !andb_true_iff.
  intros (Ha & Hb & Hc & Hd & _) _ Hne. unfold Py.str_gt.
  destruct (digit_above_zero a Ha) as [->|Ea];
    [|now cbn [String.compare]; rewrite Ea].
  destruct (digit_above_zero b Hb) as [->|Eb];
    [|now cbn [String.compare]; rewrite Eb].
  destruct (digit_above_zero c Hc) as [->|Ec];
    [|now cbn [String.compare]; rewrite Ec].
  destruct (digit_above_zero d Hd) as [->|Ed];
    [now destruct Hne|now cbn [String.compare]; rewrite Ed].
Qed.

Lemma str_in_point (s : string) :
  str_all (fun x => negb (Ascii.eqb x ".")) s = true ->
  Py.str_in "." s = false.
Proof.
  induction s as [|x s IH]; [reflexivity|]. simpl str_all.
  intros [Hx Hs]%andb_true_iff. cbn [Py.str_in String.prefix].
  rewrite (IH Hs), orb_false_r.
  destruct (ascii_dec "." x) as [<-|_]; [discriminate Hx | reflexivity].
Qed.

(** C5: a date token Y:M:D whose year is four digits other than 0000
    passes the test of line 52 whatever M and D hold besides a colon or a
    point, also when they are empty; if M or D is then no integer,
    [int] raises ValueError at lines 53-55, which stand outside every
    [try]: the parser raises where the other malformed dates give
    [None]. *)
Theorem parse_date_exif_uncaught (s y m d : string) (more : list string) :
  Py.split_ws (Py.strip s) = (y +:+ ":" +:+ m +:+ ":" +:+ d) :: more ->
  all_digits y = true -> String.length y = 4%nat -> y <> "0000" ->
  date_part m = true -> date_part d = true ->
  Py.int m = Raise ValueError \/ Py.int d = Raise ValueError ->
  parse_date_exif strftime s = Raise ValueError.
Proof.
  intros Hs Hy Hlen Hzero Hm Hd Hbad.
  destruct (all_digits_facts y Hy) as (_ & _ & _ & Ycolon & Ypoint).
  assert (Ydigits : str_all Py.is_digit y = true)
    by now apply andb_true_iff in Hy as [_ Hy].
  unfold date_part in Hm, Hd.
  assert (Hparts : forall p, str_all (fun x => negb (Ascii.eqb x ":")
                                        && negb (Ascii.eqb x ".")) p = true ->
            str_all (fun x => negb (Ascii.eqb x ":")) p = true
            /\ str_all (fun x => negb (Ascii.eqb x ".")) p = true).
  { intros p Hp. split; (eapply str_all_impl; [|exact Hp]); intros x Hx;
      now apply andb_true_iff in Hx as [H1 H2]. }
  destruct (Hparts m Hm) as [Mcolon Mpoint].
  destruct (Hparts d Hd) as [Dcolon Dpoint].
  unfold parse_date_exif. rewrite Hs.
  change (y +:+ ":" +:+ m +:+ ":" +:+ d)
    with (y +:+ String ":" (m +:+ String ":" d)).
  rewrite split_three by assumption.
  assert (Hshape : date_shape_ok [y; m; d] = true).
  { apply date_shape_ok_iff. change (Py.item [y; m; d] 0) with y.
    repeat split; auto.
    - now apply str_gt_year.
    - apply str_in_point. unfold Py.join. simpl String.concat.
      rewrite !str_all_app. simpl. now rewrite Ypoint, Mpoint, Dpoint. }
  rewrite Hshape.
  change (Py.item [y; m; d] 0) with y. change (Py.item [y; m; d] 1) with m.
  change (Py.item [y; m; d] 2) with d.
  destruct (Py.int y) as [year|e] eqn:Ey;
    [rewrite bind_Ok | now rewrite bind_Raise, (int_raises _ _ Ey)].
  destruct (Py.int m) as [month|e] eqn:Em;
    [rewrite bind_Ok | now rewrite bind_Raise, (int_raises _ _ Em)].
  destruct Hbad as [Hbad|Hbad]; [discriminate|]. now rewrite Hbad, bind_Raise.
Qed.

End Uncaught.

(** C5 at "2020::": month and day are empty. *)
Lemma parse_date_exif_uncaught_witness :
  parse_date_exif strftime_py3 "2020::" = Raise ValueError.
Proof.
  apply (parse_date_exif_uncaught strftime_py3 "2020::" "2020" "" "" []);
    try reflexivity.
  - discriminate.
  - now left.
Defined.

(** * Further properties of the selector *)

Section SelectorFrame.

Variable strftime : string -> datetime -> result string.

Lemma oldest_loop_frame (data1 data2 : record)
    (ignore_groups ignore_tags ks : list string) (st : oldest) :
  (forall key, In key ks -> key_used ignore_groups ignore_tags key = true ->
               dict_get key data1 = dict_get key data2) ->
  oldest_loop strftime data1 ignore_groups ignore_tags ks st
  = oldest_loop strftime data2 ignore_groups ignore_tags ks st.
Proof.
  revert st; induction ks as [|key ks IH]; intros st Hsame; [reflexivity|].
  simpl.
  assert (Hstep : oldest_step strftime data1 ignore_groups ignore_tags st key
                  = oldest_step strftime data2 ignore_groups ignore_tags st key).
  { unfold oldest_step.
    destruct (key_used ignore_groups ignore_tags key) eqn:Hused;
      [|reflexivity].
    now rewrite (Hsame key (or_introl eq_refl) Hused). }
  rewrite Hstep.
  destruct (oldest_step strftime data2 _ _ st key) as [st'|e];
    [|reflexivity].
  rewrite !bind_Ok. apply IH. intros k Hk. apply Hsame. now right.
Qed.

(** A tag that line 136 leaves out never influences the result: two
    records with the same keys and the same SourceFile that agree on the
    values of the searched keys give the same answer, whatever the values
    of the other keys are. *)
Theorem get_oldest_timestamp_frame (now : datetime) (data1 data2 : record)
    (groups tags : list string) :
  keys data1 = keys data2 ->
  dict_get "SourceFile" data1 = dict_get "SourceFile" data2 ->
  (forall key, In key (keys data1) ->
     key_used ("ICC_Profile" :: groups)
              ("SourceFile" :: "XMP:HistoryWhen" :: tags) key = true ->
     dict_get key data1 = dict_get key data2) ->
  get_oldest_timestamp strftime now data1 groups tags
  = get_oldest_timestamp strftime now data2 groups tags.
Proof.
  intros Hkeys Hsrc Hsame. unfold get_oldest_timestamp.
  rewrite Hsrc, <- Hkeys.
  now rewrite (oldest_loop_frame data1 data2 _ _ (keys data1) _ Hsame).
Qed.

End SelectorFrame.

(** A GPS date and a date of the ignored group File, both the earliest of
    the record, change nothing. *)
Lemma get_oldest_timestamp_frame_witness :
  get_oldest_timestamp strftime_py3 (mkDatetime 739000 0 0 0 5)
    [("SourceFile", VStr "a.jpg");
     ("EXIF:GPSDateStamp", VStr "1999:01:01");
     ("File:FileModifyDate", VStr "1998:01:01 00:00:00");
     ("EXIF:CreateDate", VStr "2020:05:01 10:00:00")] ["File"] []
  = get_oldest_timestamp strftime_py3 (mkDatetime 739000 0 0 0 5)
      [("SourceFile", VStr "a.jpg");
       ("EXIF:GPSDateStamp", VStr "no date");
       ("File:FileModifyDate", VStr "2021:01:01 00:00:00");
       ("EXIF:CreateDate", VStr "2020:05:01 10:00:00")] ["File"] [].
Proof.
  apply get_oldest_timestamp_frame; try reflexivity.
  intros key [<-|[<-|[<-|[<-|[]]]]]; try reflexivity; discriminate.
Defined.

(** A record without any searched date, read at any time, has no date. *)
Lemma get_oldest_timestamp_none_witness :
  exists ks,
    get_oldest_timestamp strftime_py3 (mkDatetime 739000 0 0 0 5)
      [("SourceFile", VStr "a.jpg"); ("EXIF:Make", VStr "Canon");
       ("EXIF:GPSDateStamp", VStr "1999:01:01")] ["File"] []
    = Ok (VStr "a.jpg", None, ks).
Proof.
  apply (get_oldest_timestamp_none strftime_py3 (mkDatetime 739000 0 0 0 5)
           [("SourceFile", VStr "a.jpg"); ("EXIF:Make", VStr "Canon");
            ("EXIF:GPSDateStamp", VStr "1999:01:01")] ["File"] []
           (VStr "a.jpg") eq_refl).
  - intros key [<-|[<-|[<-|[]]]]; reflexivity.
  - intros key d [<-|[<-|[<-|[]]]]; discriminate.
Defined.

(** * The range of a shifted timestamp *)

Section ShiftRange.

Variable strftime : string -> datetime -> result string.
Variables dtok ttok : string.
Hypothesis dtok_no_blank : no_blank dtok = true.
Hypothesis dtok_not_empty : Py.is_empty dtok = false.
Hypothesis ttok_no_blank : no_blank ttok = true.
Hypothesis ttok_no_tz_sep : no_tz_sep ttok = true.

(** [timedelta(hours=H, minutes=M)] added to a date: the sum is there
    exactly when it falls from 0001-01-01 00:00:00 to 9999-12-31
    23:59:59. *)
Lemma add_shift_range (local : datetime) (H M : Z) :
  wf local ->
  (86400 <= to_seconds local + (H * 3600 + M * 60)
           < 86400 * (MAXORDINAL + 1) ->
   exists delta date,
     new_timedelta H M = Ok delta /\ DateTime.add local delta = Ok date)
  /\ (~ (86400 <= to_seconds local + (H * 3600 + M * 60)
                  < 86400 * (MAXORDINAL + 1)) ->
      (delta ← new_timedelta H M;
       date ← DateTime.add local delta; Ok (Some date))
      = Raise OverflowError).
Proof.
  intros (Hord & Hh & Hmi & Hs & Hus).
  unfold to_seconds, new_timedelta, DateTime.add, in_range, MAX_DELTA_DAYS,
    MAXORDINAL in *.
  set (secs := H * 3600 + M * 60).
  assert (Hmicro : (microsecond local + 0) / 1000000 = 0)
    by (apply Z.div_small; lia).
  assert (Hdiv : secs = 86400 * (secs / 86400) + secs mod 86400)
    by (apply Z.div_mod; lia).
  pose proof (Z.mod_pos_bound secs 86400 ltac:(lia)) as Hmod.
  split.
  - intros Hrange.
    match goal with |- context [if ?c then _ else _] =>
      assert (Hc : c = true)
    end.
    { apply andb_true_iff. split; apply Z.leb_le; lia. }
    rewrite Hc. eexists _, _. split; [reflexivity|]. simpl. rewrite Hmicro.
    match goal with |- context [if ?c then _ else _] =>
      assert (Hd : c = true)
    end.
    { apply andb_true_iff. split; [apply Z.ltb_lt | apply Z.leb_le];
        Z.to_euclidean_division_equations; lia. }
    now rewrite Hd.
  - intros Hout.
    match goal with |- context [if ?c then _ else _] => destruct c end;
      [|reflexivity].
    rewrite bind_Ok. simpl. rewrite Hmicro.
    match goal with |- context [if ?c then _ else _] =>
      destruct c eqn:E
    end; [|reflexivity].
    apply andb_true_iff in E as [E1%Z.ltb_lt E2%Z.leb_le].
    exfalso. apply Hout.
    Z.to_euclidean_division_equations. lia.
Qed.

(** After a time that parses to [local], the suffix +HH:MM gives a
    timestamp exactly when [local] plus the shift falls from 0001-01-01
    00:00:00 to 9999-12-31 23:59:59, and that timestamp is the sum;
    otherwise the parser raises OverflowError: [timedelta] of line 89 and
    the addition of line 107 stand in no [try]. *)
Theorem parse_date_exif_shift_range (hh mm : string) (local : datetime)
    (H M : Z) :
  all_digits hh = true -> all_digits mm = true ->
  Py.int hh = Ok H -> Py.int mm = Ok M ->
  parse_date_exif strftime (dtok +:+ " " +:+ ttok) = Ok (Some local) ->
  (86400 <= to_seconds local + (H * 3600 + M * 60)
           < 86400 * (MAXORDINAL + 1) ->
   exists date,
     parse_date_exif strftime
       (dtok +:+ " " +:+ ttok +:+ "+" +:+ hh +:+ ":" +:+ mm)
     = Ok (Some date)
     /\ to_seconds date = to_seconds local + (H * 3600 + M * 60)
     /\ microsecond date = microsecond local)
  /\ (~ (86400 <= to_seconds local + (H * 3600 + M * 60)
                  < 86400 * (MAXORDINAL + 1)) ->
      parse_date_exif strftime
        (dtok +:+ " " +:+ ttok +:+ "+" +:+ hh +:+ ":" +:+ mm)
      = Raise OverflowError).
Proof.
  intros Hh Hm HH HM Hlocal.
  destruct (all_digits_facts hh Hh) as (_ & Bh & Th & _).
  destruct (all_digits_facts mm Hm) as (_ & Bm & Tm & _).
  destruct (parse_date_exif_suffix strftime dtok ttok dtok_no_blank
              dtok_not_empty ttok_no_blank ttok_no_tz_sep "+"
              (hh +:+ ":" +:+ mm) local) as [Heq Hwf];
    try reflexivity; try assumption.
  { unfold no_blank in *. rewrite !str_all_app; simpl. now rewrite Bh, Bm. }
  { unfold no_tz_sep in *. rewrite !str_all_app; simpl. now rewrite Th, Tm. }
  change (dtok +:+ " " +:+ ttok +:+ "+" +:+ hh +:+ ":" +:+ mm)
    with (dtok +:+ " " +:+ ttok +:+ String "+" (hh +:+ ":" +:+ mm)).
  rewrite Heq, parse_time_zone_signed by assumption.
  rewrite HH, HM, !bind_Ok. simpl Ascii.eqb. cbv iota.
  destruct (add_shift_range local H M Hwf) as [Hin Hout].
  split.
  - intros Hrange. destruct (Hin Hrange) as (delta & date & Hd & Ha).
    exists date. rewrite Hd, !bind_Ok, Ha, bind_Ok.
    split; [reflexivity|].
    apply new_timedelta_seconds in Hd as [Hsec Hus].
    destruct (add_seconds local date delta Hwf Hus Ha) as (-> & -> & _).
    now rewrite Hsec.
  - intros Hrange. specialize (Hout Hrange).
    destruct (new_timedelta H M) as [delta|e] eqn:Ed.
    + rewrite !bind_Ok in *. exact Hout.
    + rewrite !bind_Raise in *. exact Hout.
Qed.

End ShiftRange.

(** Half an hour before the end of 9999 and a shift of one hour. *)
Lemma parse_date_exif_shift_range_witness :
  parse_date_exif strftime_py3 "9999:12:31 23:30:00+01:00"
  = Raise OverflowError.
Proof.
  apply (parse_date_exif_shift_range strftime_py3 "9999:12:31" "23:30:00"
           eq_refl eq_refl eq_refl eq_refl "01" "00"
           (mkDatetime 3652059 23 30 0 0) 1 0);
    try reflexivity.
  vm_compute. intros [_ H]. discriminate H.
Defined.

(** * Further properties of sortPhotos *)

Section Records.

Variable strftime : string -> datetime -> result string.
Variable fnmatch : string -> string -> bool.
Variable get_metadata : list string -> gmap string node -> list record.
Variable clock : nat -> datetime.
Variable cfg : config.

Lemma io_bind_run {A B : Type} (m : io A) (k : A -> io B) (st st' : state)
    (a : A) :
  m st = (st', Ok a) -> (m ≫= k) st = k a st'.
Proof. intros H. unfold mbind, io_bind. now rewrite H. Qed.

Lemma io_bind_raise {A B : Type} (m : io A) (k : A -> io B) (st st' : state)
    (e : exn) :
  m st = (st', Raise e) -> (m ≫= k) st = (st', Raise e).
Proof. intros H. unfold mbind, io_bind. now rewrite H. Qed.

(** A file for which no date is found is left alone, whatever the ignore
    list says: the date test of line 351 comes before the filters, so such
    a file is not deleted even when its name matches a filter and
    [remove_ignored_files] is on. *)
Theorem process_record_no_date (groups tags ks : list string)
    (ignore : option (list string)) (idx : nat) (data : record)
    (src_file : string) (st : state) :
  get_oldest_timestamp strftime (clock idx) data groups tags
  = Ok (VStr src_file, None, ks) ->
  process_record strftime fnmatch clock cfg groups tags ignore idx data st
  = (st, Ok tt).
Proof.
  intros Hdate. unfold process_record. rewrite Hdate.
  unfold mbind, io_bind, pure; simpl. now destruct (verbose cfg).
Qed.

(** A hidden file with a date is left alone when [remove_ignored_files]
    is off: nothing is created, moved or copied for it. *)
Theorem process_record_hidden (groups tags ks : list string)
    (ignore : option (list string)) (idx : nat) (data : record)
    (src_file : string) (date : datetime) (st : state) :
  get_oldest_timestamp strftime (clock idx) data groups tags
  = Ok (VStr src_file, Some date, ks) ->
  Py.startswith (Path.basename src_file) "." = true ->
  remove_ignored_files cfg = false ->
  process_record strftime fnmatch clock cfg groups tags ignore idx data st
  = (st, Ok tt).
Proof.
  intros Hdate Hhidden Hkeep. unfold process_record.
  erewrite io_bind_run by (unfold pure; now rewrite Hdate).
  cbv beta iota zeta.
  erewrite io_bind_run by (now destruct (verbose cfg)).
  erewrite io_bind_run by reflexivity.
  erewrite io_bind_run.
  2:{ destruct ignore as [filters|]; [|reflexivity].
      now apply filter_ignored_keeps. }
  unfold place. now rewrite Hhidden.
Qed.

(** A source directory that does not exist ends the run at once, with
    the disk untouched.  The directory is taken as a plain path, without
    a trailing or doubled slash and without "." or ".." parts: the disk
    looks a path up as it is written, and only for a plain one is that
    what [os.path.exists] does. *)
Theorem sortPhotos_no_source (d : gmap string node) :
  plain (src_dir cfg) = true ->
  FS.exists_ d (src_dir cfg) = false ->
  sortPhotos strftime fnmatch get_metadata clock cfg d
  = (d, Raise (Exception "Source directory does not exist")).
Proof.
  intros _ Hsrc. unfold sortPhotos.
  destruct (setup_tags cfg) as [[groups tags] args].
  unfold mbind, io_bind, ask, unless, pure, skip, ret; simpl.
  now rewrite Hsrc.
Qed.

(** With [recursive] and [remove_ignored_files] both on and no ignore
    list, line 305 takes the length of [None]: the run raises TypeError
    before ExifTool is asked. *)
Theorem sortPhotos_remove_without_list (d : gmap string node) :
  FS.exists_ d (src_dir cfg) = true ->
  ignore_list cfg = PyNone ->
  recursive cfg = true ->
  remove_ignored_files cfg = true ->
  sortPhotos strftime fnmatch get_metadata clock cfg d
  = (d, Raise TypeError).
Proof.
  intros Hsrc Hnone Hrec Hrem. unfold sortPhotos.
  destruct (setup_tags cfg) as [[groups tags] args].
  unfold mbind, io_bind, ask, unless, pure, skip, ret, prescan; simpl.
  now rewrite Hsrc, Hnone, Hrec, Hrem.
Qed.

(** When the run returns, its value is the number of records ExifTool
    gave for the disk as the scan of lines 305-315 left it, whether the
    files were moved or not. *)
Theorem sortPhotos_count (d d' : gmap string node) (n : nat) :
  sortPhotos strftime fnmatch get_metadata clock cfg d = (d', Ok n) ->
  exists ignore,
    split_ignore_list (ignore_list cfg) = Ok ignore
    /\ n = length
             (get_metadata (snd (setup_tags cfg))
                (disk (fst (prescan fnmatch cfg ignore (mkState d ∅))))).
Proof.
  unfold sortPhotos.
  destruct (setup_tags cfg) as [[groups tags] args]. simpl snd.
  erewrite io_bind_run by reflexivity.
  unfold unless. simpl disk.
  destruct (FS.exists_ d (src_dir cfg));
    [erewrite io_bind_run by reflexivity
    | erewrite io_bind_raise by reflexivity; discriminate].
  destruct (split_ignore_list (ignore_list cfg)) as [ignore|e];
    [erewrite io_bind_run by reflexivity
    | erewrite io_bind_raise by reflexivity; discriminate].
  intros Hrun. exists ignore. split; [reflexivity|].
  destruct (prescan fnmatch cfg ignore (mkState d ∅)) as [st1 [[]|e]] eqn:E1;
    [erewrite io_bind_run in Hrun by exact E1
    | erewrite io_bind_raise in Hrun by exact E1; discriminate].
  erewrite io_bind_run in Hrun by reflexivity.
  destruct (process_records strftime fnmatch clock cfg groups tags ignore 0
              (get_metadata args (disk st1)) st1) as [st2 [[]|e]] eqn:E2;
    [erewrite io_bind_run in Hrun by exact E2
    | erewrite io_bind_raise in Hrun by exact E2; discriminate].
  destruct (cleanup cfg st2) as [st3 [[]|e]] eqn:E3;
    [erewrite io_bind_run in Hrun by exact E3
    | erewrite io_bind_raise in Hrun by exact E3; discriminate].
  unfold ret in Hrun. now injection Hrun as _ <-.
Qed.

End Records.

(** src/b.db matches the filter and would be removed, but has no date:
    it stays. *)
Lemma process_record_no_date_witness :
  process_record strftime_py3 glob sample_clock
    (sample_config (PyStr "*.db") true false) [] [] (Some ["*.db"]) 0
    [("SourceFile", VStr "src/b.db"); ("EXIF:Make", VStr "Canon")]
    sample_state
  = (sample_state, Ok tt).
Proof.
  apply (process_record_no_date strftime_py3 glob sample_clock
           (sample_config (PyStr "*.db") true false) [] [] []
           (Some ["*.db"]) 0 _ "src/b.db").
  reflexivity.
Defined.

Lemma process_record_hidden_witness :
  process_record strftime_py3 glob sample_clock
    (sample_config PyNone false false) [] [] None 0
    [("SourceFile", VStr "src/.thumb.jpg");
     ("EXIF:CreateDate", VStr "2020:05:01 10:00:00")]
    sample_state
  = (sample_state, Ok tt).
Proof.
  apply (process_record_hidden strftime_py3 glob sample_clock
           (sample_config PyNone false false) [] [] ["EXIF:CreateDate"]
           None 0 _ "src/.thumb.jpg" (mkDatetime 737546 10 0 0 0));
    reflexivity.
Defined.

Lemma sortPhotos_no_source_witness :
  sortPhotos strftime_py3 glob sample_metadata sample_clock
    (mkConfig "elsewhere" "out" "%Y/%m-%b" None false false false true 0
              [] [] None None true PyNone false false)
    sample_disk
  = (sample_disk, Raise (Exception "Source directory does not exist")).
Proof.
  apply (sortPhotos_no_source strftime_py3 glob sample_metadata sample_clock);
    reflexivity.
Defined.

Lemma sortPhotos_remove_without_list_witness :
  sortPhotos strftime_py3 glob sample_metadata sample_clock
    (sample_config PyNone true false) sample_disk
  = (sample_disk, Raise TypeError).
Proof.
  apply (sortPhotos_remove_without_list strftime_py3 glob sample_metadata
           sample_clock); reflexivity.
Defined.

Lemma sortPhotos_count_witness :
  exists ignore,
    split_ignore_list PyNone = Ok ignore
    /\ 3%nat
       = length
           (sample_metadata
              (snd (setup_tags (sample_config PyNone false false)))
              (disk (fst (prescan glob (sample_config PyNone false false)
                            ignore (mkState sample_disk ∅))))).
Proof.
  apply (sortPhotos_count strftime_py3 glob sample_metadata sample_clock
           (sample_config PyNone false false) sample_disk
           (fst (sortPhotos strftime_py3 glob sample_metadata sample_clock
                   (sample_config PyNone false false) sample_disk)) 3).
  vm_compute. reflexivity.
Defined.

(** * Duplicates as [filecmp.cmp] sees them, and test mode *)

Section Duplicates.

Variable cfg : config.

(** [filecmp.cmp] is called without [shallow=False]: a destination that
    holds a file of the same size and modification time as the source
    counts as its duplicate without the contents being read.  With
    [remove_duplicates] on, the loop stops there; a copy is then skipped,
    and a move puts the source in the place of that file. *)
Theorem duplicate_by_size_and_time (st : state)
    (src_file root ext dest_file : string) (a b : file) :
  test cfg = false -> remove_duplicates cfg = true ->
  FS.stat (disk st) src_file = Some (File a) ->
  FS.stat (disk st) dest_file = Some (File b) ->
  String.length (content a) = String.length (content b) ->
  mtime a = mtime b ->
  resolve_collisions cfg src_file root ext dest_file st
  = (st, Ok (dest_file, true))
  /\ (copy_files cfg = true ->
      transfer cfg src_file dest_file true st = (st, Ok tt))
  /\ (copy_files cfg = false -> FS.parent_ok (disk st) dest_file = true ->
      transfer cfg src_file dest_file true st
      = (mkState (<[dest_file := File a]> (delete src_file (disk st)))
                 (test_file_dict st), Ok tt)).
Proof.
  intros Htest Hdup Hsrc Hdest Hlen Htime.
  assert (Hfile : FS.isfile (disk st) dest_file = true)
    by (unfold FS.isfile; now rewrite Hdest).
  assert (Hdir : FS.isdir (disk st) dest_file = false)
    by (unfold FS.isdir; now rewrite Hdest).
  assert (Hne : Py.is_empty dest_file = false).
  { unfold FS.stat in Hdest. now destruct (Py.is_empty dest_file). }
  split; [|split].
  - unfold resolve_collisions.
    change (2 + ?n)%nat with (S (S n)).
    rewrite check_collisions_step. unfold verdict, taken.
    rewrite Htest, Hfile, Hdup. unfold FS.cmp.
    rewrite Hsrc, Hdest, Hlen, Htime, Nat.eqb_refl, Z.eqb_refl.
    reflexivity.
  - intros Hcopy. unfold transfer. now rewrite Htest, Hcopy.
  - intros Hmove Hparent. unfold transfer, on_disk, FS.move, FS.rename.
    now rewrite Htest, Hmove, Hdir, Hsrc, Hne, Hparent.
Qed.

End Duplicates.

(** out/a.jpg holds "xyz", src/a.jpg holds "aaa", both of size 3 and
    time 1: the move replaces "xyz" by "aaa". *)
Lemma duplicate_by_size_and_time_witness :
  resolve_collisions (sample_config PyNone false false) "src/a.jpg" "out/a"
    ".jpg" "out/a.jpg" clash_state
  = (clash_state, Ok ("out/a.jpg", true))
  /\ disk (fst (transfer (sample_config PyNone false false) "src/a.jpg"
                  "out/a.jpg" true clash_state)) !! "out/a.jpg"
     = Some (File (mkFile "aaa" 1)).
Proof.
  destruct (duplicate_by_size_and_time (sample_config PyNone false false)
              clash_state "src/a.jpg" "out/a" ".jpg" "out/a.jpg"
              (mkFile "aaa" 1) (mkFile "xyz" 1)
              eq_refl eq_refl eq_refl eq_refl eq_refl eq_refl)
    as (Hloop & _ & Hmove).
  split; [exact Hloop|].
  rewrite (Hmove eq_refl eq_refl). reflexivity.
Defined.

Section TestMode.

Variable strftime : string -> datetime -> result string.
Variable fnmatch : string -> string -> bool.
Variable get_metadata : list string -> gmap string node -> list record.
Variable clock : nat -> datetime.
Variable cfg : config.
Hypothesis test_on : test cfg = true.

Lemma grows_refl (d : gmap string node) : grows d d.
Proof. intros p. now left. Qed.

Lemma grows_trans (d1 d2 d3 : gmap string node) :
  grows d1 d2 -> grows d2 d3 -> grows d1 d3.
Proof.
  intros H12 H23 p.
  destruct (H12 p) as [E12|[E1 E2]], (H23 p) as [E23|[E2' E3]].
  - left. congruence.
  - right. split; congruence.
  - right. split; congruence.
  - congruence.
Qed.

Lemma keeps_bind {A B : Type} (m : io A) (k : A -> io B) :
  keeps_files m -> (forall a, keeps_files (k a)) -> keeps_files (m ≫= k).
Proof.
  intros Hm Hk st. unfold mbind, io_bind.
  specialize (Hm st). destruct (m st) as [st1 [a|e]]; simpl in *.
  - eapply grows_trans; [exact Hm | apply Hk].
  - exact Hm.
Qed.

Lemma keeps_same {A : Type} (m : io A) :
  (forall st, fst (m st) = st) -> keeps_files m.
Proof. intros H st. rewrite H. apply grows_refl. Qed.

Lemma keeps_on_disk (f : gmap string node -> result (gmap string node)) :
  (forall d d', f d = Ok d' -> grows d d') -> keeps_files (on_disk f).
Proof.
  intros Hf st. unfold on_disk.
  destruct (f (disk st)) as [d'|e] eqn:E; simpl;
    [now apply Hf | apply grows_refl].
Qed.

Lemma keeps_for_each {A : Type} (body : A -> io unit) (l : list A) :
  (forall x, keeps_files (body x)) -> keeps_files (for_each body l).
Proof.
  intros Hbody. induction l as [|x l IH]; [apply keeps_same; reflexivity|].
  simpl. apply keeps_bind; auto.
Qed.

Lemma mkdir_grows (d d' : gmap string node) (p : string) :
  FS.mkdir d p = Ok d' -> grows d d'.
Proof.
  unfold FS.mkdir.
  destruct (FS.exists_ d p) eqn:Hex; [discriminate|].
  destruct (Py.is_empty p) eqn:Hne; [discriminate|]. simpl.
  destruct (negb (FS.parent_ok d p)); [discriminate|].
  intros [= <-] q. destruct (decide (p = q)) as [<-|Hpq].
  - right. rewrite lookup_insert_eq. split; [|reflexivity].
    unfold FS.exists_, FS.stat in Hex. rewrite Hne in Hex.
    destruct (FS.is_root p); [discriminate|].
    now destruct (d !! p).
  - left. now apply lookup_insert_ne.
Qed.

Lemma makedirs_go_grows (fuel : nat) (d d' : gmap string node)
    (name : string) :
  FS.makedirs_go fuel d name = Ok d' -> grows d d'.
Proof.
  revert d d' name; induction fuel as [|fuel IH]; intros d d' name; simpl.
  - apply mkdir_grows.
  - destruct (FS.makedirs_head name) as [head|]; [|apply mkdir_grows].
    destruct (FS.exists_ d head); [apply mkdir_grows|].
    destruct (FS.makedirs_go fuel d head) as [d1|e] eqn:E; [|discriminate].
    intros H. eapply grows_trans; [eapply IH, E | eapply mkdir_grows, H].
Qed.

Lemma keeps_make_folders (dirs : list string) (dest_file : string) :
  keeps_files (make_folders dest_file dirs).
Proof.
  revert dest_file; induction dirs as [|thedir dirs IH]; intros dest_file.
  - apply keeps_same; reflexivity.
  - simpl. apply keeps_bind; [apply keeps_same; reflexivity|].
    intros present. apply keeps_bind; [|intros _; apply IH].
    unfold unless. destruct present; [apply keeps_same; reflexivity|].
    apply keeps_on_disk. intros d d'. apply makedirs_go_grows.
Qed.

Lemma keeps_resolve_collisions (src_file root ext dest_file : string) :
  keeps_files (resolve_collisions cfg src_file root ext dest_file).
Proof.
  apply keeps_same. intros st. unfold resolve_collisions.
  now destruct (check_collisions _ _ _ _ _ _ _ _).
Qed.

Lemma keeps_transfer (src_file dest_file : string) (b : bool) :
  keeps_files (transfer cfg src_file dest_file b).
Proof.
  intros st. unfold transfer. rewrite test_on. apply grows_refl.
Qed.

Lemma keeps_place (src_file : string) (date : datetime) :
  keeps_files (place strftime cfg src_file date).
Proof.
  unfold place.
  destruct (Py.startswith _ _); [apply keeps_same; reflexivity|].
  apply keeps_bind; [apply keeps_same; reflexivity|]. intros date'.
  apply keeps_bind; [apply keeps_same; reflexivity|]. intros dir_structure.
  apply keeps_bind; [apply keeps_make_folders|]. intros dest_file.
  apply keeps_bind.
  - destruct (rename_format cfg) as [fmt|]; [|apply keeps_same; reflexivity].
    apply keeps_bind; [apply keeps_same; reflexivity|].
    intros name. apply keeps_same; reflexivity.
  - intros filename. destruct (Path.splitext _) as [root ext].
    apply keeps_bind; [apply keeps_resolve_collisions|].
    intros [dest fileIsIdentical]. apply keeps_transfer.
Qed.

Lemma keeps_filter_ignored (src_file : string) (filters : list string) :
  keeps_files (filter_ignored fnmatch cfg src_file filters).
Proof.
  unfold filter_ignored. apply keeps_for_each. intros _filter.
  rewrite test_on. apply keeps_same. intros st.
  now destruct (fnmatch _ _), (remove_ignored_files cfg).
Qed.

Lemma keeps_process_record (groups tags : list string)
    (ignore : option (list string)) (idx : nat) (data : record) :
  keeps_files
    (process_record strftime fnmatch clock cfg groups tags ignore idx data).
Proof.
  unfold process_record.
  apply keeps_bind; [apply keeps_same; reflexivity|].
  intros [[src_file date] ks].
  apply keeps_bind.
  - destruct (verbose cfg); [|apply keeps_same; reflexivity].
    apply keeps_bind; [apply keeps_same; reflexivity|].
    intros _. apply keeps_same; reflexivity.
  - intros _. destruct date as [date|]; [|apply keeps_same; reflexivity].
    apply keeps_bind; [apply keeps_same; reflexivity|]. intros src.
    apply keeps_bind; [|intros _; apply keeps_place].
    destruct ignore as [filters|];
      [apply keeps_filter_ignored | apply keeps_same; reflexivity].
Qed.

Lemma keeps_process_records (groups tags : list string)
    (ignore : option (list string)) (metadata : list record) (idx : nat) :
  keeps_files
    (process_records strftime fnmatch clock cfg groups tags ignore idx
       metadata).
Proof.
  revert idx; induction metadata as [|data rest IH]; intros idx.
  - apply keeps_same; reflexivity.
  - simpl. apply keeps_bind; [apply keeps_process_record|].
    intros _. apply IH.
Qed.

Lemma keeps_prescan (ignore : option (list string)) :
  keeps_files (prescan fnmatch cfg ignore).
Proof.
  unfold prescan.
  destruct (recursive cfg && remove_ignored_files cfg);
    [|apply keeps_same; reflexivity].
  destruct ignore as [filters|]; [|apply keeps_same; reflexivity].
  destruct (0 <? length filters)%nat; [|apply keeps_same; reflexivity].
  apply keeps_bind; [apply keeps_same; reflexivity|]. intros triples.
  apply keeps_for_each. intros [[root dirs] files].
  apply keeps_for_each. intros current_file.
  rewrite test_on. apply keeps_same. intros st.
  induction filters as [|_filter filters IH]; [reflexivity|].
  simpl. now destruct (fnmatch _ _).
Qed.

Lemma keeps_cleanup : keeps_files (cleanup cfg).
Proof.
  unfold cleanup.
  destruct (remove_empty_dirs cfg); [|apply keeps_same; reflexivity].
  apply keeps_bind; [apply keeps_same; reflexivity|]. intros triples.
  apply keeps_for_each. intros [[dirpath dirnames] files].
  unfold cleanup_dir. rewrite test_on. apply keeps_same. intros st.
  now destruct (_ && _).
Qed.

(** In test mode a run moves, copies and deletes nothing: every path keeps
    what it held, except that the folders of the destinations are created
    (lines 388-391 do not look at [test]). *)
Theorem sortPhotos_test_mode (d : gmap string node) :
  grows d (fst (sortPhotos strftime fnmatch get_metadata clock cfg d)).
Proof.
  unfold sortPhotos.
  destruct (setup_tags cfg) as [[groups tags] args].
  match goal with |- context [let '(st, r) := ?run ?st0 in _] =>
    assert (Hrun : keeps_files run);
    [|specialize (Hrun st0); destruct (run st0) as [st r]; exact Hrun]
  end.
  apply keeps_bind; [apply keeps_same; reflexivity|]. intros present.
  apply keeps_bind.
  { unfold unless. destruct present; apply keeps_same; reflexivity. }
  intros _.
  apply keeps_bind; [apply keeps_same; reflexivity|]. intros ignore.
  apply keeps_bind; [apply keeps_prescan|]. intros _.
  apply keeps_bind; [apply keeps_same; reflexivity|]. intros metadata.
  apply keeps_bind; [apply keeps_process_records|]. intros _.
  apply keeps_bind; [apply keeps_cleanup|]. intros _.
  apply keeps_same; reflexivity.
Qed.

End TestMode.

(** On the sample disk a test run keeps the three files where they are
    and creates out/2020/05-May. *)
Lemma sortPhotos_test_mode_witness :
  grows sample_disk
    (fst (sortPhotos strftime_py3 glob sample_metadata sample_clock
            (sample_config (PyStr "*.db") true true) sample_disk)).
Proof.
  apply (sortPhotos_test_mode strftime_py3 glob sample_metadata sample_clock
           (sample_config (PyStr "*.db") true true)).
  reflexivity.
Defined.

Example sortPhotos_test_mode_sample :
  let d := fst (sortPhotos strftime_py3 glob sample_metadata sample_clock
                  (sample_config (PyStr "*.db") true true) sample_disk) in
  d !! "src/b.db" = Some (File (mkFile "bbb" 2))
  /\ d !! "out/2020/05-May" = Some Dir
  /\ sample_disk !! "out/2020/05-May" = None.
Proof. vm_compute. repeat split. Qed.

(** * The scan that removes ignored files before ExifTool runs *)

Section Prescan.

Variable fnmatch : string -> string -> bool.
Variable cfg : config.

Lemma child_name_not_empty (top p name : string) :
  FS.child_name top p = Some name -> Py.is_empty name = false.
Proof.
  unfold FS.child_name.
  destruct (String.prefix (FS.dir_prefix top) p); [|discriminate].
  destruct (negb (Py.is_empty _) && _) eqn:E; [|discriminate].
  intros [= <-]. now apply andb_true_iff in E as [E%negb_true_iff _].
Qed.

Lemma nondirs_child (disk : gmap string node) (top name : string) :
  In name (FS.nondirs disk top) ->
  exists p f, FS.child_name top p = Some name /\ disk !! p = Some (File f).
Proof.
  unfold FS.nondirs, FS.entries.
  intros ([name' n] & <- & Hin)%in_map_iff.
  apply filter_In in Hin as [Hin Hfile]. simpl in Hfile.
  apply list_elem_of_In, list_elem_of_omap in Hin as ([p n'] & Hp & Hc).
  apply elem_of_map_to_list in Hp.
  destruct (FS.child_name top p) as [name''|] eqn:Hname; [|discriminate].
  injection Hc as <- <-. destruct n' as [f|]; [|discriminate].
  exists p, f. now split.
Qed.

(** What the scan does with one file of a directory. *)
Lemma prescan_file_effect (root name : string) (filters : list string)
    (st : state) :
  let st' := fst (prescan_file fnmatch (test cfg) root name filters st) in
  st' = st
  \/ (test cfg = false
      /\ (exists f, disk st !! Path.join root name = Some (File f))
      /\ (exists flt, In flt filters
                      /\ fnmatch (snd (Path.split name)) flt = true)
      /\ st' = mkState (delete (Path.join root name) (disk st))
                       (test_file_dict st)).
Proof.
  induction filters as [|flt filters IH]; [simpl; now left|].
  cbn [prescan_file].
  destruct (fnmatch (snd (Path.split name)) flt) eqn:Hmatch.
  - destruct (test cfg); simpl; [now left|].
    unfold on_disk, FS.remove.
    destruct (FS.isfile (disk st) (Path.join root name)) eqn:Hfile;
      simpl; [|now left].
    right. repeat split; auto.
    + unfold FS.isfile, FS.stat in Hfile.
      destruct (Py.is_empty _); [discriminate|].
      destruct (FS.is_root _); [discriminate|].
      destruct (disk st !! Path.join root name) as [[f|]|];
        try discriminate. now exists f.
    + exists flt. split; [now left | exact Hmatch].
  - destruct IH as [IH|(Htest & Hf & (flt' & Hin & Hm) & Hst)];
      [now left|].
    right. repeat split; auto. exists flt'. split; [now right | exact Hm].
Qed.

Lemma scanned_intro (filters : list string) (root : string)
    (dirs all : list string) (name flt : string) :
  In name all -> In flt filters ->
  fnmatch (snd (Path.split name)) flt = true ->
  scanned fnmatch filters [(root, dirs, all)] (Path.join root name).
Proof.
  intros Hname Hflt Hmatch. exists root, dirs, all, name, flt.
  split; [now left|]. split; [exact Hname|]. split; [reflexivity|].
  now split.
Qed.

Lemma prescan_files (root : string) (dirs all : list string)
    (filters : list string) (files : list string) (st : state) :
  (forall name, In name files -> In name all) ->
  let st' := fst (for_each (fun current_file =>
                    prescan_file fnmatch (test cfg) root current_file filters)
                    files st) in
  test_file_dict st' = test_file_dict st
  /\ forall p,
       disk st' !! p = disk st !! p
       \/ (test cfg = false /\ disk st' !! p = None
           /\ (exists f, disk st !! p = Some (File f))
           /\ scanned fnmatch filters [(root, dirs, all)] p).
Proof.
  revert st; induction files as [|name files IH]; intros st Hall.
  - simpl. auto.
  - rewrite for_each_cons.
    pose proof (prescan_file_effect root name filters st) as Heff.
    destruct (prescan_file fnmatch (test cfg) root name filters st)
      as [st1 [[]|e]]; simpl in Heff.
    + destruct (IH st1) as (Hdict & Hdisk).
      { intros n Hn. apply Hall. now right. }
      destruct Heff as [->|(Htest & [f Hf] & (flt & Hflt & Hm) & ->)];
        [now split|].
      simpl in *. split; [exact Hdict|].
      assert (Hscan : scanned fnmatch filters [(root, dirs, all)]
                        (Path.join root name)).
      { apply (scanned_intro filters root dirs all name flt); auto;
          apply Hall; now left. }
      intros p. destruct (decide (Path.join root name = p)) as [<-|Hne].
      * right. destruct (Hdisk (Path.join root name)) as [Hp|(_ & Hp & _)];
          rewrite Hp, ?lookup_delete_eq;
          (split; [exact Htest|]; split; [reflexivity|]; split; eauto).
      * destruct (Hdisk p) as [Hp|(Ht & Hp & Hp0 & Hsc)];
          rewrite lookup_delete_ne in * by exact Hne;
          [now left | right; auto].
    + simpl. destruct Heff as [->|(Htest & [f Hf] & (flt & Hflt & Hm) & ->)];
        [auto|].
      simpl. split; [reflexivity|].
      intros p. destruct (decide (Path.join root name = p)) as [<-|Hne].
      * right. rewrite lookup_delete_eq.
        split; [exact Htest|]. split; [reflexivity|]. split; [eauto|].
        apply (scanned_intro filters root dirs all name flt); auto;
          apply Hall; now left.
      * left. now apply lookup_delete_ne.
Qed.

Lemma scanned_mono (filters : list string)
    (l1 l2 : list (string * list string * list string)) (q : string) :
  (forall t, In t l1 -> In t l2) -> scanned fnmatch filters l1 q ->
  scanned fnmatch filters l2 q.
Proof.
  intros Hsub (root & dirs & files & name & flt & Hin & Hrest).
  exists root, dirs, files, name, flt. split; [now apply Hsub | exact Hrest].
Qed.

Lemma prescan_triples (filters : list string)
    (triples : list (string * list string * list string)) (st : state) :
  let st' := fst (for_each
                    (fun '(root, dirs, files) =>
                       for_each
                         (fun current_file =>
                            prescan_file fnmatch (test cfg) root current_file
                              filters)
                         files)
                    triples st) in
  test_file_dict st' = test_file_dict st
  /\ forall p,
       disk st' !! p = disk st !! p
       \/ (test cfg = false /\ disk st' !! p = None
           /\ (exists f, disk st !! p = Some (File f))
           /\ scanned fnmatch filters triples p).
Proof.
  revert st; induction triples as [|[[root dirs] files] triples IH];
    intros st.
  - simpl. auto.
  - rewrite for_each_cons.
    pose proof (prescan_files root dirs files filters files st
                  (fun n H => H)) as (Hd1 & Hp1).
    destruct (for_each _ files st) as [st1 [[]|e]]; simpl in Hd1, Hp1.
    + destruct (IH st1) as (Hd2 & Hp2). split; [congruence|].
      intros p.
      destruct (Hp2 p) as [E2|(Ht & E2 & [f Hf] & Hsc)].
      * destruct (Hp1 p) as [E1|(Ht & E1 & Hf & Hsc)].
        -- left. congruence.
        -- right. rewrite E2. repeat split; auto.
           eapply scanned_mono; [|exact Hsc].
           intros t [<-|[]]. now left.
      * right. repeat split; auto.
        -- destruct (Hp1 p) as [E1|(_ & E1 & _)]; [|congruence].
           exists f. congruence.
        -- eapply scanned_mono; [|exact Hsc]. intros t Hin. now right.
    + simpl. split; [exact Hd1|]. intros p.
      destruct (Hp1 p) as [E1|(Ht & E1 & Hf & Hsc)]; [now left|].
      right. repeat split; auto.
      eapply scanned_mono; [|exact Hsc]. intros t [<-|[]]. now left.
Qed.

(** The scan of lines 305-315 only deletes: every path it changes held a
    file that lies strictly inside the source directory and whose name
    matches a filter of the ignore list; it changes nothing in test mode
    and never touches the test dictionary. *)
Theorem prescan_deletes_matching (filters : list string) (st : state) :
  let st' := fst (prescan fnmatch cfg (Some filters) st) in
  test_file_dict st' = test_file_dict st
  /\ forall p,
       disk st' !! p <> disk st !! p ->
       test cfg = false
       /\ (exists f, disk st !! p = Some (File f))
       /\ disk st' !! p = None
       /\ inside (src_dir cfg) p
       /\ exists root name flt,
            p = Path.join root name /\ In flt filters
            /\ fnmatch (snd (Path.split name)) flt = true.
Proof.
  unfold prescan.
  destruct (recursive cfg && remove_ignored_files cfg);
    [|simpl; split; [reflexivity | easy]].
  destruct (0 <? length filters)%nat; [|simpl; split; [reflexivity | easy]].
  match goal with |- context [(?m ≫= ?k) st] =>
    change ((m ≫= k) st)
      with (k (FS.walk (disk st) true (src_dir cfg)) st)
  end.
  destruct (prescan_triples filters (FS.walk (disk st) true (src_dir cfg)) st)
    as (Hdict & Hdisk).
  split; [exact Hdict|].
  intros p Hp.
  destruct (Hdisk p) as [E|(Htest & Hnone & Hfile
                            & root & dirs & files & name & flt
                            & Hin & Hname & -> & Hflt & Hmatch)];
    [now destruct Hp|].
  repeat split; auto; [| | now exists root, name, flt].
  - apply walk_go_triples in Hin as (_ & -> & Hdir & Hunder).
    destruct (nondirs_child _ _ _ Hname) as (q & f & Hq & _).
    assert (Hroot : Py.is_empty root = false).
    { unfold FS.isdir, FS.stat in Hdir. now destruct (Py.is_empty root). }
    destruct (child_name_join root q name Hroot Hq) as [-> Hqeq].
    apply prefix_app. rewrite Hqeq.
    destruct Hunder as [->|[r ->]%prefix_app].
    + now exists name.
    + destruct (dir_prefix_app (FS.dir_prefix (src_dir cfg) +:+ r))
        as [s ->].
      exists (r +:+ s +:+ name). now rewrite !app_assoc.
  - apply walk_go_triples in Hin as (_ & -> & Hdir & Hunder).
    destruct (nondirs_child _ _ _ Hname) as (q & f & Hq & _).
    assert (Hroot : Py.is_empty root = false).
    { unfold FS.isdir, FS.stat in Hdir. now destruct (Py.is_empty root). }
    destruct (child_name_join root q name Hroot Hq) as [-> Hqeq].
    pose proof (child_name_not_empty root q name Hq) as Hnm.
    intros Heq. apply (f_equal String.length) in Heq.
    rewrite Hqeq in Heq.
    destruct (dir_prefix_app root) as [s Hs]. rewrite Hs in Heq.
    destruct (dir_prefix_app (src_dir cfg)) as [s0 Hs0].
    destruct Hunder as [->|[r Hr]%prefix_app].
    + rewrite !length_app in Heq. destruct name; [discriminate|].
      simpl in Heq. lia.
    + rewrite Hr, Hs0 in Heq. rewrite !length_app in Heq.
      destruct name; [discriminate|]. simpl in Heq. lia.
Qed.

End Prescan.

(** On the sample disk, with the filter "*.db", the scan removes src/b.db
    and nothing else. *)
Lemma prescan_deletes_matching_witness :
  test_file_dict
    (fst (prescan glob (sample_config (PyStr "*.db") true false)
            (Some ["*.db"]) sample_state))
  = ∅.
Proof.
  apply (prescan_deletes_matching glob
           (sample_config (PyStr "*.db") true false) ["*.db"] sample_state).
Defined.

Example prescan_sample :
  disk (fst (prescan glob (sample_config (PyStr "*.db") true false)
               (Some ["*.db"]) sample_state))
  = delete "src/b.db" sample_disk.
Proof. vm_compute. reflexivity. Qed.

(** * The framing of ExifTool's answers *)

Section Framing.

Import ExifTool.

Lemma take_app (a r : string) : Path.take (String.length a) (a +:+ r) = a.
Proof.
  induction a as [|x a IH]; [now destruct r|].
  rewrite app_cons; simpl. now rewrite IH.
Qed.

Lemma endswith_app (s suffix : string) :
  endswith s suffix = true ->
  drop_last (String.length suffix) s +:+ suffix = s.
Proof.
  unfold endswith, drop_last.
  intros [_ Heq%String.eqb_eq]%andb_true_iff.
  set (k := (String.length s - String.length suffix)%nat) in *.
  transitivity (Path.take k s +:+ Path.drop k s); [|apply take_drop].
  now rewrite Heq.
Qed.

Lemma endswith_suffix (a suffix : string) :
  endswith (a +:+ suffix) suffix = true.
Proof.
  unfold endswith. rewrite length_app.
  apply andb_true_iff. split; [apply Nat.leb_le; lia|].
  replace (String.length a + String.length suffix - String.length suffix)%nat
    with (String.length a) by lia.
  rewrite drop_app. apply String.eqb_refl.
Qed.

Lemma join_cons (x : string) (l : list string) :
  Py.join (x :: l) = x +:+ Py.join l.
Proof.
  unfold Py.join. destruct l as [|y l]; simpl.
  - now rewrite app_empty_r.
  - reflexivity.
Qed.

(** The loop stops at the first increment after which the text read, its
    trailing blanks apart, ends with the sentinel. *)
Lemma read_output_first (increments : list string) (output o : string) :
  read_output output increments = Some o ->
  exists n,
    o = output +:+ Py.join (firstn n increments)
    /\ endswith (rstrip_blanks o) sentinel = true
    /\ forall m, (m < n)%nat ->
         endswith (rstrip_blanks (output +:+ Py.join (firstn m increments)))
                  sentinel = false.
Proof.
  revert output; induction increments as [|inc rest IH]; intros output; simpl.
  -     destruct (endswith (rstrip_blanks output) sentinel) eqn:E; [|discriminate].
    intros [= <-]. exists O. simpl. rewrite app_empty_r.
    split; [reflexivity|]. split; [exact E | lia].
  - destruct (endswith (rstrip_blanks output) sentinel) eqn:E.
    + intros [= <-]. exists O. simpl. rewrite app_empty_r.
      split; [reflexivity|]. split; [exact E | lia].
    + intros H. destruct (IH _ H) as (n & Ho & Hend & Hbefore).
      exists (S n). rewrite firstn_cons, join_cons, <- app_assoc.
      split; [exact Ho|]. split; [exact Hend|].
      intros [|m] Hm.
      * simpl. now rewrite app_empty_r.
      * rewrite firstn_cons, join_cons, <- app_assoc. apply Hbefore. lia.
Qed.

Lemma read_output_reaches (increments : list string) (n : nat)
    (output : string) :
  (n <= length increments)%nat ->
  endswith (rstrip_blanks (output +:+ Py.join (firstn n increments)))
           sentinel = true ->
  (forall m, (m < n)%nat ->
     endswith (rstrip_blanks (output +:+ Py.join (firstn m increments)))
              sentinel = false) ->
  read_output output increments
  = Some (output +:+ Py.join (firstn n increments)).
Proof.
  revert n output; induction increments as [|inc rest IH];
    intros n output Hn Hend Hbefore.
  - assert (n = O) as -> by (simpl in Hn; lia).
    simpl in *. rewrite app_empty_r in *. now rewrite Hend.
  - destruct n as [|n].
    + simpl in *. rewrite app_empty_r in *. now rewrite Hend.
    + simpl read_output.
      pose proof (Hbefore O ltac:(lia)) as H0. simpl in H0.
      rewrite app_empty_r in H0. rewrite H0.
      rewrite firstn_cons, join_cons, <- app_assoc in *.
      apply IH; [simpl in Hn; lia | exact Hend |].
      intros m Hm. specialize (Hbefore (S m) ltac:(lia)).
      now rewrite firstn_cons, join_cons, <- app_assoc in Hbefore.
Qed.

(** What [execute] returns, followed by the sentinel, is the text read up
    to the first increment after which that text, trailing blanks apart,
    ends with the sentinel. *)
Theorem execute_framing (args increments : list string) (answer : string) :
  snd (execute args increments) = Some answer ->
  exists n,
    answer +:+ sentinel = rstrip_blanks (Py.join (firstn n increments))
    /\ forall m, (m < n)%nat ->
         endswith (rstrip_blanks (Py.join (firstn m increments))) sentinel
         = false.
Proof.
  unfold execute; simpl.
  destruct (read_output "" increments) as [o|] eqn:E; [|discriminate].
  intros [= <-].
  destruct (read_output_first _ _ _ E) as (n & -> & Hend & Hbefore).
  exists n. rewrite app_empty_l in *. split; [|exact Hbefore].
  now apply (endswith_app _ sentinel).
Qed.

Lemma rstrip_blanks_sentinel (a : string) :
  rstrip_blanks (a +:+ sentinel) = a +:+ sentinel.
Proof.
  induction a as [|x a IH]; [reflexivity|].
  rewrite app_cons; simpl. rewrite IH.
  now destruct a.
Qed.

Lemma rstrip_blanks_trailing (a ws : string) :
  str_all is_blank ws = true ->
  rstrip_blanks (a +:+ ws) = rstrip_blanks a.
Proof.
  intros Hws. induction a as [|x a IH].
  - rewrite app_empty_l. induction ws as [|c ws IHws]; [reflexivity|].
    simpl in *. apply andb_true_iff in Hws as [Hc Hws].
    now rewrite (IHws Hws), Hc.
  - rewrite app_cons; simpl. now rewrite IH.
Qed.

(** When ExifTool writes an ASCII body, the sentinel and some blanks, cut
    into increments in any way such that the text is not taken for
    complete at an earlier increment, [execute] returns the body.  The
    body is ASCII so that its bytes are its characters: line 203 decodes
    each increment on its own, which for ASCII gives the same text
    wherever the cuts fall, while a cut inside a character of several
    bytes would raise UnicodeDecodeError. *)
Theorem execute_answer (args increments : list string) (body ws : string) :
  Py.join increments = body +:+ sentinel +:+ ws ->
  ascii_text body = true ->
  str_all is_blank ws = true ->
  (forall m, (m < length increments)%nat ->
     endswith (rstrip_blanks (Py.join (firstn m increments))) sentinel
     = false) ->
  execute args increments = (request args, Some body).
Proof.
  intros Hjoin _ Hws Hbefore. unfold execute.
  rewrite (read_output_reaches increments (length increments) "");
    rewrite ?app_empty_l, ?firstn_all; auto.
  - rewrite Hjoin, <- app_assoc, rstrip_blanks_trailing by exact Hws.
    rewrite rstrip_blanks_sentinel. unfold drop_last.
    rewrite length_app, Nat.add_sub. now rewrite take_app.
  - rewrite Hjoin, <- app_assoc, rstrip_blanks_trailing by exact Hws.
    rewrite rstrip_blanks_sentinel. apply endswith_suffix.
Qed.

End Framing.

(** An answer that arrives in three increments, the sentinel cut in
    two. *)
Lemma execute_answer_witness :
  ExifTool.execute ["-j"; "src"] ["[{x:1}"; "]{rea"; "dy} "]
  = (ExifTool.request ["-j"; "src"], Some "[{x:1}]").
Proof.
  apply (execute_answer ["-j"; "src"] ["[{x:1}"; "]{rea"; "dy} "]
           "[{x:1}]" " "); try reflexivity.
  intros [|[|[|m]]] Hm; try reflexivity. simpl in Hm. lia.
Defined.

Lemma execute_framing_witness :
  exists n,
    "[{x:1}]" +:+ ExifTool.sentinel
    = ExifTool.rstrip_blanks
        (Py.join (firstn n ["[{x:1}"; "]{rea"; "dy} "; "more"]))
    /\ forall m, (m < n)%nat ->
         ExifTool.endswith
           (ExifTool.rstrip_blanks
              (Py.join (firstn m ["[{x:1}"; "]{rea"; "dy} "; "more"])))
           ExifTool.sentinel
         = false.
Proof.
  apply (execute_framing ["-j"; "src"] ["[{x:1}"; "]{rea"; "dy} "; "more"]).
  reflexivity.
Defined.

(** * Copying takes no file away *)

Section CopyMode.

Variable strftime : string -> datetime -> result string.
Variable fnmatch : string -> string -> bool.
Variable get_metadata : list string -> gmap string node -> list record.
Variable clock : nat -> datetime.
Variable cfg : config.
Hypothesis test_off : test cfg = false.
Hypothesis copy_on : copy_files cfg = true.
Hypothesis remove_off : remove_ignored_files cfg = false.

Lemma stays_refl (d : gmap string node) : stays d d.
Proof. intros p f H. now exists f. Qed.

Lemma stays_trans (d1 d2 d3 : gmap string node) :
  stays d1 d2 -> stays d2 d3 -> stays d1 d3.
Proof.
  intros H12 H23 p f H. destruct (H12 p f H) as [f' H']. exact (H23 p f' H').
Qed.

Lemma grows_stays (d d' : gmap string node) : grows d d' -> stays d d'.
Proof.
  intros Hg p f H. exists f. destruct (Hg p) as [E|[E _]]; congruence.
Qed.

Lemma leaves_keeps {A : Type} (m : io A) : keeps_files m -> leaves_files m.
Proof. intros H st. apply grows_stays, H. Qed.

Lemma leaves_bind {A B : Type} (m : io A) (k : A -> io B) :
  leaves_files m -> (forall a, leaves_files (k a)) -> leaves_files (m ≫= k).
Proof.
  intros Hm Hk st. unfold mbind, io_bind.
  specialize (Hm st). destruct (m st) as [st1 [a|e]]; simpl in *.
  - eapply stays_trans; [exact Hm | apply Hk].
  - exact Hm.
Qed.

Lemma leaves_same {A : Type} (m : io A) :
  (forall st, fst (m st) = st) -> leaves_files m.
Proof. intros H st. rewrite H. apply stays_refl. Qed.

Lemma leaves_on_disk (f : gmap string node -> result (gmap string node)) :
  (forall d d', f d = Ok d' -> stays d d') -> leaves_files (on_disk f).
Proof.
  intros Hf st. unfold on_disk.
  destruct (f (disk st)) as [d'|e] eqn:E; simpl;
    [now apply Hf | apply stays_refl].
Qed.

Lemma leaves_for_each {A : Type} (body : A -> io unit) (l : list A) :
  (forall x, leaves_files (body x)) -> leaves_files (for_each body l).
Proof.
  intros Hbody. induction l as [|x l IH]; [apply leaves_same; reflexivity|].
  simpl. apply leaves_bind; auto.
Qed.

(** [shutil.copy2] writes one file and touches nothing else. *)
Lemma copy2_stays (d d' : gmap string node) (src dst : string) :
  FS.copy2 d src dst = Ok d' -> stays d d'.
Proof.
  unfold FS.copy2.
  set (dst' := if FS.isdir d dst then _ else _).
  destruct (String.eqb src dst'); [discriminate|].
  destruct (FS.stat d src) as [[f|]|]; try discriminate.
  destruct (_ || _); [discriminate|].
  intros [= <-] p g Hp. destruct (decide (dst' = p)) as [<-|Hne].
  - exists f. apply lookup_insert_eq.
  - exists g. now rewrite lookup_insert_ne.
Qed.

(** [os.rmdir] takes a directory away. *)
Lemma rmdir_stays (d d' : gmap string node) (p : string) :
  FS.rmdir d p = Ok d' -> stays d d'.
Proof.
  unfold FS.rmdir.
  destruct (FS.isdir d p) eqn:Hdir; [|discriminate].
  destruct (FS.is_root p) eqn:Hroot; [discriminate|]. simpl.
  destruct (bool_decide _); [|discriminate].
  intros [= <-] q g Hq. exists g.
  rewrite lookup_delete_ne; [exact Hq|].
  intros <-. unfold FS.isdir, FS.stat in Hdir. rewrite Hroot in Hdir.
  destruct (Py.is_empty p); [discriminate|].
  rewrite Hq in Hdir. discriminate.
Qed.

Lemma leaves_transfer (src_file dest_file : string) (b : bool) :
  leaves_files (transfer cfg src_file dest_file b).
Proof.
  unfold transfer. rewrite test_off, copy_on.
  destruct b; [apply leaves_same; reflexivity|].
  apply leaves_on_disk. intros d d'. apply copy2_stays.
Qed.

Lemma leaves_place (src_file : string) (date : datetime) :
  leaves_files (place strftime cfg src_file date).
Proof.
  unfold place.
  destruct (Py.startswith _ _); [apply leaves_same; reflexivity|].
  apply leaves_bind; [apply leaves_same; reflexivity|]. intros date'.
  apply leaves_bind; [apply leaves_same; reflexivity|]. intros dir_structure.
  apply leaves_bind; [apply leaves_keeps, keeps_make_folders|].
  intros dest_file.
  apply leaves_bind.
  - destruct (rename_format cfg) as [fmt|]; [|apply leaves_same; reflexivity].
    apply leaves_bind; [apply leaves_same; reflexivity|].
    intros name. apply leaves_same; reflexivity.
  - intros filename. destruct (Path.splitext _) as [root ext].
    apply leaves_bind; [apply leaves_keeps, keeps_resolve_collisions|].
    intros [dest fileIsIdentical]. apply leaves_transfer.
Qed.

Lemma leaves_filter_ignored (src_file : string) (filters : list string) :
  leaves_files (filter_ignored fnmatch cfg src_file filters).
Proof.
  unfold filter_ignored. apply leaves_for_each. intros _filter.
  rewrite remove_off. apply leaves_same. intros st.
  now destruct (fnmatch _ _).
Qed.

Lemma leaves_process_records (groups tags : list string)
    (ignore : option (list string)) (metadata : list record) (idx : nat) :
  leaves_files
    (process_records strftime fnmatch clock cfg groups tags ignore idx
       metadata).
Proof.
  revert idx; induction metadata as [|data rest IH]; intros idx.
  - apply leaves_same; reflexivity.
  - simpl. apply leaves_bind; [|intros _; apply IH].
    unfold process_record.
    apply leaves_bind; [apply leaves_same; reflexivity|].
    intros [[src_file date] ks].
    apply leaves_bind.
    + destruct (verbose cfg); [|apply leaves_same; reflexivity].
      apply leaves_bind; [apply leaves_same; reflexivity|].
      intros _. apply leaves_same; reflexivity.
    + intros _. destruct date as [date|]; [|apply leaves_same; reflexivity].
      apply leaves_bind; [apply leaves_same; reflexivity|]. intros src.
      apply leaves_bind; [|intros _; apply leaves_place].
      destruct ignore as [filters|];
        [apply leaves_filter_ignored | apply leaves_same; reflexivity].
Qed.

Lemma leaves_cleanup : leaves_files (cleanup cfg).
Proof.
  unfold cleanup.
  destruct (remove_empty_dirs cfg); [|apply leaves_same; reflexivity].
  apply leaves_bind; [apply leaves_same; reflexivity|]. intros triples.
  apply leaves_for_each. intros [[dirpath dirnames] files].
  unfold cleanup_dir. rewrite test_off.
  destruct (_ && _); [|apply leaves_same; reflexivity].
  apply leaves_on_disk. intros d d'. apply rmdir_stays.
Qed.

End CopyMode.

(** * Steps and the paths they change *)

Section Strings.

Lemma prefix_empty (s : string) : String.prefix "" s = true.
Proof. now destruct s. Qed.

Lemma prefix_refl (a : string) : String.prefix a a = true.
Proof. apply prefix_app. exists "". now rewrite app_empty_r. Qed.

Lemma prefix_trans (a b c : string) :
  String.prefix a b = true -> String.prefix b c = true ->
  String.prefix a c = true.
Proof.
  intros [r ->]%prefix_app [s ->]%prefix_app.
  apply prefix_app. exists (r +:+ s). apply app_assoc.
Qed.

Lemma prefix_append (a b r : string) :
  String.prefix a b = true -> String.prefix a (b +:+ r) = true.
Proof.
  intros H. eapply prefix_trans; [exact H|].
  apply prefix_app. now exists r.
Qed.

(** Two prefixes of one string: one is a prefix of the other. *)
Lemma prefix_comparable (a b s : string) :
  String.prefix a s = true -> String.prefix b s = true ->
  String.prefix a b = true \/ String.prefix b a = true.
Proof.
  revert b s; induction a as [|x a IH]; intros b s Ha Hb.
  - left. now destruct b.
  - destruct b as [|y b]; [right; reflexivity|].
    destruct s as [|z s]; [discriminate|]. simpl in *.
    destruct (ascii_dec x z) as [->|]; [|discriminate].
    destruct (ascii_dec y z) as [->|]; [|discriminate].
    destruct (ascii_dec z z) as [_|Hne]; [|now destruct Hne].
    eapply IH; eassumption.
Qed.

Lemma prefix_take (i : nat) (p : string) :
  String.prefix (Path.take i p) p = true.
Proof.
  revert i; induction p as [|x p IH]; intros [|i]; simpl; try reflexivity.
  destruct (ascii_dec x x) as [_|Hne]; [apply IH | now destruct Hne].
Qed.

Lemma prefix_rstrip_sep (s : string) :
  String.prefix (Path.rstrip_sep s) s = true.
Proof.
  induction s as [|x s IH]; [reflexivity|]. simpl.
  destruct (Py.is_empty (Path.rstrip_sep s) && Ascii.eqb x "/");
    [reflexivity|].
  simpl. destruct (ascii_dec x x) as [_|Hne]; [apply IH | now destruct Hne].
Qed.

Lemma prefix_take_app (a b : string) (n : nat) :
  (String.length a <= n)%nat ->
  String.prefix a (Path.take n (a +:+ b)) = true.
Proof.
  revert n; induction a as [|x a IH]; intros n Hn; [apply prefix_empty|].
  destruct n as [|n]; [simpl in Hn; lia|].
  rewrite app_cons. simpl.
  destruct (ascii_dec x x) as [_|Hne]; [|now destruct Hne].
  apply IH. simpl in Hn. lia.
Qed.

(** [rfind] by the characters of the string. *)
Lemma rfind_go_shift (c : ascii) (s : string) (i : nat) (last : option nat) :
  Path.rfind_go c s i last
  = match Path.rfind c s with
    | Some k => Some (i + k)%nat
    | None => last
    end.
Proof.
  revert i last; induction s as [|x s IH]; intros i last; [reflexivity|].
  unfold Path.rfind. simpl. rewrite (IH (S i)), (IH 1%nat).
  unfold Path.rfind.
  destruct (Path.rfind_go c s 0 None) as [k|].
  - f_equal. lia.
  - destruct (Ascii.eqb x c); [f_equal; lia | reflexivity].
Qed.

Lemma rfind_cons (c x : ascii) (s : string) :
  Path.rfind c (String x s)
  = match Path.rfind c s with
    | Some k => Some (S k)
    | None => if Ascii.eqb x c then Some O else None
    end.
Proof. unfold Path.rfind at 1. simpl. now rewrite rfind_go_shift. Qed.

Lemma rfind_app (c : ascii) (a b : string) :
  Path.rfind c (a +:+ b)
  = match Path.rfind c b with
    | Some k => Some (String.length a + k)%nat
    | None => Path.rfind c a
    end.
Proof.
  induction a as [|x a IH].
  - rewrite app_empty_l. now destruct (Path.rfind c b).
  - rewrite app_cons, !rfind_cons, IH.
    destruct (Path.rfind c b) as [k|]; reflexivity.
Qed.

Lemma rfind_at (c : ascii) (s : string) (k : nat) :
  Path.rfind c s = Some k -> exists r, Path.drop k s = String c r.
Proof.
  revert k; induction s as [|x s IH]; intros k; [discriminate|].
  rewrite rfind_cons. destruct (Path.rfind c s) as [j|].
  - intros [= <-]. simpl. now apply IH.
  - destruct (Ascii.eqb x c) eqn:E; [|discriminate].
    intros [= <-]. apply Ascii.eqb_eq in E as ->. now exists s.
Qed.

Lemma startswith_cons (x : ascii) (s : string) :
  Py.startswith (String x s) "/" = Ascii.eqb x "/".
Proof.
  unfold Py.startswith. cbn [String.prefix].
  destruct (ascii_dec "/" x) as [E|Hne].
  - rewrite prefix_empty. symmetry. apply Ascii.eqb_eq. now symmetry.
  - symmetry. apply Ascii.eqb_neq. congruence.
Qed.

(** No part of a split at the slashes starts with a slash. *)
Lemma split_go_parts (cur s x : string) :
  Py.startswith cur "/" = false ->
  In x (Py.split_go "/" cur s) -> Py.startswith x "/" = false.
Proof.
  revert cur; induction s as [|c s IH]; intros cur Hcur; simpl.
  - now intros [<-|[]].
  - destruct (Ascii.eqb c "/") eqn:E.
    + intros [<-|Hin]; [exact Hcur|]. now apply (IH "").
    + apply IH. unfold Py.snoc. destruct cur as [|y cur].
      * rewrite app_empty_l, startswith_cons. exact E.
      * rewrite app_cons, startswith_cons.
        now rewrite startswith_cons in Hcur.
Qed.

(** The last component of a path does not start with a slash. *)
Lemma tail_relative (p : string) :
  Py.startswith
    (Path.drop (match Path.rfind "/" p with Some i => S i | None => O end) p)
    "/" = false.
Proof.
  induction p as [|x p IH]; [reflexivity|].
  rewrite rfind_cons. destruct (Path.rfind "/" p) as [k|].
  - exact IH.
  - destruct (Ascii.eqb x "/") eqn:E.
    + exact IH.
    + cbn [Path.drop]. now rewrite startswith_cons.
Qed.

Lemma basename_relative (p : string) :
  Py.startswith (Path.basename p) "/" = false.
Proof. exact (tail_relative p). Qed.

Lemma sep_end_sep (a : string) : sep_end (a +:+ "/").
Proof.
  right. exists (String.length a). rewrite rfind_app, length_app. simpl.
  split; [f_equal; lia | lia].
Qed.

(** [os.path.join] with a relative second part goes on from the first. *)
Lemma join_relative (a b : string) :
  Py.startswith b "/" = false ->
  exists a', Path.join a b = a' +:+ b
             /\ String.prefix a a' = true /\ sep_end a'.
Proof.
  intros Hb. unfold Path.join. rewrite Hb.
  destruct (Py.is_empty a) eqn:Ha; simpl.
  - destruct a; [|discriminate]. exists "". repeat split; now left.
  - destruct (Path.endswith_sep a) eqn:Hsep.
    + exists a. split; [reflexivity|]. split; [apply prefix_refl|].
      right. unfold Path.endswith_sep in Hsep.
      destruct (Path.rfind "/" a) as [i|]; [|discriminate].
      exists i. split; [reflexivity|]. now apply Nat.eqb_eq.
    + exists (a +:+ "/"). split; [now rewrite app_assoc|].
      split; [apply prefix_app; now exists "/" | apply sep_end_sep].
Qed.

Lemma join_prefix (top a b : string) :
  String.prefix top a = true -> Py.startswith b "/" = false ->
  String.prefix top (Path.join a b) = true.
Proof.
  intros Htop Hb. destruct (join_relative a b Hb) as (a' & -> & Ha & _).
  apply prefix_append. eapply prefix_trans; eassumption.
Qed.

(** The root [os.path.splitext] gives keeps the directory part. *)
Lemma splitext_root (a b root ext : string) :
  sep_end a -> Path.splitext (a +:+ b) = (root, ext) ->
  String.prefix a root = true.
Proof.
  intros Ha. unfold Path.splitext.
  set (filenameIndex := match Path.rfind "/" (a +:+ b) with
                        | Some i => S i | None => O end).
  assert (Hlen : (String.length a <= filenameIndex)%nat).
  { subst filenameIndex. destruct Ha as [->|(i & Hi & Hlen)]; [simpl; lia|].
    rewrite rfind_app, Hi. destruct (Path.rfind "/" b); lia. }
  destruct (Path.rfind "." (a +:+ b)) as [dotIndex|];
    [|intros [= <- _]; apply prefix_app; now exists b].
  destruct (_ && _) eqn:E;
    [|intros [= <- _]; apply prefix_app; now exists b].
  apply andb_true_iff in E as [Hle%Nat.leb_le _].
  intros [= <- _]. apply prefix_take_app. lia.
Qed.

(** The extension [os.path.splitext] gives does not start with a slash. *)
Lemma splitext_ext (p : string) :
  Py.startswith (snd (Path.splitext p)) "/" = false.
Proof.
  unfold Path.splitext.
  destruct (Path.rfind "." p) as [dotIndex|] eqn:E; [|reflexivity].
  destruct (_ && _); [|reflexivity]. simpl.
  destruct (rfind_at _ _ _ E) as [r ->]. reflexivity.
Qed.

End Strings.

Section Confined.

Context {A B : Type}.

Lemma confined_bind (P : string -> Prop) (Q : A -> Prop) (R : B -> Prop)
    (m : io A) (k : A -> io B) :
  confined P Q m -> (forall a, Q a -> confined P R (k a)) ->
  confined P R (m ≫= k).
Proof.
  intros Hm Hk st. unfold mbind, io_bind.
  destruct (Hm st) as [Hp Hq]. destruct (m st) as [st1 [a|e]]; simpl in *.
  - destruct (Hk a (Hq a eq_refl) st1) as [Hp' Hq'].
    split; [|exact Hq'].
    intros p Hne. destruct (decide (disk st1 !! p = disk st !! p)) as [E|E].
    + apply Hp'. congruence.
    + now apply Hp.
  - split; [exact Hp | discriminate].
Qed.

Lemma confined_same (P : string -> Prop) (Q : A -> Prop) (m : io A) :
  (forall st, fst (m st) = st) -> (forall st a, snd (m st) = Ok a -> Q a) ->
  confined P Q m.
Proof.
  intros Hst Hq st. rewrite Hst. split; [easy | apply Hq].
Qed.

Lemma confined_mono (P P' : string -> Prop) (Q Q' : A -> Prop) (m : io A) :
  (forall p, P p -> P' p) -> (forall a, Q a -> Q' a) ->
  confined P Q m -> confined P' Q' m.
Proof.
  intros HP HQ Hm st. destruct (Hm st) as [Hp Hq]. split; auto.
Qed.

End Confined.

Lemma confined_ret {A : Type} (P : string -> Prop) (Q : A -> Prop) (a : A) :
  Q a -> confined P Q (ret a).
Proof.
  intros Ha. apply confined_same; [reflexivity|].
  now intros st b [= <-].
Qed.

Lemma confined_pure {A : Type} (P : string -> Prop) (Q : A -> Prop)
    (r : result A) :
  (forall a, r = Ok a -> Q a) -> confined P Q (pure r).
Proof. intros Hr. apply confined_same; [reflexivity|]. intros st. exact Hr. Qed.

Lemma confined_ask {A : Type} (P : string -> Prop) (Q : A -> Prop)
    (f : gmap string node -> A) :
  (forall d, Q (f d)) -> confined P Q (ask f).
Proof.
  intros Hf. apply confined_same; [reflexivity|].
  intros st a [= <-]. apply Hf.
Qed.

Lemma confined_skip (P : string -> Prop) : confined P anything skip.
Proof. now apply confined_ret. Qed.

Lemma confined_on_disk (P : string -> Prop)
    (f : gmap string node -> result (gmap string node)) :
  (forall d d', f d = Ok d' -> forall p, d' !! p <> d !! p -> P p) ->
  confined P anything (on_disk f).
Proof.
  intros Hf st. unfold on_disk.
  destruct (f (disk st)) as [d'|e] eqn:E; simpl.
  - split; [now apply Hf | easy].
  - split; easy.
Qed.

Lemma confined_for_each {A : Type} (P : string -> Prop) (body : A -> io unit)
    (l : list A) :
  (forall x, In x l -> confined P anything (body x)) ->
  confined P anything (for_each body l).
Proof.
  induction l as [|x l IH]; intros Hbody; [apply confined_skip|].
  simpl. eapply confined_bind; [apply Hbody; now left|].
  intros _ _. apply IH. intros y Hy. apply Hbody. now right.
Qed.

Section Calls.

Lemma mkdir_only (d d' : gmap string node) (p q : string) :
  FS.mkdir d p = Ok d' -> d' !! q <> d !! q -> q = p.
Proof.
  unfold FS.mkdir. destruct (_ || _); [discriminate|].
  intros [= <-] Hq. destruct (decide (p = q)) as [<-|Hne]; [reflexivity|].
  now rewrite lookup_insert_ne in Hq.
Qed.

Lemma split_head_prefix (p : string) :
  String.prefix (fst (Path.split p)) p = true.
Proof.
  unfold Path.split. simpl. destruct (_ && _); [|apply prefix_take].
  eapply prefix_trans; [apply prefix_rstrip_sep | apply prefix_take].
Qed.

Lemma remove_only (d d' : gmap string node) (p q : string) :
  FS.remove d p = Ok d' -> d' !! q <> d !! q -> q = p.
Proof.
  unfold FS.remove. destruct (FS.isfile d p); [|discriminate].
  intros [= <-] Hq. destruct (decide (p = q)) as [<-|Hne]; [reflexivity|].
  now rewrite lookup_delete_ne in Hq.
Qed.

Lemma rename_only (d d' : gmap string node) (src dst q : string) :
  FS.rename d src dst = Ok d' -> d' !! q <> d !! q -> q = src \/ q = dst.
Proof.
  unfold FS.rename. destruct (FS.stat d src) as [[f|]|]; try discriminate.
  destruct (_ || _); [discriminate|].
  intros [= <-] Hq.
  destruct (decide (dst = q)) as [<-|Hdst]; [now right|].
  destruct (decide (src = q)) as [<-|Hsrc]; [now left|].
  now rewrite lookup_insert_ne, lookup_delete_ne in Hq.
Qed.

(** [shutil.move(src, dst)] takes [src] away and writes at [dst] or, when
    [dst] is a directory, inside it. *)
Lemma move_only (d d' : gmap string node) (src dst q : string) :
  FS.move d src dst = Ok d' -> d' !! q <> d !! q ->
  q = src \/ String.prefix dst q = true.
Proof.
  unfold FS.move. intros H Hq.
  assert (Hin : forall d0 real_dst,
            String.prefix dst real_dst = true ->
            FS.rename d0 src real_dst = Ok d' -> d' !! q <> d0 !! q ->
            q = src \/ String.prefix dst q = true).
  { intros d0 real_dst Hpre Hr Hq0.
    destruct (rename_only _ _ _ _ _ Hr Hq0) as [->| ->]; auto. }
  destruct (FS.isdir d dst); [|eapply Hin; eauto using prefix_refl].
  destruct (String.eqb src dst); [eapply Hin; eauto using prefix_refl|].
  destruct (FS.exists_ d _); [discriminate|].
  eapply Hin; [|exact H|exact Hq].
  apply join_prefix; [apply prefix_refl | apply basename_relative].
Qed.

(** [shutil.copy2(src, dst)] writes at [dst] or inside it. *)
Lemma copy2_only (d d' : gmap string node) (src dst q : string) :
  FS.copy2 d src dst = Ok d' -> d' !! q <> d !! q ->
  String.prefix dst q = true.
Proof.
  unfold FS.copy2.
  set (dst' := if FS.isdir d dst then _ else _).
  assert (Hpre : String.prefix dst dst' = true).
  { subst dst'. destruct (FS.isdir d dst); [|apply prefix_refl].
    apply join_prefix; [apply prefix_refl | apply basename_relative]. }
  destruct (String.eqb src dst'); [discriminate|].
  destruct (FS.stat d src) as [[f|]|]; try discriminate.
  destruct (_ || _); [discriminate|].
  intros [= <-] Hq. destruct (decide (dst' = q)) as [<-|Hne]; [exact Hpre|].
  now rewrite lookup_insert_ne in Hq.
Qed.

End Calls.

Section Sides.

Variable fnmatch : string -> string -> bool.
Variable cfg : config.

Lemma filter_ignored_confined (src_file : string) (filters : list string) :
  confined (fun p => p = src_file) anything
           (filter_ignored fnmatch cfg src_file filters).
Proof.
  unfold filter_ignored. apply confined_for_each. intros _filter _.
  destruct (fnmatch _ _); [|apply confined_skip].
  destruct (remove_ignored_files cfg); [|apply confined_skip].
  destruct (negb (test cfg)); [|apply confined_skip].
  apply confined_on_disk. intros d d' Hrm p Hp.
  eapply remove_only; eassumption.
Qed.

(** A file the walk lists lies strictly inside the top directory. *)
Lemma walk_file_inside (d : gmap string node) (topdown : bool)
    (top root name : string) (dirs files : list string) :
  In (root, dirs, files) (FS.walk d topdown top) -> In name files ->
  inside top (Path.join root name).
Proof.
  intros Hin Hname.
  apply walk_go_triples in Hin as (_ & -> & Hdir & Hunder).
  destruct (nondirs_child _ _ _ Hname) as (q & f & Hq & _).
  assert (Hroot : Py.is_empty root = false).
  { unfold FS.isdir, FS.stat in Hdir. now destruct (Py.is_empty root). }
  destruct (child_name_join root q name Hroot Hq) as [-> Hqeq].
  pose proof (child_name_not_empty root q name Hq) as Hnm.
  split.
  - apply prefix_app. rewrite Hqeq.
    destruct Hunder as [->|[r ->]%prefix_app].
    + now exists name.
    + destruct (dir_prefix_app (FS.dir_prefix top +:+ r)) as [s ->].
      exists (r +:+ s +:+ name). now rewrite !app_assoc.
  - intros Heq. apply (f_equal String.length) in Heq.
    rewrite Hqeq in Heq.
    destruct (dir_prefix_app root) as [s Hs]. rewrite Hs in Heq.
    destruct (dir_prefix_app top) as [s0 Hs0].
    destruct Hunder as [->|[r Hr]%prefix_app].
    + rewrite !length_app in Heq. destruct name; [discriminate|].
      simpl in Heq. lia.
    + rewrite Hr, Hs0 in Heq. rewrite !length_app in Heq.
      destruct name; [discriminate|]. simpl in Heq. lia.
Qed.

Lemma prescan_confined (ignore : option (list string)) :
  confined (inside (src_dir cfg)) anything (prescan fnmatch cfg ignore).
Proof.
  unfold prescan. destruct (_ && _); [|apply confined_skip].
  destruct ignore as [filters|]; [|apply confined_pure; easy].
  destruct (0 <? length filters)%nat; [|apply confined_skip].
  intros st. split; [|easy]. intros p Hp.
  match type of Hp with context [(?m ≫= ?k) st] =>
    change ((m ≫= k) st)
      with (k (FS.walk (disk st) true (src_dir cfg)) st) in Hp
  end.
  destruct (prescan_triples fnmatch cfg filters
              (FS.walk (disk st) true (src_dir cfg)) st) as (_ & Hdisk).
  destruct (Hdisk p) as [E|(_ & _ & _ & root & dirs & files & name & flt
                            & Hin & Hname & -> & _)]; [now destruct Hp|].
  eapply walk_file_inside; eassumption.
Qed.

Lemma cleanup_confined :
  confined (inside (src_dir cfg)) anything (cleanup cfg).
Proof.
  unfold cleanup. destruct (remove_empty_dirs cfg); [|apply confined_skip].
  intros st. split; [|easy]. intros p Hp.
  change ((triples ← ask (fun d => FS.walk d false (src_dir cfg));
           for_each (cleanup_dir cfg) triples) st)
    with (for_each (cleanup_dir cfg)
            (FS.walk (disk st) false (src_dir cfg)) st) in Hp.
  destruct (cleanup_loop cfg (FS.walk (disk st) false (src_dir cfg)) st)
    as (_ & _ & Hdisk).
  destruct (Hdisk p) as [H|(_ & _ & Hne & dn & Hin)]; [now destruct Hp|].
  apply walk_go_triples in Hin as (_ & _ & _ & Hunder).
  split; [|exact Hne].
  destruct Hunder as [->|Hunder]; [now destruct Hne | exact Hunder].
Qed.

End Sides.

(** * The walk reaches every directory *)

Section Reach.

Variable d : gmap string node.

Lemma isdir_not_empty (top : string) :
  FS.isdir d top = true -> Py.is_empty top = false.
Proof. unfold FS.isdir, FS.stat. now destruct (Py.is_empty top). Qed.

Lemma subdir_path (top name : string) :
  FS.isdir d top = true -> In name (FS.subdirs d top) ->
  d !! Path.join top name = Some Dir
  /\ FS.child_name top (Path.join top name) = Some name
  /\ (String.length top < String.length (Path.join top name))%nat.
Proof.
  intros Hdir Hname.
  destruct (subdirs_child _ _ _ Hname) as (q & Hq & Hnode).
  destruct (child_name_join top q name (isdir_not_empty _ Hdir) Hq)
    as [-> Hqeq].
  split; [exact Hnode|]. split; [exact Hq|].
  pose proof (child_name_not_empty _ _ _ Hq) as Hne.
  rewrite Hqeq. destruct (dir_prefix_app top) as [s ->].
  rewrite !length_app. destruct name; [discriminate|]. simpl. lia.
Qed.

Lemma below_length (n : nat) (top p : string) :
  below d n top p -> (n + String.length top <= String.length p)%nat.
Proof.
  induction 1 as [top Hdir|n top name p Hdir Hname _ IH]; [simpl; lia|].
  destruct (subdir_path top name Hdir Hname) as (_ & _ & Hlen). lia.
Qed.

Lemma below_node (n : nat) (top p : string) :
  below d n top p -> p = top \/ d !! p = Some Dir.
Proof.
  induction 1 as [top Hdir|n top name p Hdir Hname _ IH]; [now left|].
  right. destruct IH as [->|IH]; [|exact IH].
  now destruct (subdir_path top name Hdir Hname).
Qed.

Lemma below_isdir (n : nat) (top p : string) :
  below d n top p -> FS.isdir d p = true.
Proof. induction 1; assumption. Qed.

Lemma max_len_bound (p : string) (x : node) :
  d !! p = Some x -> (String.length p <= FS.max_len d)%nat.
Proof.
  intros Hp. apply elem_of_map_to_list, list_elem_of_In in Hp.
  unfold FS.max_len. induction (map_to_list d) as [|e l IH]; [easy|].
  simpl. destruct Hp as [->|Hin]; [simpl; lia|].
  specialize (IH Hin). lia.
Qed.

Lemma walk_go_below (topdown : bool) (n fuel : nat) (top p : string) :
  below d n top p -> (n < fuel)%nat ->
  In (p, FS.subdirs d p, FS.nondirs d p) (FS.walk_go fuel d topdown top).
Proof.
  intros Hbelow. revert fuel.
  induction Hbelow as [top Hdir|n top name p Hdir Hname _ IH];
    intros [|fuel] Hfuel; try lia; simpl; rewrite Hdir.
  - destruct topdown; [now left|]. apply in_or_app. right. now left.
  - assert (Hin : In (p, FS.subdirs d p, FS.nondirs d p)
                     (flat_map (fun d0 => FS.walk_go fuel d topdown
                                            (Path.join top d0))
                               (FS.subdirs d top))).
    { apply in_flat_map. exists name. split; [exact Hname|].
      apply IH. lia. }
    destruct topdown; [now right|]. apply in_or_app. now left.
Qed.

(** [os.walk] gives a triple for every directory below the top. *)
Lemma walk_complete (topdown : bool) (n : nat) (top p : string) :
  below d n top p ->
  In (p, FS.subdirs d p, FS.nondirs d p) (FS.walk d topdown top).
Proof.
  intros Hbelow. apply (walk_go_below topdown n); [exact Hbelow|].
  pose proof (below_length _ _ _ Hbelow) as Hlen.
  destruct (below_node _ _ _ Hbelow) as [->|Hnode].
  - assert (n = O) as -> by lia. lia.
  - pose proof (max_len_bound _ _ Hnode). lia.
Qed.

Lemma entries_child (top q name : string) (x : node) :
  d !! q = Some x -> FS.child_name top q = Some name ->
  FS.entries d top <> [].
Proof.
  intros Hq Hname Hnil.
  assert (Hin : (name, x) ∈ FS.entries d top).
  { unfold FS.entries. apply list_elem_of_omap. exists (q, x).
    split; [now apply elem_of_map_to_list|]. now rewrite Hname. }
  rewrite Hnil in Hin. now apply elem_of_nil in Hin.
Qed.

End Reach.

(** * How the cleanup ends *)

Section CleanupEnds.

Variable cfg : config.
Hypothesis remove_on : remove_empty_dirs cfg = true.
Hypothesis test_off : test cfg = false.

Lemma cleanup_dir_run (x : string) (dns files : list string) (st : state) :
  cleanup_dir cfg (x, dns, files) st
  = if Py.is_empty_list files && negb (String.eqb x (src_dir cfg))
    then on_disk (fun d => FS.rmdir d x) st
    else (st, Ok tt).
Proof.
  unfold cleanup_dir. rewrite test_off. simpl. now destruct (_ && _).
Qed.

Lemma cleanup_run (st : state) :
  cleanup cfg st
  = for_each (cleanup_dir cfg) (FS.walk (disk st) false (src_dir cfg)) st.
Proof. unfold cleanup. now rewrite remove_on. Qed.

Lemma rmdir_cases (d : gmap string node) (x : string) :
  (FS.rmdir d x = Ok (delete x d) /\ FS.entries d x = [])
  \/ (FS.rmdir d x = Raise OSError).
Proof.
  unfold FS.rmdir. destruct (FS.isdir d x && negb (FS.is_root x)); simpl;
    [|now right].
  destruct (bool_decide_reflect (FS.entries d x = [])) as [E|E];
    [now left | now right].
Qed.

Lemma for_each_removed (l : list (string * list string * list string))
    (st st' : state) (x : string) (dn : list string) :
  for_each (cleanup_dir cfg) l st = (st', Ok tt) ->
  In (x, dn, []) l -> x <> src_dir cfg ->
  disk st' !! x = None.
Proof.
  intros Hrun Hin Hne. revert st Hrun Hin.
  induction l as [|[[y dns] files] l IH]; intros st Hrun Hin; [easy|].
  rewrite for_each_cons in Hrun.
  destruct (cleanup_dir cfg (y, dns, files) st) as [st1 [[]|e]] eqn:E;
    [|discriminate].
  destruct Hin as [[= -> -> ->]|Hin]; [|now apply (IH st1)].
  rewrite cleanup_dir_run in E. simpl in E.
  destruct (String.eqb_spec x (src_dir cfg)) as [Heq|_]; [now destruct Hne|].
  simpl in E. unfold on_disk in E.
  destruct (rmdir_cases (disk st) x) as [[Hrm _]|Hrm]; rewrite Hrm in E;
    [|discriminate].
  injection E as <-.
  destruct (cleanup_loop cfg l
              (mkState (delete x (disk st)) (test_file_dict st)))
    as (_ & _ & Hdisk).
  rewrite Hrun in Hdisk. simpl in Hdisk.
  destruct (Hdisk x) as [H|[H _]]; [|exact H].
  rewrite H. apply lookup_delete_eq.
Qed.

(** When the cleanup returns, every directory below the source directory
    that held no file is gone. *)
Theorem cleanup_removes_empty (st : state) (n : nat) (p : string) :
  snd (cleanup cfg st) = Ok tt ->
  below (disk st) (S n) (src_dir cfg) p ->
  FS.nondirs (disk st) p = [] ->
  disk (fst (cleanup cfg st)) !! p = None.
Proof.
  intros Hok Hbelow Hfiles. rewrite cleanup_run in *.
  destruct (for_each _ _ st) as [st' r] eqn:Hrun. simpl in *. subst r.
  eapply for_each_removed; [exact Hrun| |].
  - rewrite <- Hfiles. apply (walk_complete _ _ _ _ _ Hbelow).
  - intros ->. apply below_length in Hbelow. lia.
Qed.

Lemma for_each_raises (d0 : gmap string node)
    (l : list (string * list string * list string))
    (p name q : string) (dn : list string) :
  (forall y dns files, In (y, dns, files) l -> files = FS.nondirs d0 y) ->
  FS.child_name p q = Some name -> FS.nondirs d0 q <> [] ->
  p <> src_dir cfg -> In (p, dn, []) l ->
  forall st, disk st !! q = Some Dir ->
  snd (for_each (cleanup_dir cfg) l st) = Raise OSError.
Proof.
  intros Hwalk Hchild Hq Hne.
  induction l as [|[[y dns] files] l IH]; intros Hin st Hnode; [easy|].
  assert (Hwalk' : forall y dns files,
            In (y, dns, files) l -> files = FS.nondirs d0 y).
  { intros y' dns' files' H. apply (Hwalk y' dns'). now right. }
  rewrite for_each_cons, cleanup_dir_run.
  destruct Hin as [[= -> -> ->]|Hin].
  - simpl. destruct (String.eqb_spec p (src_dir cfg)) as [Heq|_];
      [now destruct Hne|].
    simpl. unfold on_disk.
    destruct (rmdir_cases (disk st) p) as [[_ Hnil]|Hrm].
    + now destruct (entries_child (disk st) p q name Dir Hnode Hchild).
    + now rewrite Hrm.
  - destruct (Py.is_empty_list files && _) eqn:Hcond; [|now apply IH].
    unfold on_disk.
    destruct (rmdir_cases (disk st) y) as [[Hrm _]|Hrm]; rewrite Hrm;
      [|reflexivity].
    apply IH; [exact Hwalk' | exact Hin|]. simpl.
    rewrite lookup_delete_ne; [exact Hnode|].
    intros ->. apply Hq. rewrite <- (Hwalk q dns files) by now left.
    apply andb_true_iff in Hcond as [Hcond _]. now destruct files.
Qed.

(** A directory below the source directory that holds no file but a
    subdirectory with a file in it makes the cleanup raise OSError:
    [os.rmdir] is called on every directory without files, empty or
    not. *)
Theorem cleanup_nested_raises (st : state) (n : nat) (p name : string) :
  below (disk st) (S n) (src_dir cfg) p ->
  FS.nondirs (disk st) p = [] ->
  In name (FS.subdirs (disk st) p) ->
  FS.nondirs (disk st) (Path.join p name) <> [] ->
  snd (cleanup cfg st) = Raise OSError.
Proof.
  intros Hbelow Hfiles Hname Hsub. rewrite cleanup_run.
  destruct (subdir_path (disk st) p name (below_isdir _ _ _ _ Hbelow) Hname)
    as (Hnode & Hchild & _).
  eapply (for_each_raises (disk st)); [| exact Hchild | exact Hsub | | |].
  - intros y dns files Hin.
    now apply walk_go_triples in Hin as (_ & -> & _).
  - intros ->. apply below_length in Hbelow. lia.
  - rewrite <- Hfiles. apply (walk_complete _ _ _ _ _ Hbelow).
  - exact Hnode.
Qed.

End CleanupEnds.

(** On the sample disk src/empty goes. *)
Lemma cleanup_removes_empty_witness :
  disk (fst (cleanup (sample_config PyNone false false) sample_state))
  !! "src/empty" = None.
Proof.
  apply (cleanup_removes_empty (sample_config PyNone false false)
           eq_refl eq_refl sample_state O "src/empty").
  - reflexivity.
  - apply (below_sub _ O "src" "empty" "src/empty");
      [reflexivity | vm_compute; tauto | apply below_top; reflexivity].
  - reflexivity.
Defined.

(** src/sub holds no file and src/sub/deep holds one. *)
Lemma cleanup_nested_raises_witness :
  snd (cleanup (sample_config PyNone false false) (mkState nested_disk ∅))
  = Raise OSError.
Proof.
  apply (cleanup_nested_raises (sample_config PyNone false false)
           eq_refl eq_refl (mkState nested_disk ∅) O "src/sub" "deep").
  - apply (below_sub _ O "src" "sub" "src/sub");
      [reflexivity | vm_compute; tauto | apply below_top; reflexivity].
  - reflexivity.
  - vm_compute; tauto.
  - vm_compute. discriminate.
Defined.

(** The whole run on that disk: the photo is moved, then the cleanup
    raises. *)
Example sortPhotos_nested_sample :
  let run := sortPhotos strftime_py3 glob
               (fun _ _ => [[("SourceFile", VStr "src/a.jpg");
                             ("EXIF:CreateDate",
                              VStr "2020:05:01 10:00:00")]])
               sample_clock (sample_config PyNone false false)
               nested_disk in
  snd run = Raise OSError
  /\ fst run !! "out/2020/05-May/a.jpg" = Some (File (mkFile "aaa" 1))
  /\ fst run !! "src/sub" = Some Dir.
Proof. vm_compute. repeat split. Qed.

(** * What a copy leaves in place *)

Section Emptied.

Lemma entries_shrink (d d' : gmap string node) (p : string) :
  (forall q, d' !! q = d !! q \/ d' !! q = None) ->
  FS.entries d p = [] -> FS.entries d' p = [].
Proof.
  intros Hsub Hnil.
  destruct (FS.entries d' p) as [|[name n] l] eqn:E; [reflexivity|].
  assert (Hin : (name, n) ∈ FS.entries d' p) by (rewrite E; left).
  unfold FS.entries in Hin.
  apply list_elem_of_omap in Hin as ([q n'] & Hq & Hc).
  apply elem_of_map_to_list in Hq.
  destruct (FS.child_name p q) as [name'|] eqn:Hname; [|discriminate].
  injection Hc as <- <-.
  destruct (Hsub q) as [Hsame|Hnone]; [|congruence].
  rewrite Hsame in Hq.
  now destruct (entries_child d p q name' n' Hq Hname).
Qed.

Variable cfg : config.

Lemma cleanup_dir_emptied (p : string) (dirnames files : list string)
    (st : state) :
  let st' := fst (cleanup_dir cfg (p, dirnames, files) st) in
  st' = st
  \/ (FS.entries (disk st) p = []
      /\ st' = mkState (delete p (disk st)) (test_file_dict st)).
Proof.
  unfold cleanup_dir. destruct (_ && _); [|now left].
  destruct (negb (test cfg)); [|now left].
  unfold on_disk, FS.rmdir.
  destruct (FS.isdir (disk st) p && negb (FS.is_root p)); simpl;
    [|now left].
  destruct (bool_decide_reflect (FS.entries (disk st) p = [])) as [E|E];
    simpl; [now right | now left].
Qed.

Lemma cleanup_loop_emptied (l : list (string * list string * list string))
    (st : state) (p : string) :
  disk (fst (for_each (cleanup_dir cfg) l st)) !! p <> disk st !! p ->
  FS.entries (disk (fst (for_each (cleanup_dir cfg) l st))) p = [].
Proof.
  revert st; induction l as [|[[q dirnames] files] l IH]; intros st;
    [now simpl|].
  rewrite for_each_cons.
  pose proof (cleanup_dir_emptied q dirnames files st) as Heff.
  destruct (cleanup_dir cfg (q, dirnames, files) st) as [st1 [[]|e]];
    simpl in Heff.
  - destruct Heff as [->|(Hnil & ->)]; [apply IH|].
    set (st1 := mkState (delete q (disk st)) (test_file_dict st)).
    intros Hp.
    destruct (decide (disk (fst (for_each (cleanup_dir cfg) l st1)) !! p
                      = disk st1 !! p)) as [Hsame|Hdiff]; [|now apply IH].
    assert (Hq : p = q).
    { destruct (decide (q = p)) as [<-|Hne]; [reflexivity|].
      rewrite Hsame in Hp. simpl in Hp.
      now rewrite lookup_delete_ne in Hp. }
    subst p. destruct (cleanup_loop cfg l st1) as (_ & _ & Hdisk).
    apply (entries_shrink (disk st)); [|exact Hnil].
    intros x. destruct (Hdisk x) as [Hx|(Hx & _)]; [|now right].
    rewrite Hx. simpl. destruct (decide (q = x)) as [<-|Hne].
    + right. apply lookup_delete_eq.
    + left. now apply lookup_delete_ne.
  - simpl. destruct Heff as [->|(Hnil & ->)]; [easy|].
    intros Hp. simpl in *.
    assert (Hq : p = q).
    { destruct (decide (q = p)) as [<-|Hne]; [reflexivity|].
      now rewrite lookup_delete_ne in Hp. }
    subst p. apply (entries_shrink (disk st)); [|exact Hnil].
    intros x. destruct (decide (q = x)) as [<-|Hne].
    + right. apply lookup_delete_eq.
    + left. now apply lookup_delete_ne.
Qed.

End Emptied.

Section CopyKeeps.

Variable strftime : string -> datetime -> result string.
Variable fnmatch : string -> string -> bool.
Variable get_metadata : list string -> gmap string node -> list record.
Variable clock : nat -> datetime.
Variable cfg : config.
Hypothesis test_off : test cfg = false.
Hypothesis copy_on : copy_files cfg = true.
Hypothesis remove_off : remove_ignored_files cfg = false.

Lemma kept_refl (d : gmap string node) : kept d d.
Proof. split; [apply stays_refl | auto]. Qed.

Lemma kept_trans (d1 d2 d3 : gmap string node) :
  kept d1 d2 -> kept d2 d3 -> kept d1 d3.
Proof.
  intros [F12 D12] [F23 D23]. split; [eapply stays_trans; eassumption|].
  auto.
Qed.

Lemma grows_kept (d d' : gmap string node) : grows d d' -> kept d d'.
Proof.
  intros Hg. split; [now apply grows_stays|].
  intros p Hp. destruct (Hg p) as [E|[E _]]; congruence.
Qed.

Lemma kept_keeps {A : Type} (m : io A) : keeps_files m -> keeps_nodes m.
Proof. intros H st. apply grows_kept, H. Qed.

Lemma nodes_bind {A B : Type} (m : io A) (k : A -> io B) :
  keeps_nodes m -> (forall a, keeps_nodes (k a)) -> keeps_nodes (m ≫= k).
Proof.
  intros Hm Hk st. unfold mbind, io_bind.
  specialize (Hm st). destruct (m st) as [st1 [a|e]]; simpl in *.
  - eapply kept_trans; [exact Hm | apply Hk].
  - exact Hm.
Qed.

Lemma nodes_same {A : Type} (m : io A) :
  (forall st, fst (m st) = st) -> keeps_nodes m.
Proof. intros H st. rewrite H. apply kept_refl. Qed.

Lemma nodes_on_disk (f : gmap string node -> result (gmap string node)) :
  (forall d d', f d = Ok d' -> kept d d') -> keeps_nodes (on_disk f).
Proof.
  intros Hf st. unfold on_disk.
  destruct (f (disk st)) as [d'|e] eqn:E; simpl;
    [now apply Hf | apply kept_refl].
Qed.

Lemma nodes_for_each {A : Type} (body : A -> io unit) (l : list A) :
  (forall x, keeps_nodes (body x)) -> keeps_nodes (for_each body l).
Proof.
  intros Hbody. induction l as [|x l IH]; [apply nodes_same; reflexivity|].
  simpl. apply nodes_bind; auto.
Qed.

(** [shutil.copy2] writes one file, and not where a directory is. *)
Lemma copy2_kept (d d' : gmap string node) (src dst : string) :
  FS.copy2 d src dst = Ok d' -> kept d d'.
Proof.
  intros Hcopy. split; [eapply copy2_stays, Hcopy|].
  revert Hcopy. unfold FS.copy2.
  set (dst' := if FS.isdir d dst then _ else _).
  destruct (String.eqb src dst'); [discriminate|].
  destruct (FS.stat d src) as [[f|]|]; try discriminate.
  destruct (FS.isdir d dst') eqn:Hdir; [discriminate|].
  destruct (Py.is_empty dst') eqn:Hne; [discriminate|]. simpl.
  destruct (negb _); [discriminate|].
  intros [= <-] p Hp. destruct (decide (dst' = p)) as [<-|Hp'].
  - unfold FS.isdir, FS.stat in Hdir. rewrite Hne in Hdir.
    destruct (FS.is_root dst'); [discriminate|].
    now rewrite Hp in Hdir.
  - now rewrite lookup_insert_ne.
Qed.

Lemma nodes_place (src_file : string) (date : datetime) :
  keeps_nodes (place strftime cfg src_file date).
Proof.
  unfold place.
  destruct (Py.startswith _ _); [apply nodes_same; reflexivity|].
  apply nodes_bind; [apply nodes_same; reflexivity|]. intros date'.
  apply nodes_bind; [apply nodes_same; reflexivity|]. intros dir_structure.
  apply nodes_bind; [apply kept_keeps, keeps_make_folders|].
  intros dest_file.
  apply nodes_bind.
  - destruct (rename_format cfg) as [fmt|]; [|apply nodes_same; reflexivity].
    apply nodes_bind; [apply nodes_same; reflexivity|].
    intros name. apply nodes_same; reflexivity.
  - intros filename. destruct (Path.splitext _) as [root ext].
    apply nodes_bind; [apply kept_keeps, keeps_resolve_collisions|].
    intros [dest fileIsIdentical].
    unfold transfer. rewrite test_off, copy_on.
    destruct fileIsIdentical; [apply nodes_same; reflexivity|].
    apply nodes_on_disk. intros d d'. apply copy2_kept.
Qed.

Lemma nodes_process_records (groups tags : list string)
    (ignore : option (list string)) (metadata : list record) (idx : nat) :
  keeps_nodes
    (process_records strftime fnmatch clock cfg groups tags ignore idx
       metadata).
Proof.
  revert idx; induction metadata as [|data rest IH]; intros idx.
  - apply nodes_same; reflexivity.
  - simpl. apply nodes_bind; [|intros _; apply IH].
    unfold process_record.
    apply nodes_bind; [apply nodes_same; reflexivity|].
    intros [[src_file date] ks].
    apply nodes_bind.
    + destruct (verbose cfg); [|apply nodes_same; reflexivity].
      apply nodes_bind; [apply nodes_same; reflexivity|].
      intros _. apply nodes_same; reflexivity.
    + intros _. destruct date as [date|]; [|apply nodes_same; reflexivity].
      apply nodes_bind; [apply nodes_same; reflexivity|]. intros src.
      apply nodes_bind; [|intros _; apply nodes_place].
      destruct ignore as [filters|]; [|apply nodes_same; reflexivity].
      unfold filter_ignored. apply nodes_for_each. intros _filter.
      rewrite remove_off. apply nodes_same. intros st.
      now destruct (fnmatch _ _).
Qed.

(** The cleanup after the copies. *)
Lemma cleanup_dirs_stay (st : state) :
  stays (disk st) (disk (fst (cleanup cfg st)))
  /\ dirs_stay (src_dir cfg) (disk st) (disk (fst (cleanup cfg st))).
Proof.
  split; [apply (leaves_cleanup cfg test_off)|].
  intros p Hp. unfold cleanup.
  destruct (remove_empty_dirs cfg); [|now left].
  change ((triples ← ask (fun d => FS.walk d false (src_dir cfg));
           for_each (cleanup_dir cfg) triples) st)
    with (for_each (cleanup_dir cfg)
            (FS.walk (disk st) false (src_dir cfg)) st).
  set (l := FS.walk (disk st) false (src_dir cfg)).
  destruct (cleanup_loop cfg l st) as (_ & _ & Hdisk).
  destruct (Hdisk p) as [H|(Hnone & _ & Hne & dn & Hin)];
    [left; congruence|].
  right. split; [exact Hnone|]. split.
  - apply walk_go_triples in Hin as (_ & _ & _ & Hunder).
    split; [|exact Hne].
    destruct Hunder as [->|Hunder]; [now destruct Hne | exact Hunder].
  - apply cleanup_loop_emptied. congruence.
Qed.

(** A run that copies and is not told to delete the ignored files takes
    no file away and no directory but empty ones of the source: every
    path that held a file holds one afterwards, and every directory is
    still there or is gone, lay strictly inside the source directory and
    has nothing left in it; this whatever the metadata and whether or not
    the run ends with an exception. *)
Theorem sortPhotos_copy_mode (d : gmap string node) :
  stays d (fst (sortPhotos strftime fnmatch get_metadata clock cfg d))
  /\ dirs_stay (src_dir cfg) d
       (fst (sortPhotos strftime fnmatch get_metadata clock cfg d)).
Proof.
  unfold sortPhotos.
  destruct (setup_tags cfg) as [[groups tags] args].
  set (goal := fun d d' : gmap string node =>
                 stays d d' /\ dirs_stay (src_dir cfg) d d').
  assert (Hkept : forall x y, kept x y -> goal x y).
  { intros x y [Hf Hd]. split; [exact Hf|]. intros p Hp. left. auto. }
  assert (Hthen : forall x y z, kept x y -> goal y z -> goal x z).
  { intros x y z [Hf Hd] [Hf' Hd']. split; [eapply stays_trans; eassumption|].
    intros p Hp. apply Hd', Hd, Hp. }
  assert (Hbind : forall (A B : Type) (m : io A) (k : A -> io B),
            keeps_nodes m ->
            (forall a st, goal (disk st) (disk (fst (k a st)))) ->
            forall st, goal (disk st) (disk (fst ((m ≫= k) st)))).
  { intros A B m k Hm Hk st. unfold mbind, io_bind.
    specialize (Hm st). destruct (m st) as [st1 [a|e]]; simpl in *.
    - eapply Hthen; [exact Hm | apply Hk].
    - now apply Hkept. }
  match goal with |- context [let '(st, r) := ?run ?st0 in _] =>
    assert (Hrun : goal (disk st0) (disk (fst (run st0))));
    [|destruct (run st0) as [st r]; exact Hrun]
  end.
  apply Hbind; [apply nodes_same; reflexivity|]. intros present.
  apply Hbind.
  { unfold unless. destruct present; apply nodes_same; reflexivity. }
  intros _.
  apply Hbind; [apply nodes_same; reflexivity|]. intros ignore.
  apply Hbind.
  { unfold prescan. rewrite remove_off, andb_false_r.
    apply nodes_same; reflexivity. }
  intros _.
  apply Hbind; [apply nodes_same; reflexivity|]. intros metadata.
  apply Hbind; [apply nodes_process_records|]. intros _ st.
  unfold mbind, io_bind.
  pose proof (cleanup_dirs_stay st) as Hclean.
  destruct (cleanup cfg st) as [st1 [[]|e]]; exact Hclean.
Qed.

End CopyKeeps.

(** On the sample disk the copy leaves the three files in src, and of the
    directories only src/empty goes. *)
Lemma sortPhotos_copy_mode_witness :
  stays sample_disk
    (fst (sortPhotos strftime_py3 glob sample_metadata sample_clock
            copy_config sample_disk))
  /\ dirs_stay "src" sample_disk
       (fst (sortPhotos strftime_py3 glob sample_metadata sample_clock
               copy_config sample_disk)).
Proof.
  apply (sortPhotos_copy_mode strftime_py3 glob sample_metadata sample_clock
           copy_config); reflexivity.
Defined.

Example sortPhotos_copy_mode_sample :
  let d := fst (sortPhotos strftime_py3 glob sample_metadata sample_clock
                  copy_config sample_disk) in
  d !! "src/a.jpg" = Some (File (mkFile "aaa" 1))
  /\ d !! "out/2020/05-May/a.jpg" = Some (File (mkFile "aaa" 1))
  /\ d !! "out/2020/05-May/a_1.jpg" = Some (File (mkFile "ccc" 3))
  /\ d !! "out/2020/05-May/b.db" = Some (File (mkFile "bbb" 2))
  /\ d !! "src/sub" = Some Dir
  /\ d !! "src/empty" = None.
Proof. vm_compute. repeat split. Qed.

(** * What the scan deletes *)

Section PrescanEnds.

Variable fnmatch : string -> string -> bool.
Variable cfg : config.
Hypothesis recursive_on : recursive cfg = true.
Hypothesis remove_on : remove_ignored_files cfg = true.
Hypothesis test_off : test cfg = false.

Lemma prescan_file_removes (root name flt : string) (filters : list string)
    (st st' : state) :
  In flt filters -> fnmatch (snd (Path.split name)) flt = true ->
  prescan_file fnmatch false root name filters st = (st', Ok tt) ->
  disk st' !! Path.join root name = None.
Proof.
  intros Hin Hmatch.
  induction filters as [|_filter filters IH]; [easy|].
  cbn [prescan_file negb].
  destruct (fnmatch (snd (Path.split name)) _filter) eqn:E.
  - unfold on_disk, FS.remove.
    destruct (FS.isfile (disk st) (Path.join root name)); simpl;
      [|discriminate].
    intros [= <-]. apply lookup_delete_eq.
  - destruct Hin as [->|Hin]; [congruence | now apply IH].
Qed.

Lemma scan_files_removes (root name flt : string)
    (filters files : list string) (st st' : state) :
  In flt filters -> fnmatch (snd (Path.split name)) flt = true ->
  In name files ->
  for_each (fun current_file =>
              prescan_file fnmatch (test cfg) root current_file filters)
           files st = (st', Ok tt) ->
  disk st' !! Path.join root name = None.
Proof.
  intros Hflt Hmatch. revert st.
  induction files as [|x files IH]; intros st Hin Hrun; [easy|].
  rewrite for_each_cons in Hrun.
  destruct (prescan_file fnmatch (test cfg) root x filters st)
    as [st1 [[]|e]] eqn:E; [|discriminate].
  destruct (in_dec string_dec name files) as [Hrest|Hrest];
    [now apply (IH st1)|].
  destruct Hin as [->|Hin]; [|now destruct Hrest].
  rewrite test_off in E.
  pose proof (prescan_file_removes _ _ _ _ _ _ Hflt Hmatch E) as Hnone.
  destruct (prescan_files fnmatch cfg root [] files filters files st1
              (fun n H => H)) as (_ & Hdisk).
  rewrite Hrun in Hdisk. simpl in Hdisk.
  destruct (Hdisk (Path.join root name)) as [H|(_ & H & _)]; congruence.
Qed.

Lemma scan_removes (root name flt : string) (dirs files filters : list string)
    (triples : list (string * list string * list string))
    (st st' : state) :
  In flt filters -> fnmatch (snd (Path.split name)) flt = true ->
  In (root, dirs, files) triples -> In name files ->
  for_each
    (fun '(root, dirs, files) =>
       for_each
         (fun current_file =>
            prescan_file fnmatch (test cfg) root current_file filters)
         files)
    triples st = (st', Ok tt) ->
  disk st' !! Path.join root name = None.
Proof.
  intros Hflt Hmatch Hin Hname. revert st Hin.
  induction triples as [|[[r ds] fs] triples IH]; intros st Hin Hrun; [easy|].
  rewrite for_each_cons in Hrun.
  destruct (for_each _ fs st) as [st1 [[]|e]] eqn:E; [|discriminate].
  destruct (prescan_triples fnmatch cfg filters triples st1) as (_ & Hdisk).
  rewrite Hrun in Hdisk. simpl in Hdisk.
  destruct Hin as [[= -> -> ->]|Hin].
  - pose proof (scan_files_removes _ _ _ _ _ _ _ Hflt Hmatch Hname E) as Hnone.
    destruct (Hdisk (Path.join root name)) as [H|(_ & H & _)]; congruence.
  - now apply (IH st1).
Qed.

(** When the scan of lines 305-315 returns, every file at any depth in
    the source directory whose name matches a filter of the ignore list
    is gone. *)
Theorem prescan_removes_matching (filters : list string) (st : state)
    (n : nat) (root name flt : string) :
  snd (prescan fnmatch cfg (Some filters) st) = Ok tt ->
  below (disk st) n (src_dir cfg) root ->
  In name (FS.nondirs (disk st) root) ->
  In flt filters -> fnmatch (snd (Path.split name)) flt = true ->
  disk (fst (prescan fnmatch cfg (Some filters) st))
  !! Path.join root name = None.
Proof.
  intros Hok Hbelow Hname Hflt Hmatch.
  assert (Hlen : (0 <? length filters)%nat = true)
    by (destruct filters; [easy | reflexivity]).
  assert (Heq : prescan fnmatch cfg (Some filters) st
                = for_each
                    (fun '(root, dirs, files) =>
                       for_each
                         (fun current_file =>
                            prescan_file fnmatch (test cfg) root current_file
                              filters)
                         files)
                    (FS.walk (disk st) true (src_dir cfg)) st).
  { unfold prescan. now rewrite recursive_on, remove_on, Hlen. }
  rewrite Heq in *. clear Heq.
  destruct (for_each _ _ st) as [st' r] eqn:Hrun. simpl in *. subst r.
  eapply scan_removes; [exact Hflt | exact Hmatch | | exact Hname | exact Hrun].
  apply (walk_complete _ _ _ _ _ Hbelow).
Qed.

End PrescanEnds.

(** On the sample disk src/b.db goes. *)
Lemma prescan_removes_matching_witness :
  disk (fst (prescan glob (sample_config (PyStr "*.db") true false)
               (Some ["*.db"]) sample_state))
  !! Path.join "src" "b.db" = None.
Proof.
  apply (prescan_removes_matching glob
           (sample_config (PyStr "*.db") true false)
           eq_refl eq_refl eq_refl ["*.db"] sample_state O "src" "b.db"
           "*.db").
  - reflexivity.
  - apply below_top. reflexivity.
  - vm_compute; tauto.
  - now left.
  - reflexivity.
Defined.

(** * Placing a file *)

Section Joined.

Lemma rfind_snoc_none (cur : string) (c : ascii) :
  Path.rfind "/" cur = None -> Ascii.eqb c "/" = false ->
  Path.rfind "/" (Py.snoc cur c) = None.
Proof.
  intros Hcur Hc. unfold Py.snoc. rewrite rfind_app, rfind_cons. simpl.
  now rewrite Hc.
Qed.

(** The parts of a split at the slashes hold no slash. *)
Lemma split_go_no_sep (cur s x : string) :
  Path.rfind "/" cur = None ->
  In x (Py.split_go "/" cur s) -> Path.rfind "/" x = None.
Proof.
  revert cur; induction s as [|c s IH]; intros cur Hcur; simpl.
  - now intros [<-|[]].
  - destruct (Ascii.eqb c "/") eqn:E.
    + intros [<-|Hin]; [exact Hcur|]. now apply (IH "").
    + apply IH. now apply rfind_snoc_none.
Qed.

(** The last component of a path holds no slash. *)
Lemma basename_no_sep (p : string) : Path.rfind "/" (Path.basename p) = None.
Proof.
  change (Path.basename p)
    with (Path.drop (match Path.rfind "/" p with
                     | Some i => S i | None => O end) p).
  induction p as [|x p IH]; [reflexivity|].
  rewrite rfind_cons. destruct (Path.rfind "/" p) as [k|] eqn:Hp.
  - exact IH.
  - destruct (Ascii.eqb x "/") eqn:E.
    + exact Hp.
    + cbn [Path.drop]. now rewrite rfind_cons, Hp, E.
Qed.

Lemma no_sep_relative (b : string) :
  Path.rfind "/" b = None -> Py.startswith b "/" = false.
Proof.
  destruct b as [|x b]; [reflexivity|].
  rewrite rfind_cons, startswith_cons.
  destruct (Path.rfind "/" b); [discriminate|].
  now destruct (Ascii.eqb x "/").
Qed.

Lemma all_sep_app (a r : string) :
  Path.all_sep (a +:+ r) = Path.all_sep a && Path.all_sep r.
Proof.
  induction a as [|x a IH]; [now rewrite app_empty_l|].
  rewrite app_cons. simpl. rewrite IH. now rewrite andb_assoc.
Qed.

Lemma all_sep_no_rfind (a : string) :
  Path.rfind "/" a = None -> Py.is_empty a = false -> Path.all_sep a = false.
Proof.
  destruct a as [|x a]; [discriminate|]. rewrite rfind_cons. simpl.
  destruct (Path.rfind "/" a); [discriminate|].
  now destruct (Ascii.eqb x "/").
Qed.

(** A path of slashes only, if not empty, ends with a slash. *)
Lemma all_sep_ends (a : string) :
  Path.all_sep a = true -> Py.is_empty a = false ->
  Path.endswith_sep a = true.
Proof.
  induction a as [|x a IH]; [discriminate|]. simpl.
  intros [Hx Ha]%andb_true_iff _. unfold Path.endswith_sep in *.
  rewrite rfind_cons, Hx. destruct a as [|y a]; [reflexivity|].
  specialize (IH Ha eq_refl).
  destruct (Path.rfind "/" (String y a)) as [k|]; [|discriminate].
  exact IH.
Qed.

Lemma endswith_sep_cons (x y : ascii) (a : string) :
  Path.endswith_sep (String x (String y a))
  = Path.endswith_sep (String y a).
Proof.
  unfold Path.endswith_sep. rewrite (rfind_cons _ x).
  destruct (Path.rfind "/" (String y a)) as [k|]; [reflexivity|].
  now destruct (Ascii.eqb x "/").
Qed.

Lemma rstrip_sep_keeps (a : string) :
  Path.endswith_sep a = false -> Path.rstrip_sep a = a.
Proof.
  induction a as [|x a IH]; [reflexivity|]. intros Hx.
  destruct a as [|y a].
  - simpl. unfold Path.endswith_sep in Hx. rewrite rfind_cons in Hx.
    simpl in Hx. now destruct (Ascii.eqb x "/").
  - rewrite endswith_sep_cons in Hx.
    change (Path.rstrip_sep (String x (String y a)))
      with (if Py.is_empty (Path.rstrip_sep (String y a)) && Ascii.eqb x "/"
            then "" else String x (Path.rstrip_sep (String y a))).
    now rewrite (IH Hx).
Qed.

Lemma rstrip_sep_sep (a : string) :
  Path.rstrip_sep (a +:+ "/") = Path.rstrip_sep a.
Proof.
  induction a as [|x a IH]; [reflexivity|].
  rewrite app_cons.
  change (Path.rstrip_sep (String x (a +:+ "/")))
    with (if Py.is_empty (Path.rstrip_sep (a +:+ "/")) && Ascii.eqb x "/"
          then "" else String x (Path.rstrip_sep (a +:+ "/"))).
  now rewrite IH.
Qed.

Lemma take_app_more (a r : string) (k : nat) :
  Path.take (String.length a + k) (a +:+ r) = a +:+ Path.take k r.
Proof.
  induction a as [|x a IH].
  - rewrite !app_empty_l. reflexivity.
  - rewrite !app_cons. simpl. now rewrite IH.
Qed.

Lemma drop_app_more (a r : string) (k : nat) :
  Path.drop (String.length a + k) (a +:+ r) = Path.drop k r.
Proof.
  induction a as [|x a IH]; [now rewrite app_empty_l|].
  rewrite app_cons. simpl. exact IH.
Qed.

(** A directory [a] that does not end with a slash and a name [b] without
    slash: the pieces of [a/b]. *)
Section Child.

Variables a b : string.
Hypothesis a_not_empty : Py.is_empty a = false.
Hypothesis a_open : Path.endswith_sep a = false.
Hypothesis b_not_empty : Py.is_empty b = false.
Hypothesis b_no_sep : Path.rfind "/" b = None.

Lemma join_child : Path.join a b = a +:+ "/" +:+ b.
Proof.
  unfold Path.join.
  now rewrite (no_sep_relative b b_no_sep), a_not_empty, a_open.
Qed.

Lemma rfind_child : Path.rfind "/" (a +:+ "/" +:+ b) = Some (String.length a).
Proof.
  rewrite rfind_app. change ("/" +:+ b) with (String "/" b).
  rewrite rfind_cons, b_no_sep. simpl. f_equal. lia.
Qed.

Lemma a_not_root : Path.all_sep a = false.
Proof.
  destruct (Path.all_sep a) eqn:E; [|reflexivity].
  now rewrite (all_sep_ends a E a_not_empty) in a_open.
Qed.

Lemma split_child : Path.split (Path.join a b) = (a, b).
Proof.
  rewrite join_child. unfold Path.split. rewrite rfind_child.
  replace (S (String.length a)) with (String.length a + 1)%nat by lia.
  rewrite take_app_more, drop_app_more.
  change (Path.take 1 ("/" +:+ b)) with "/".
  change (Path.drop 1 ("/" +:+ b)) with b.
  rewrite all_sep_app, a_not_root. simpl andb.
  replace (Py.is_empty (a +:+ "/")) with false by now destruct a.
  simpl. now rewrite rstrip_sep_sep, rstrip_sep_keeps.
Qed.

Lemma child_not_empty : Py.is_empty (Path.join a b) = false.
Proof. rewrite join_child. now destruct a. Qed.

Lemma child_not_root : Path.all_sep (Path.join a b) = false.
Proof. now rewrite join_child, all_sep_app, a_not_root. Qed.

Lemma child_open : Path.endswith_sep (Path.join a b) = false.
Proof.
  rewrite join_child. unfold Path.endswith_sep. rewrite rfind_child.
  apply Nat.eqb_neq. rewrite !length_app. destruct b; [discriminate|].
  simpl. lia.
Qed.

Lemma child_longer :
  (String.length a < String.length (Path.join a b))%nat.
Proof. rewrite join_child, !length_app. simpl. lia. Qed.

End Child.

Lemma stat_lookup (d : gmap string node) (p : string) :
  Py.is_empty p = false -> Path.all_sep p = false -> FS.stat d p = d !! p.
Proof.
  intros Hne Hroot. unfold FS.stat, FS.is_root. now rewrite Hne, Hroot.
Qed.

Lemma prefix_length (a p : string) :
  String.prefix a p = true -> (String.length a <= String.length p)%nat.
Proof. intros [r ->]%prefix_app. rewrite length_app. lia. Qed.

End Joined.

Section Folders.

Lemma mkdir_child (d : gmap string node) (a b : string) :
  Py.is_empty a = false -> Path.endswith_sep a = false ->
  Py.is_empty b = false -> Path.rfind "/" b = None ->
  FS.isdir d a = true -> d !! Path.join a b = None ->
  FS.mkdir d (Path.join a b) = Ok (<[Path.join a b := Dir]> d).
Proof.
  intros Ha Hopen Hb Hsep Hdir Hfree. unfold FS.mkdir, FS.exists_.
  rewrite stat_lookup, Hfree
    by (now apply child_not_empty || now apply child_not_root).
  rewrite child_not_empty by assumption.
  unfold FS.parent_ok, Path.dirname. rewrite split_child by assumption.
  simpl. now rewrite Hdir, orb_true_r.
Qed.

Lemma makedirs_child (d : gmap string node) (a b : string) :
  Py.is_empty a = false -> Path.endswith_sep a = false ->
  Py.is_empty b = false -> Path.rfind "/" b = None ->
  FS.isdir d a = true -> d !! Path.join a b = None ->
  FS.makedirs d (Path.join a b) = Ok (<[Path.join a b := Dir]> d).
Proof.
  intros Ha Hopen Hb Hsep Hdir Hfree. unfold FS.makedirs.
  pose proof (mkdir_child d a b Ha Hopen Hb Hsep Hdir Hfree) as Hmk.
  destruct (String.length (Path.join a b)) as [|fuel]; [exact Hmk|].
  cbn [FS.makedirs_go]. unfold FS.makedirs_head.
  rewrite split_child by assumption. cbv beta iota zeta.
  rewrite Hb. cbv beta iota zeta. rewrite Ha, Hb. simpl.
  unfold FS.exists_. unfold FS.isdir in Hdir.
  destruct (FS.stat d a) as [[]|]; try discriminate. exact Hmk.
Qed.

Lemma fold_join_prefix (dirs : list string) (a : string) :
  (forall x, In x dirs -> Py.startswith x "/" = false) ->
  String.prefix a (fold_left Path.join dirs a) = true.
Proof.
  revert a; induction dirs as [|x dirs IH]; intros a Hdirs;
    [apply prefix_refl|].
  simpl. eapply prefix_trans; [|apply IH; intros y Hy; apply Hdirs; now right].
  apply join_prefix; [apply prefix_refl | apply Hdirs; now left].
Qed.

(** Lines 384-391 from a directory that is there, with nothing but
    directories on the way: the folders are there afterwards, and only
    missing ones were created. *)
Lemma make_folders_spec (dirs : list string) (a : string) (st : state) :
  (forall x, In x dirs -> Py.is_empty x = false /\ Path.rfind "/" x = None) ->
  Py.is_empty a = false -> Path.endswith_sep a = false ->
  FS.isdir (disk st) a = true ->
  (forall q f, String.prefix q (fold_left Path.join dirs a) = true ->
               disk st !! q <> Some (File f)) ->
  exists st',
    make_folders a dirs st = (st', Ok (fold_left Path.join dirs a))
    /\ FS.isdir (disk st') (fold_left Path.join dirs a) = true
    /\ Py.is_empty (fold_left Path.join dirs a) = false
    /\ Path.endswith_sep (fold_left Path.join dirs a) = false
    /\ test_file_dict st' = test_file_dict st
    /\ forall q,
         disk st' !! q = disk st !! q
         \/ (disk st !! q = None /\ disk st' !! q = Some Dir
             /\ String.prefix q (fold_left Path.join dirs a) = true).
Proof.
  revert a st; induction dirs as [|thedir dirs IH];
    intros a st Hdirs Ha Hopen Hdir Hway.
  - exists st. simpl. repeat split; auto.
  - destruct (Hdirs thedir (or_introl eq_refl)) as [Hb Hsep].
    assert (Hdirs' : forall x, In x dirs ->
              Py.is_empty x = false /\ Path.rfind "/" x = None)
      by (intros x Hx; apply Hdirs; now right).
    set (name := Path.join a thedir) in *.
    assert (Hname : Py.is_empty name = false) by now apply child_not_empty.
    assert (Hnopen : Path.endswith_sep name = false) by now apply child_open.
    assert (Hstat : forall d, FS.stat d name = d !! name).
    { intros d. apply stat_lookup; [exact Hname|].
      now apply child_not_root. }
    assert (Hpre : String.prefix name (fold_left Path.join dirs name) = true).
    { apply fold_join_prefix. intros x Hx. apply no_sep_relative.
      now apply Hdirs'. }
    cbn [make_folders fold_left]. fold name.
    unfold mbind at 1, io_bind at 1, ask.
    destruct (FS.exists_ (disk st) name) eqn:Hex.
    + unfold mbind at 1, io_bind at 1, unless, skip, ret.
      apply IH; auto.
      unfold FS.exists_ in Hex. unfold FS.isdir. rewrite Hstat in *.
      destruct (disk st !! name) as [[f|]|] eqn:E; try discriminate;
        [|reflexivity].
      now destruct (Hway name f Hpre).
    + assert (Hfree : disk st !! name = None).
      { unfold FS.exists_ in Hex. rewrite Hstat in Hex.
        now destruct (disk st !! name). }
      unfold mbind at 1, io_bind at 1, unless, on_disk.
      pose proof (makedirs_child (disk st) a thedir Ha Hopen Hb Hsep Hdir
                    Hfree) as Hmk.
      fold name in Hmk. rewrite Hmk.
      set (st1 := mkState (<[name := Dir]> (disk st)) (test_file_dict st)).
      destruct (IH name st1 Hdirs' Hname Hnopen) as (st' & Hrun & Hrest).
      * unfold FS.isdir. rewrite Hstat. simpl. now rewrite lookup_insert_eq.
      * intros q f Hq. simpl.
        destruct (decide (name = q)) as [<-|Hne];
          [now rewrite lookup_insert_eq|].
        rewrite lookup_insert_ne by exact Hne. now apply Hway.
      * exists st'. split; [exact Hrun|].
        destruct Hrest as (H1 & H2 & H3 & H4 & H5).
        repeat split; auto. intros q.
        destruct (H5 q) as [E|(E1 & E2 & E3)]; simpl in *.
        -- destruct (decide (name = q)) as [<-|Hne].
           ++ right. rewrite E, lookup_insert_eq. auto.
           ++ left. now rewrite E, lookup_insert_ne.
        -- destruct (decide (name = q)) as [<-|Hne];
             [now rewrite lookup_insert_eq in E1|].
           rewrite lookup_insert_ne in E1 by exact Hne. right. auto.
Qed.

End Folders.

Section Placement.

Variable strftime : string -> datetime -> result string.
Variable cfg : config.
Hypothesis test_off : test cfg = false.
Hypothesis copy_off : copy_files cfg = false.
Hypothesis rename_off : rename_format cfg = None.


End Placement.


(** * What a run leaves alone *)

Section Below.

Lemma dir_prefix_cases (a : string) :
  FS.dir_prefix a = a \/ FS.dir_prefix a = a +:+ "/".
Proof. unfold FS.dir_prefix. destruct (Path.endswith_sep a); auto. Qed.

Lemma prefix_dir_prefix (a : string) :
  String.prefix a (FS.dir_prefix a) = true.
Proof.
  destruct (dir_prefix_cases a) as [-> | ->]; [apply prefix_refl|].
  apply prefix_app. now exists "/".
Qed.

Lemma sep_end_dir_prefix (a : string) :
  Py.is_empty a = false -> sep_end (FS.dir_prefix a).
Proof.
  intros Ha. unfold FS.dir_prefix.
  destruct (Path.endswith_sep a) eqn:E; [|apply sep_end_sep].
  right. unfold Path.endswith_sep in E.
  destruct (Path.rfind "/" a) as [i|]; [|discriminate].
  exists i. split; [reflexivity|]. now apply Nat.eqb_eq.
Qed.

(** [os.path.join] of a directory and a relative name. *)
Lemma join_dir_prefix (a b : string) :
  Py.is_empty a = false -> Py.startswith b "/" = false ->
  Path.join a b = FS.dir_prefix a +:+ b.
Proof.
  intros Ha Hb. unfold Path.join, FS.dir_prefix. rewrite Hb, Ha. simpl.
  destruct (Path.endswith_sep a); [reflexivity|]. now rewrite app_assoc.
Qed.

Lemma under_refl (a : string) : under a a.
Proof. now left. Qed.

Lemma under_trans (a b c : string) : under a b -> under b c -> under a c.
Proof.
  intros [->|Hab] [->|Hbc]; [now left | now right | now right|].
  right. eapply prefix_trans; [exact Hab|].
  eapply prefix_trans; [apply prefix_dir_prefix | exact Hbc].
Qed.

Lemma prefix_snoc (x y : string) (c : ascii) :
  String.prefix x (y +:+ String c "") = true ->
  String.prefix x y = true \/ x = y +:+ String c "".
Proof.
  revert x; induction y as [|b y IH]; intros x.
  - destruct x as [|a x]; [now left|]. rewrite app_empty_l. simpl.
    destruct (ascii_dec a c) as [->|]; [|discriminate].
    destruct x; [now right | discriminate].
  - destruct x as [|a x]; [now left|]. rewrite app_cons. simpl.
    destruct (ascii_dec a b) as [->|]; [|discriminate].
    intros H. destruct (IH x H) as [Hp| ->]; [now left | now right].
Qed.

Lemma prefix_of_dir_prefix (x t : string) :
  String.prefix x (FS.dir_prefix t) = true ->
  String.prefix x t = true \/ x = FS.dir_prefix t.
Proof.
  destruct (dir_prefix_cases t) as [E|E]; rewrite E; [now left|].
  apply prefix_snoc.
Qed.

Lemma app_sep_inj (a b : string) : a +:+ "/" = b +:+ "/" -> a = b.
Proof.
  revert b; induction a as [|x a IH]; intros [|y b]; simpl; try easy.
  - destruct b; discriminate.
  - destruct a; discriminate.
  - intros [= -> H]. f_equal. now apply IH.
Qed.

Lemma dir_prefix_same (a b : string) :
  FS.dir_prefix a = FS.dir_prefix b -> under a b \/ under b a.
Proof.
  intros E.
  destruct (dir_prefix_cases a) as [Ea|Ea], (dir_prefix_cases b) as [Eb|Eb].
  - left. left. congruence.
  - right. right. rewrite <- E, Ea. apply prefix_refl.
  - left. right. rewrite E, Eb. apply prefix_refl.
  - left. left. symmetry. apply app_sep_inj. congruence.
Qed.

(** Two directories with a path below both: one is below the other. *)
Lemma under_comparable (q top name : string) :
  under q name -> under top name -> under top q \/ under q top.
Proof.
  intros [->|Hq] [->|Ht].
  - left. now left.
  - left. now right.
  - right. now right.
  - destruct (prefix_comparable _ _ _ Hq Ht) as [H|H].
    + destruct (prefix_of_dir_prefix _ _ H) as [H'|H']; [right; now right|].
      destruct (dir_prefix_same _ _ H'); auto.
    + destruct (prefix_of_dir_prefix _ _ H) as [H'|H']; [left; now right|].
      destruct (dir_prefix_same _ _ H'); auto.
Qed.

Lemma rfind_take (c : ascii) (p : string) (k : nat) :
  Path.rfind c p = Some k ->
  exists u, Path.take (S k) p = u +:+ String c "".
Proof.
  revert k; induction p as [|x p IH]; intros k; [discriminate|].
  rewrite rfind_cons. destruct (Path.rfind c p) as [j|].
  - intros [= <-]. destruct (IH j eq_refl) as [u Hu].
    exists (String x u).
    change (Path.take (S (S j)) (String x p))
      with (String x (Path.take (S j) p)).
    now rewrite Hu.
  - destruct (Ascii.eqb x c) eqn:E; [|discriminate].
    intros [= <-]. apply Ascii.eqb_eq in E as ->. exists "".
    now destruct p.
Qed.

Lemma rstrip_sep_parts (u : string) :
  exists z, u = Path.rstrip_sep u +:+ z /\ Path.all_sep z = true.
Proof.
  induction u as [|x u (z & Hz & Hsep)]; [now exists ""|].
  change (Path.rstrip_sep (String x u))
    with (if Py.is_empty (Path.rstrip_sep u) && Ascii.eqb x "/"
          then "" else String x (Path.rstrip_sep u)).
  destruct (Py.is_empty (Path.rstrip_sep u) && Ascii.eqb x "/") eqn:E.
  - apply andb_true_iff in E as [Hr Hx].
    destruct (Path.rstrip_sep u); [|discriminate].
    exists (String x u). split; [reflexivity|].
    rewrite app_empty_l in Hz. subst z. simpl. now rewrite Hx.
  - exists z. split; [|exact Hsep]. rewrite app_cons. now f_equal.
Qed.

Lemma rstrip_sep_open (u : string) :
  Py.is_empty (Path.rstrip_sep u) = false ->
  Path.endswith_sep (Path.rstrip_sep u) = false.
Proof.
  induction u as [|x u IH]; [discriminate|].
  change (Path.rstrip_sep (String x u))
    with (if Py.is_empty (Path.rstrip_sep u) && Ascii.eqb x "/"
          then "" else String x (Path.rstrip_sep u)).
  destruct (Py.is_empty (Path.rstrip_sep u) && Ascii.eqb x "/") eqn:E;
    [discriminate|]. intros _.
  destruct (Path.rstrip_sep u) as [|y r] eqn:Er.
  - simpl in E. unfold Path.endswith_sep. rewrite rfind_cons. simpl.
    now rewrite E.
  - rewrite endswith_sep_cons. now apply IH.
Qed.

Lemma all_sep_starts (z : string) :
  Path.all_sep z = true -> exists r, z +:+ "/" = String "/" r.
Proof.
  destruct z as [|x z]; [now exists ""|]. simpl.
  intros [Hx%Ascii.eqb_eq _]%andb_true_iff. subst x.
  now exists (z +:+ "/").
Qed.

(** The head [os.path.split] gives is a directory above the path. *)
Lemma split_under (p h t : string) :
  Path.split p = (h, t) -> Py.is_empty h = false ->
  String.prefix (FS.dir_prefix h) p = true.
Proof.
  unfold Path.split.
  destruct (Path.rfind "/" p) as [k|] eqn:Hk;
    [|intros [= <- _]; discriminate].
  destruct (rfind_take _ _ _ Hk) as [u Hu]. rewrite Hu.
  pose proof (prefix_take (S k) p) as Hpre. rewrite Hu in Hpre.
  destruct (negb (Py.is_empty (u +:+ "/")) && negb (Path.all_sep (u +:+ "/")))
    eqn:E.
  - intros [= <- _] Hne. rewrite rstrip_sep_sep in *.
    pose proof (rstrip_sep_open u Hne) as Hopen.
    unfold FS.dir_prefix. rewrite Hopen.
    destruct (rstrip_sep_parts u) as (z & Hz & Hsep).
    destruct (all_sep_starts z Hsep) as [r Hr].
    eapply prefix_trans; [|exact Hpre].
    apply prefix_app. exists r.
    rewrite Hz at 1. now rewrite !app_assoc, Hr.
  - intros [= <- _] _.
    assert (Hall : Path.all_sep (u +:+ "/") = true).
    { apply andb_false_iff in E as [E|E]; [|now apply negb_false_iff in E].
      now destruct u. }
    unfold FS.dir_prefix.
    rewrite (all_sep_ends _ Hall) by now destruct u.
    exact Hpre.
Qed.

Lemma makedirs_head_under (name head : string) :
  FS.makedirs_head name = Some head -> under head name.
Proof.
  unfold FS.makedirs_head.
  pose proof (split_under name) as H1.
  pose proof (split_head_prefix name) as P1.
  destruct (Path.split name) as [h t]. simpl in P1.
  destruct (Py.is_empty t).
  - pose proof (split_under h) as H2.
    destruct (Path.split h) as [h' t'].
    destruct (Py.is_empty h') eqn:Hh'; [discriminate|]. simpl.
    destruct (negb (Py.is_empty t')); [|discriminate]. intros [= <-].
    right. eapply prefix_trans; [now apply (H2 h' t')|exact P1].
  - destruct (Py.is_empty h) eqn:Hh; [discriminate|]. simpl.
    destruct (negb _); [|discriminate]. intros [= <-].
    right. now apply (H1 h t).
Qed.

(** [os.makedirs(name)] creates [name] and directories above it. *)
Lemma makedirs_go_under (fuel : nat) (d d' : gmap string node)
    (name q : string) :
  FS.makedirs_go fuel d name = Ok d' -> d' !! q <> d !! q -> under q name.
Proof.
  revert d d' name; induction fuel as [|fuel IH]; intros d d' name; simpl.
  - intros H Hq. rewrite (mkdir_only _ _ _ _ H Hq). apply under_refl.
  - assert (Hmk : forall d0, FS.mkdir d0 name = Ok d' -> d' !! q <> d0 !! q ->
                    under q name).
    { intros d0 H Hq. rewrite (mkdir_only _ _ _ _ H Hq). apply under_refl. }
    destruct (FS.makedirs_head name) as [head|] eqn:Hhead; [|apply Hmk].
    destruct (FS.exists_ d head); [apply Hmk|].
    destruct (FS.makedirs_go fuel d head) as [d1|e] eqn:E; [|discriminate].
    intros H Hq. destruct (decide (d' !! q = d1 !! q)) as [E1|E1].
    + eapply under_trans; [|apply makedirs_head_under, Hhead].
      eapply IH; [exact E | congruence].
    + now apply (Hmk d1).
Qed.

End Below.

Section Frame.

Variable strftime : string -> datetime -> result string.
Variable fnmatch : string -> string -> bool.
Variable clock : nat -> datetime.
Variable cfg : config.

(** The name a rename format gives is relative. *)
Hypothesis rename_relative :
  forall fmt date name,
    rename_format cfg = Some fmt -> strftime fmt date = Ok name ->
    Py.startswith name "/" = false.

Hypothesis dest_not_empty : Py.is_empty (dest_dir cfg) = false.

Local Abbreviation top := (dest_dir cfg).

(** At the destination directory, above it or below it. *)
Local Abbreviation dest_side := (fun p => under top p \/ under p top).

Lemma under_dir_prefix (name : string) :
  under top name ->
  String.prefix (FS.dir_prefix top) (FS.dir_prefix name) = true.
Proof.
  intros [->|H]; [apply prefix_refl|].
  eapply prefix_trans; [exact H | apply prefix_dir_prefix].
Qed.

Lemma join_under (name b : string) :
  Py.is_empty name = false -> under top name ->
  Py.startswith b "/" = false ->
  String.prefix (FS.dir_prefix top) (Path.join name b) = true
  /\ Py.is_empty (Path.join name b) = false.
Proof.
  intros Hne Hunder Hb. rewrite join_dir_prefix by assumption. split.
  - apply prefix_append. now apply under_dir_prefix.
  - destruct (dir_prefix_cases name) as [-> | ->]; now destruct name.
Qed.

Lemma make_folders_confined (dirs : list string) (name : string) :
  (forall x, In x dirs -> Py.startswith x "/" = false) ->
  Py.is_empty name = false -> under top name ->
  confined dest_side (fun q => under top q /\ Py.is_empty q = false)
           (make_folders name dirs).
Proof.
  revert name; induction dirs as [|thedir dirs IH];
    intros name Hdirs Hne Hunder.
  - now apply confined_ret.
  - simpl.
    destruct (join_under name thedir Hne Hunder (Hdirs _ (or_introl eq_refl)))
      as [Hnext Hnempty].
    eapply confined_bind; [apply (confined_ask _ anything); easy|].
    intros present _.
    eapply confined_bind.
    + unfold unless. destruct present; [apply confined_skip|].
      apply confined_on_disk. intros d d' Hmk p Hp.
      apply (under_comparable p top (Path.join name thedir));
        [|now right].
      eapply makedirs_go_under; eassumption.
    + intros _ _. apply IH; [|exact Hnempty|now right].
      intros x Hx. apply Hdirs. now right.
Qed.

Lemma check_collisions_keeps (pre : string) (fuel : nat) (st : state)
    (src_file root ext dest_file q : string) (append : nat) (b : bool) :
  String.prefix pre root = true -> String.prefix pre dest_file = true ->
  check_collisions fuel cfg st src_file root ext dest_file append
  = Some (Ok (q, b)) ->
  String.prefix pre q = true.
Proof.
  intros Hroot. revert dest_file append;
    induction fuel as [|fuel IH]; intros dest_file append Hdest;
    [discriminate|].
  simpl. destruct (taken (test cfg) st dest_file); [|now intros [= <- _]].
  assert (Hnext : String.prefix pre (root +:+ "_" +:+ pretty append +:+ ext)
                  = true) by now apply prefix_append.
  destruct (remove_duplicates cfg); [|now apply IH].
  destruct (FS.cmp _ _ _) as [[|]|e]; [now intros [= <- _] | | discriminate].
  now apply IH.
Qed.

Lemma place_confined (src_file : string) (date : datetime) :
  confined (fun p => dest_side p \/ p = src_file) anything
           (place strftime cfg src_file date).
Proof.
  unfold place. destruct (Py.startswith _ _); [apply confined_skip|].
  eapply confined_bind; [apply (confined_pure _ anything); easy|].
  intros date' _.
  eapply confined_bind; [apply (confined_pure _ anything); easy|].
  intros dir_structure _.
  eapply confined_bind.
  { eapply confined_mono;
      [| |apply (make_folders_confined (Py.split "/" dir_structure) top)].
    - intros p Hp. left. exact Hp.
    - intros a Ha. exact Ha.
    - intros x Hx. now apply (split_go_parts "" dir_structure).
    - exact dest_not_empty.
    - apply under_refl. }
  intros folder [Hfolder Hfne].
  eapply confined_bind
    with (Q := fun filename => Py.startswith filename "/" = false).
  { destruct (rename_format cfg) as [fmt|] eqn:Hfmt.
    - eapply confined_bind
        with (Q := fun name => Py.startswith name "/" = false).
      + apply confined_pure. intros name Hname.
        eapply rename_relative; [reflexivity | exact Hname].
      + intros name Hname. apply confined_ret.
        destruct name as [|y name].
        * rewrite app_empty_l. apply splitext_ext.
        * rewrite app_cons, startswith_cons.
          now rewrite startswith_cons in Hname.
    - apply confined_ret, basename_relative. }
  intros filename Hfilename. cbv beta in Hfilename.
  pose proof (under_dir_prefix folder Hfolder) as Hpre.
  rewrite (join_dir_prefix folder filename Hfne Hfilename).
  destruct (Path.splitext (FS.dir_prefix folder +:+ filename))
    as [root ext] eqn:Hsplit.
  eapply confined_bind
    with (Q := fun r => String.prefix (FS.dir_prefix top) (fst r) = true).
  { apply confined_same.
    - intros st. unfold resolve_collisions.
      now destruct (check_collisions _ _ _ _ _ _ _ _).
    - intros st [q b]. unfold resolve_collisions.
      destruct (check_collisions _ _ _ _ _ _ _ _) as [r|] eqn:E;
        [|simpl; discriminate].
      simpl. intros ->.
      eapply check_collisions_keeps; [| |exact E].
      + eapply prefix_trans; [exact Hpre|].
        eapply splitext_root; [|exact Hsplit].
        now apply sep_end_dir_prefix.
      + now apply prefix_append. }
  intros [dest_file fileIsIdentical] Hdest. simpl in Hdest.
  unfold transfer. destruct (test cfg).
  - intros st. simpl. split; easy.
  - destruct (copy_files cfg).
    + destruct fileIsIdentical; [apply confined_skip|].
      apply confined_on_disk. intros d d' Hcp p Hp. left. left. right.
      eapply prefix_trans; [exact Hdest|]. eapply copy2_only; eassumption.
    + apply confined_on_disk. intros d d' Hmv p Hp.
      destruct (move_only _ _ _ _ _ Hmv Hp) as [->|Hq]; [now right|].
      left. left. right. eapply prefix_trans; eassumption.
Qed.

Lemma process_record_confined (groups tags : list string)
    (ignore : option (list string)) (idx : nat) (data : record) :
  confined (fun p => dest_side p \/ named data p) anything
    (process_record strftime fnmatch clock cfg groups tags ignore idx data).
Proof.
  unfold process_record.
  eapply confined_bind
    with (Q := fun r => dict_get "SourceFile" data = Ok (fst (fst r))).
  { apply confined_pure. intros [[src_file date] ks].
    unfold get_oldest_timestamp.
    destruct (dict_get "SourceFile" data) as [v|e]; [|discriminate].
    simpl. destruct (oldest_loop _ _ _ _ _ _) as [o|e]; [|discriminate].
    simpl. now intros [= <- _ _]. }
  intros [[src_file date] ks] Hsrc. simpl in Hsrc.
  eapply confined_bind with (Q := anything).
  { destruct (verbose cfg); [|apply confined_skip].
    eapply confined_bind; [apply (confined_pure _ anything); easy|].
    intros _ _. apply confined_skip. }
  intros _ _. destruct date as [date|]; [|apply confined_skip].
  eapply confined_bind with (Q := fun s => src_file = VStr s).
  { apply confined_pure. intros s. destruct src_file; try discriminate.
    now intros [= ->]. }
  intros s ->.
  eapply confined_bind with (Q := anything).
  { destruct ignore as [filters|]; [|apply confined_skip].
    eapply confined_mono; [| |apply filter_ignored_confined]; [|easy].
    intros p ->. now right. }
  intros _ _.
  eapply confined_mono; [| |apply place_confined]; [|easy].
  intros p [Hp| ->]; [now left | now right].
Qed.

Lemma process_records_confined (groups tags : list string)
    (ignore : option (list string)) (metadata : list record) (idx : nat) :
  confined
    (fun p => dest_side p \/ exists data, In data metadata /\ named data p)
    anything
    (process_records strftime fnmatch clock cfg groups tags ignore idx
       metadata).
Proof.
  revert idx; induction metadata as [|data rest IH]; intros idx.
  - apply confined_skip.
  - simpl. eapply confined_bind with (Q := anything).
    + eapply confined_mono; [| |apply process_record_confined]; [|easy].
      intros p [Hp|Hp]; [now left|]. right. exists data. split; [now left|].
      exact Hp.
    + intros _ _. eapply confined_mono; [| |apply IH]; [|easy].
      intros p [Hp|(d & Hin & Hp)]; [now left|].
      right. exists d. split; [now right | exact Hp].
Qed.

End Frame.

Section Run.

Variable strftime : string -> datetime -> result string.
Variable fnmatch : string -> string -> bool.
Variable get_metadata : list string -> gmap string node -> list record.
Variable clock : nat -> datetime.
Variable cfg : config.

Hypothesis rename_relative :
  forall fmt date name,
    rename_format cfg = Some fmt -> strftime fmt date = Ok name ->
    Py.startswith name "/" = false.

Hypothesis dest_not_empty : Py.is_empty (dest_dir cfg) = false.


End Run.


Example sortPhotos_confined_sample :
  let d := fst (sortPhotos strftime_py3 glob sample_metadata sample_clock
                  rename_config sample_disk) in
  d !! "out/2020/05-May/img.jpg" = Some (File (mkFile "aaa" 1))
  /\ d !! "out/2020/05-May/img.db" = Some (File (mkFile "bbb" 2))
  /\ d !! "out/2020/05-May/img_1.jpg" = Some (File (mkFile "ccc" 3))
  /\ d !! "src/a.jpg" = None /\ d !! "src/sub" = None
  /\ d !! "src" = Some Dir.
Proof. vm_compute. repeat split. Qed.
